(** * FDA submission tracker: the Merger (data/merge_fda_data.py) and the
    Dashboard's load and filter steps (app.py), embedded over a small model
    of the pandas operations the two scripts call. *)

From stdpp Require Import gmap strings list sorting.
From Stdlib Require Import ZArith Ascii.

Local Open Scope string_scope.

(** ** Cells, exceptions and the pandas primitives used by the scripts *)

(** A cell of a DataFrame as [read_csv] leaves it: missing ([NaN]), a Python
    [str], or a number (an entry of an int64/float64 column), which is
    carried as the text [str()] gives for it. *)
Inductive cell :=
  | NaN
  | Str (s : string)
  | Num (repr : string).

#[global] Instance cell_eq_dec : EqDecision cell.
Proof. solve_decision. Defined.

#[global] Instance cell_inhabited : Inhabited cell := populate NaN.

(** [Series.astype(str)] on one cell, as pandas before 3.0 converts it: a
    missing value becomes the text "nan". (From pandas 3.0 on a missing value
    stays missing: [Pandas3.astype_str] below.) *)
Definition astype_str (c : cell) : string :=
  match c with
  | NaN => "nan"
  | Str s => s
  | Num repr => repr
  end.

Definition isna (c : cell) : bool :=
  match c with NaN => true | _ => false end.

(** [Series.dropna()] *)
Definition dropna (x : list cell) : list cell :=
  List.filter (λ c, negb (isna c)) x.

(** [Series.fillna(v)] on one cell *)
Definition fillna (v : cell) (c : cell) : cell :=
  if isna c then v else c.

(** The exceptions the scripts can meet, by the class a handler selects on.
    The message text of an exception is carried only where the caller
    supplies it. *)
Inductive exn :=
  | FileNotFoundError (msg : string)
  | ParserError (msg : string)
  | KeyError (labels : list string)
  | TypeError
  | AttributeError
  | ValueError
  | OtherException (cls msg : string).

(** Fallible steps: [inl e] is a raised exception. *)
Definition result (A : Type) : Type := exn + A.

#[global] Instance result_ret : MRet result := λ A x, inr x.
#[global] Instance result_bind : MBind result :=
  λ A B f m, match m with inl e => inl e | inr x => f x end.

Fixpoint mapE {A B} (f : A → result B) (l : list A) : result (list B) :=
  match l with
  | [] => mret []
  | x :: l' => y ← f x; ys ← mapE f l'; mret (y :: ys)
  end.

(** [Series.unique()]: the distinct values in order of first appearance. *)
Fixpoint unique `{EqDecision A} (l : list A) : list A :=
  match l with
  | [] => []
  | x :: l' => x :: List.filter (λ y, bool_decide (y ≠ x)) (unique l')
  end.

(** [Series.nunique()] and [Series.duplicated().sum()] on a column without
    missing values. *)
Definition nunique `{EqDecision A} (l : list A) : nat := length (unique l).
Definition duplicated_sum `{EqDecision A} (l : list A) : nat :=
  length l - length (unique l).

(** [sep.join(items)] for a list of [str]; raises TypeError at an item that
    is not a [str]. *)
Fixpoint texts (x : list cell) : result (list string) :=
  match x with
  | [] => mret []
  | Str s :: x' => ss ← texts x'; mret (s :: ss)
  | _ :: _ => inl TypeError
  end.

Definition str_join (sep : string) (x : list cell) : result string :=
  ss ← texts x; mret (String.concat sep ss).

(** [str.replace(old, new)] for a one-character [old]. *)
Fixpoint replace_char (old : ascii) (new : string) (s : string) : string :=
  match s with
  | EmptyString => EmptyString
  | String c s' =>
      if decide (c = old) then new +:+ replace_char old new s'
      else String c (replace_char old new s')
  end.

(** [Series.str.replace(old, new, regex=False)] on one cell of an object
    column: elements that are not [str] give NaN. *)
Definition str_replace (old : ascii) (new : string) (c : cell) : cell :=
  match c with
  | Str s => Str (replace_char old new s)
  | _ => NaN
  end.

(** [Series.replace(d)] on one cell: a cell equal to a key of [d] is replaced
    by the value, any other cell is kept. Only [str] cells can equal a
    [str] key. *)
Definition replace_dict (d : gmap string string) (c : cell) : cell :=
  match c with
  | Str s => match d !! s with Some v => Str v | None => c end
  | _ => c
  end.

(** [left.merge(right, on=key, how="left")]: every left row, in order, paired
    with each right row of the same key in the right table's order, or
    completed with missing values when no right row has its key. Keys are
    compared as values; a missing key matches a missing key. *)
Definition merge_left {K L R O} `{EqDecision K} (lkey : L → K) (rkey : R → K)
    (matched : L → R → O) (unmatched : L → O)
    (left : list L) (right : list R) : list O :=
  flat_map (λ l,
    match List.filter (λ r, bool_decide (rkey r = lkey l)) right with
    | [] => [unmatched l]
    | ms => matched l <$> ms
    end) left.

(** A DataFrame as [read_csv] returns it: its column labels and its rows,
    each a dict from label to cell. *)
Record frame := Frame {
  columns : list string;
  records : list (gmap string cell)
}.

(** [df[labels]]: KeyError, naming the labels that are not columns, when
    there is one. *)
Definition check_columns (labels : list string) (df : frame) : result unit :=
  match List.filter (λ c, bool_decide (c ∉ columns df)) labels with
  | [] => mret ()
  | missing => inl (KeyError missing)
  end.

(** What [print] writes: a line is the sequence of its arguments; numbers,
    lists and exception texts are kept as values, not rendered. *)
Inductive piece :=
  | Txt (s : string)
  | Int (n : nat)
  | Labels (l : list string)
  | Cells (l : list cell)
  | Exc (e : exn).

Definition line : Type := list piece.

(** ** The Merger: data/merge_fda_data.py *)

Module Sub.
(** Submissions after the column selection and renaming of lines 27-38;
    [K] is the type of the join key, a cell before line 50 and a [str]
    after it. *)
Record row (K : Type) := Row {
  Application_No : K;
  Submission_Type : cell;
  Submission_No : cell;
  Status : cell;
  Submission_Date : cell;
  ReviewPriority : cell
}.
Arguments Row {K}.
Arguments Application_No {K}.
Arguments Submission_Type {K}.
Arguments Submission_No {K}.
Arguments Status {K}.
Arguments Submission_Date {K}.
Arguments ReviewPriority {K}.
End Sub.

Module Apps.
(** Applications after lines 28 and 40-43. *)
Record row (K : Type) := Row {
  Application_No : K;
  Sponsor : cell
}.
Arguments Row {K}.
Arguments Application_No {K}.
Arguments Sponsor {K}.
End Apps.

Module Prods.
(** Products after lines 29 and 45-47. *)
Record row (K : Type) := Row {
  Application_No : K;
  Form : cell;
  Strength : cell;
  DrugName : cell
}.
Arguments Row {K}.
Arguments Application_No {K}.
Arguments Form {K}.
Arguments Strength {K}.
Arguments DrugName {K}.
End Prods.

Module Df.
(** A row of the merged table [df] of line 71 onwards. *)
Record row := Row {
  Application_No : string;
  Submission_Type : cell;
  Submission_No : cell;
  Status : cell;
  Submission_Date : cell;
  ReviewPriority : cell;
  Sponsor : cell;
  Form : cell;
  Strength : cell;
  DrugName : cell
}.
End Df.

Module Xlsx.
(** A cell of the written workbook: an empty cell, a text, or a number
    (carried as its text). [read_excel] returns an empty cell as a missing
    value. *)
Inductive cell :=
  | Blank
  | Text (s : string)
  | Number (repr : string).

(** A row of the sheet of fda_submissions_merged.xlsx, under its header. *)
Record row := Row {
  Application_No : cell;
  Submission_Type : cell;
  Submission_No : cell;
  Status : cell;
  Submission_Date : cell;
  ReviewPriority : cell;
  Sponsor : cell;
  Form : cell;
  Strength : cell;
  DrugName : cell
}.
End Xlsx.

Module Merger.

(** Lines 27 and 32-38: [submissions[[...]].copy()] and the renaming. *)
Definition select_sub (submissions : frame) : result (list (Sub.row cell)) :=
  _ ← check_columns ["ApplNo"; "SubmissionType"; "SubmissionNo";
                     "SubmissionStatus"; "SubmissionStatusDate";
                     "ReviewPriority"] submissions;
  mret ((λ r, Sub.Row (r !!! "ApplNo") (r !!! "SubmissionType")
                (r !!! "SubmissionNo") (r !!! "SubmissionStatus")
                (r !!! "SubmissionStatusDate") (r !!! "ReviewPriority"))
        <$> records submissions).

(** Lines 28 and 40-43. *)
Definition select_apps (applications : frame) : result (list (Apps.row cell)) :=
  _ ← check_columns ["ApplNo"; "SponsorName"] applications;
  mret ((λ r, Apps.Row (r !!! "ApplNo") (r !!! "SponsorName"))
        <$> records applications).

(** Lines 29 and 45-47. *)
Definition select_prods (products : frame) : result (list (Prods.row cell)) :=
  _ ← check_columns ["ApplNo"; "Form"; "Strength"; "DrugName"] products;
  mret ((λ r, Prods.Row (r !!! "ApplNo") (r !!! "Form") (r !!! "Strength")
                (r !!! "DrugName"))
        <$> records products).

(** Lines 50-52: the key column through [astype(str)]. *)
Definition sub_astype (r : Sub.row cell) : Sub.row string :=
  Sub.Row (astype_str (Sub.Application_No r)) (Sub.Submission_Type r)
    (Sub.Submission_No r) (Sub.Status r) (Sub.Submission_Date r)
    (Sub.ReviewPriority r).

Definition apps_astype (r : Apps.row cell) : Apps.row string :=
  Apps.Row (astype_str (Apps.Application_No r)) (Apps.Sponsor r).

Definition prods_astype (r : Prods.row cell) : Prods.row string :=
  Prods.Row (astype_str (Prods.Application_No r)) (Prods.Form r)
    (Prods.Strength r) (Prods.DrugName r).

(** Lines 55-59. The rows of one group, in table order. *)
Definition group (k : string) (prods : list (Prods.row string))
    : list (Prods.row string) :=
  List.filter (λ r, bool_decide (Prods.Application_No r = k)) prods.

(** The aggregation function of each column: [", ".join(x.dropna())]. *)
Definition agg_join (x : list cell) : result string :=
  str_join ", " (dropna x).

(** [groupby("Application_No")] sorts the group keys; [reset_index] turns
    the key back into a column. *)
Definition group_keys (prods : list (Prods.row string)) : list string :=
  merge_sort String.le (unique (Prods.Application_No <$> prods)).

Definition agg_group (prods : list (Prods.row string)) (k : string)
    : result (Prods.row string) :=
  form ← agg_join (Prods.Form <$> group k prods);
  strength ← agg_join (Prods.Strength <$> group k prods);
  drug ← agg_join (Prods.DrugName <$> group k prods);
  mret (Prods.Row k (Str form) (Str strength) (Str drug)).

Definition groupby_agg (prods : list (Prods.row string))
    : result (list (Prods.row string)) :=
  mapE (agg_group prods) (group_keys prods).

(** Line 69: [sub.merge(apps, on="Application_No", how="left")]. *)
Definition merge_apps (sub : list (Sub.row string))
    (apps : list (Apps.row string)) : list (Sub.row string * cell) :=
  merge_left Sub.Application_No Apps.Application_No
    (λ s a, (s, Apps.Sponsor a)) (λ s, (s, NaN)) sub apps.

(** Line 71: [df.merge(prods, on="Application_No", how="left")]. *)
Definition with_products (l : Sub.row string * cell) (form strength drug : cell)
    : Df.row :=
  Df.Row (Sub.Application_No l.1) (Sub.Submission_Type l.1)
    (Sub.Submission_No l.1) (Sub.Status l.1) (Sub.Submission_Date l.1)
    (Sub.ReviewPriority l.1) l.2 form strength drug.

Definition merge_prods (df : list (Sub.row string * cell))
    (prods : list (Prods.row string)) : list Df.row :=
  merge_left (λ l, Sub.Application_No l.1) Prods.Application_No
    (λ l p, with_products l (Prods.Form p) (Prods.Strength p)
              (Prods.DrugName p))
    (λ l, with_products l NaN NaN NaN) df prods.

(** Lines 75-79. *)
Definition submission_type_map : gmap string string :=
  {[ "AP" := "Abbreviated NDA"; "TP" := "Therapeutic";
     "ORIG" := "Original"; "SUPPL" := "Supplemental" ]}.

Definition replace_submission_type (r : Df.row) : Df.row :=
  Df.Row (Df.Application_No r)
    (replace_dict submission_type_map (Df.Submission_Type r))
    (Df.Submission_No r) (Df.Status r) (Df.Submission_Date r)
    (Df.ReviewPriority r) (Df.Sponsor r) (Df.Form r) (Df.Strength r)
    (Df.DrugName r).

(** Lines 83-84. After line 71 the table always has a Form column, so the
    guard of line 83 holds. *)
Definition clean_form_cell (c : cell) : cell :=
  str_replace ";"%char " / " (fillna (Str EmptyString) c).

Definition clean_form (r : Df.row) : Df.row :=
  Df.Row (Df.Application_No r) (Df.Submission_Type r) (Df.Submission_No r)
    (Df.Status r) (Df.Submission_Date r) (Df.ReviewPriority r) (Df.Sponsor r)
    (clean_form_cell (Df.Form r)) (Df.Strength r) (Df.DrugName r).

(** Lines 50-84 on the three selected tables: the table that line 89
    writes, or the exception raised on the way. *)
Definition merge_tables (sub : list (Sub.row cell))
    (apps : list (Apps.row cell)) (prods : list (Prods.row cell))
    : result (list Df.row) :=
  let sub := sub_astype <$> sub in
  let apps := apps_astype <$> apps in
  let prods := prods_astype <$> prods in
  prods ← groupby_agg prods;
  let df := merge_apps sub apps in
  let df := merge_prods df prods in
  let df := replace_submission_type <$> df in
  let df := clean_form <$> df in
  mret df.

(** *** The script as a process: what it prints, what it leaves in the
    output file, and its exit status *)

(** What [to_excel] stores for a cell of the frame: a missing value is
    written as the empty text ([na_rep]), and the writer stores the empty
    text as an empty cell, so a missing value and an empty text give the
    same empty cell. *)
Definition excel_cell (c : cell) : Xlsx.cell :=
  match c with
  | NaN => Xlsx.Blank
  | Str s => if decide (s = EmptyString) then Xlsx.Blank else Xlsx.Text s
  | Num repr => Xlsx.Number repr
  end.

Definition excel_row (r : Df.row) : Xlsx.row :=
  Xlsx.Row (excel_cell (Str (Df.Application_No r)))
    (excel_cell (Df.Submission_Type r)) (excel_cell (Df.Submission_No r))
    (excel_cell (Df.Status r)) (excel_cell (Df.Submission_Date r))
    (excel_cell (Df.ReviewPriority r)) (excel_cell (Df.Sponsor r))
    (excel_cell (Df.Form r)) (excel_cell (Df.Strength r))
    (excel_cell (Df.DrugName r)).

(** The rows [to_excel(..., index=False)] writes for a frame, in its
    order. *)
Definition to_sheet (df : list Df.row) : list Xlsx.row := excel_row <$> df.

(** The file fda_submissions_merged.xlsx: the sheet a completed [to_excel]
    wrote, or any other content. [None] is an absent file. *)
Inductive content :=
  | Sheet (rows : list Xlsx.row)
  | Bytes (b : string).

(** What a run depends on outside the script: whether openpyxl imports, the
    directory of the script, what each [read_csv] call returns or raises
    (any subclass of [Exception]), the output file before the run, and, when
    [to_excel] raises, the exception together with what the library left in
    the output file by then. *)
Record world := World {
  openpyxl_installed : bool;
  data_dir : string;
  read_submissions : result frame;
  read_applications : result frame;
  read_products : result frame;
  to_excel_raises : option (exn * option content);
  output_before : option content
}.

Record process := Process {
  stdout : list line;
  output_file : option content
}.

Definition script (A : Type) : Type := process → process * result A.

#[global] Instance script_ret : MRet script := λ A x st, (st, inr x).
#[global] Instance script_bind : MBind script :=
  λ A B f m st,
    match m st with
    | (st', inl e) => (st', inl e)
    | (st', inr x) => f x st'
    end.

Definition print (l : line) : script unit :=
  λ st, (Process (stdout st ++ [l]) (output_file st), inr ()).

(** A step that only computes: its exception, if any, is raised here. *)
Definition lift {A} (r : result A) : script A := λ st, (st, r).

(** [try: body except ...: handler] *)
Definition try_except (body : script unit) (handler : exn → script unit)
    : script unit :=
  λ st,
    match body st with
    | (st', inl e) => handler e st'
    | (st', inr x) => (st', inr x)
    end.

(** Line 89: [df.to_excel(output_path, index=False)]. *)
Definition to_excel (w : world) (df : list Df.row) : script unit :=
  λ st,
    match to_excel_raises w with
    | None => (Process (stdout st) (Some (Sheet (to_sheet df))), inr ())
    | Some (e, left_behind) => (Process (stdout st) left_behind, inl e)
    end.

Definition output_path (w : world) : string :=
  data_dir w +:+ "/fda_submissions_merged.xlsx".

(** Lines 16-88: everything in the [try] block before the file is written. *)
Definition prepare (w : world) : script (list Df.row) :=
  submissions ← lift (read_submissions w);
  applications ← lift (read_applications w);
  products ← lift (read_products w);
  print [Txt "Submissions columns:"; Labels (columns submissions);
         Txt "("; Int (length (records submissions)); Txt " rows)"];;
  print [Txt "Applications columns:"; Labels (columns applications);
         Txt "("; Int (length (records applications)); Txt " rows)"];;
  print [Txt "Products columns:"; Labels (columns products);
         Txt "("; Int (length (records products)); Txt " rows)"];;
  sub ← lift (select_sub submissions);
  apps ← lift (select_apps applications);
  prods ← lift (select_prods products);
  let sub := sub_astype <$> sub in
  let apps := apps_astype <$> apps in
  let prods := prods_astype <$> prods in
  prods ← lift (groupby_agg prods);
  print [Txt "Unique Application_No in Submissions:";
         Int (nunique (Sub.Application_No <$> sub))];;
  print [Txt "Unique Application_No in Applications:";
         Int (nunique (Apps.Application_No <$> apps))];;
  print [Txt "Unique Application_No in Products:";
         Int (nunique (Prods.Application_No <$> prods))];;
  print [Txt "Duplicate Application_No in Applications:";
         Int (duplicated_sum (Apps.Application_No <$> apps))];;
  print [Txt "Duplicate Application_No in Products:";
         Int (duplicated_sum (Prods.Application_No <$> prods))];;
  let df := merge_apps sub apps in
  print [Txt "Rows after merging with Applications:"; Int (length df)];;
  let df := merge_prods df prods in
  print [Txt "Merged rows:"; Int (length df)];;
  let df := replace_submission_type <$> df in
  print [Txt "Unique Submission Types:";
         Cells (unique (Df.Submission_Type <$> df))];;
  let df := clean_form <$> df in
  print [Txt "Output path:"; Txt (output_path w)];;
  mret df.

(** Lines 15-90, the body of the [try]. The check mark that opens the last
    message is left out of its text. *)
Definition try_body (w : world) : script unit :=
  df ← prepare w;
  to_excel w df;;
  print [Txt "Cleaned and saved to "; Txt (output_path w)].

(** Lines 92-99: the handler selected by the class of the exception. *)
Definition except_handlers (e : exn) : script unit :=
  match e with
  | FileNotFoundError _ => print [Txt "Error: File not found - "; Exc e]
  | ParserError _ => print [Txt "Error: Parsing issue - "; Exc e]
  | KeyError _ => print [Txt "Error: Column not found - "; Exc e]
  | _ => print [Txt "Unexpected error: "; Exc e]
  end.

(** Lines 11-99, once openpyxl has been imported. *)
Definition main (w : world) : script unit :=
  print [Txt "Data directory:"; Txt (data_dir w)];;
  try_except (try_body w) except_handlers.

Record outcome := Outcome {
  printed : list line;
  output_after : option content;
  exit_code : Z
}.

(** The whole script. Lines 5-9 leave with [exit(1)] when openpyxl is not
    installed; a script that reaches its end exits with status 0, one that
    an exception escapes with status 1. *)
Definition run (w : world) : outcome :=
  if openpyxl_installed w then
    match main w (Process [] (output_before w)) with
    | (st, inr _) => Outcome (stdout st) (output_file st) 0
    | (st, inl _) => Outcome (stdout st) (output_file st) 1
    end
  else
    Outcome
      [[Txt "Error: 'openpyxl' is not installed. Install it using 'pip install openpyxl'."]]
      (output_before w) 1.

(** The process when it enters the [try] block at line 15. *)
Definition at_try (w : world) : process :=
  Process [[Txt "Data directory:"; Txt (data_dir w)]] (output_before w).

(** The exception lines 16-88 raise in a run, if any, and the one the whole
    [try] block raises, if any. *)
Definition raised_before_write (w : world) : option exn :=
  match prepare w (at_try w) with
  | (_, inl e) => Some e
  | (_, inr _) => None
  end.

Definition raised (w : world) : option exn :=
  match try_body w (at_try w) with
  | (_, inl e) => Some e
  | (_, inr _) => None
  end.

End Merger.

(** ** Lines 50-84 of the Merger under pandas 3

    From pandas 3.0 on, [astype(str)] keeps a missing value missing, so the
    key column can still hold missing values after line 52: a key is an
    [option string], [None] the missing value. [groupby] leaves the rows
    whose key is missing out of every group (its default [dropna=True]), and
    [merge] matches a missing key with a missing key, as it does any two
    equal keys. The other steps are those of [Merger]. *)

Module Pandas3.

Definition astype_str (c : cell) : option string :=
  match c with
  | NaN => None
  | Str s => Some s
  | Num repr => Some repr
  end.

(** A row of the merged table [df] of line 71 onwards. *)
Record row := Row {
  Application_No : option string;
  Submission_Type : cell;
  Submission_No : cell;
  Status : cell;
  Submission_Date : cell;
  ReviewPriority : cell;
  Sponsor : cell;
  Form : cell;
  Strength : cell;
  DrugName : cell
}.

(** Lines 50-52. *)
Definition sub_astype (r : Sub.row cell) : Sub.row (option string) :=
  Sub.Row (astype_str (Sub.Application_No r)) (Sub.Submission_Type r)
    (Sub.Submission_No r) (Sub.Status r) (Sub.Submission_Date r)
    (Sub.ReviewPriority r).

Definition apps_astype (r : Apps.row cell) : Apps.row (option string) :=
  Apps.Row (astype_str (Apps.Application_No r)) (Apps.Sponsor r).

Definition prods_astype (r : Prods.row cell) : Prods.row (option string) :=
  Prods.Row (astype_str (Prods.Application_No r)) (Prods.Form r)
    (Prods.Strength r) (Prods.DrugName r).

(** Lines 55-59: the rows [groupby] puts in a group are those with a key;
    they are grouped and joined as in [Merger.groupby_agg]. *)
Definition grouped (prods : list (Prods.row (option string)))
    : list (Prods.row string) :=
  omap (λ p, k ← Prods.Application_No p;
             Some (Prods.Row k (Prods.Form p) (Prods.Strength p)
                     (Prods.DrugName p))) prods.

Definition groupby_agg (prods : list (Prods.row (option string)))
    : result (list (Prods.row string)) :=
  Merger.groupby_agg (grouped prods).

(** Line 69. *)
Definition merge_apps (sub : list (Sub.row (option string)))
    (apps : list (Apps.row (option string)))
    : list (Sub.row (option string) * cell) :=
  merge_left Sub.Application_No Apps.Application_No
    (λ s a, (s, Apps.Sponsor a)) (λ s, (s, NaN)) sub apps.

(** Line 71. The aggregated table has a key in every row. *)
Definition with_products (l : Sub.row (option string) * cell)
    (form strength drug : cell) : row :=
  Row (Sub.Application_No l.1) (Sub.Submission_Type l.1)
    (Sub.Submission_No l.1) (Sub.Status l.1) (Sub.Submission_Date l.1)
    (Sub.ReviewPriority l.1) l.2 form strength drug.

Definition merge_prods (df : list (Sub.row (option string) * cell))
    (prods : list (Prods.row string)) : list row :=
  merge_left (λ l, Sub.Application_No l.1)
    (λ p, Some (Prods.Application_No p))
    (λ l p, with_products l (Prods.Form p) (Prods.Strength p)
              (Prods.DrugName p))
    (λ l, with_products l NaN NaN NaN) df prods.

(** Lines 75-79. *)
Definition replace_submission_type (r : row) : row :=
  Row (Application_No r)
    (replace_dict Merger.submission_type_map (Submission_Type r))
    (Submission_No r) (Status r) (Submission_Date r) (ReviewPriority r)
    (Sponsor r) (Form r) (Strength r) (DrugName r).

(** Lines 83-84. *)
Definition clean_form (r : row) : row :=
  Row (Application_No r) (Submission_Type r) (Submission_No r) (Status r)
    (Submission_Date r) (ReviewPriority r) (Sponsor r)
    (Merger.clean_form_cell (Form r)) (Strength r) (DrugName r).

(** Lines 50-84 on the three selected tables. *)
Definition merge_tables (sub : list (Sub.row cell))
    (apps : list (Apps.row cell)) (prods : list (Prods.row cell))
    : result (list row) :=
  let sub := sub_astype <$> sub in
  let apps := apps_astype <$> apps in
  let prods := prods_astype <$> prods in
  prods ← groupby_agg prods;
  let df := merge_apps sub apps in
  let df := merge_prods df prods in
  let df := replace_submission_type <$> df in
  let df := clean_form <$> df in
  mret df.

End Pandas3.

(** ** The Dashboard: app.py *)

Module Dashboard.

(** A pandas Timestamp; only its year is read. *)
Record Timestamp := Stamp {
  year : Z;
  month : Z;
  day : Z;
  nanos : Z
}.

#[global] Instance Timestamp_eq_dec : EqDecision Timestamp.
Proof. solve_decision. Defined.

(** A row of the table; [D] is the type of a Submission_Date entry and [Y]
    the type of the Submission_Year column ([unit] before line 27 adds
    it). *)
Record row (D Y : Type) := Row {
  Application_No : cell;
  Submission_Type : cell;
  Submission_No : cell;
  Status : cell;
  Submission_Date : D;
  ReviewPriority : cell;
  Sponsor : cell;
  Form : cell;
  Strength : cell;
  DrugName : cell;
  Submission_Year : Y
}.
Arguments Row {D Y}.
Arguments Application_No {D Y}.
Arguments Submission_Type {D Y}.
Arguments Submission_No {D Y}.
Arguments Status {D Y}.
Arguments Submission_Date {D Y}.
Arguments ReviewPriority {D Y}.
Arguments Sponsor {D Y}.
Arguments Form {D Y}.
Arguments Strength {D Y}.
Arguments DrugName {D Y}.
Arguments Submission_Year {D Y}.

#[global] Instance row_eq_dec `{EqDecision D, EqDecision Y} :
  EqDecision (row D Y).
Proof. solve_decision. Defined.

(** What [read_excel(..., parse_dates=["Submission_Date"])] returns at line
    11. When every present value of the column converts to a date the column
    holds Timestamps, with NaT ([None]) for the missing ones; when one does
    not, pandas returns the column unaltered, as the cells of the sheet. *)
Inductive excel :=
  | Dates (rows : list (row (option Timestamp) unit))
  | Unconverted (rows : list (row cell unit)).

(** One cell of the sheet as [read_excel] returns it: an empty cell is a
    missing value. *)
Definition read_cell (c : Xlsx.cell) : cell :=
  match c with
  | Xlsx.Blank => NaN
  | Xlsx.Text s => Str s
  | Xlsx.Number repr => Num repr
  end.

(** A row of the sheet as [read_excel] returns it, given the date its
    Submission_Date cell converts to. *)
Definition read_row (date : option Timestamp) (x : Xlsx.row)
    : row (option Timestamp) unit :=
  Row (read_cell (Xlsx.Application_No x)) (read_cell (Xlsx.Submission_Type x))
    (read_cell (Xlsx.Submission_No x)) (read_cell (Xlsx.Status x)) date
    (read_cell (Xlsx.ReviewPriority x)) (read_cell (Xlsx.Sponsor x))
    (read_cell (Xlsx.Form x)) (read_cell (Xlsx.Strength x))
    (read_cell (Xlsx.DrugName x)) ().

(** [Series.map(d)] on one cell: the value of the key, NaN for anything that
    is not a key. *)
Definition map_dict (d : gmap string string) (c : cell) : cell :=
  match c with
  | Str s => match d !! s with Some v => Str v | None => NaN end
  | _ => NaN
  end.

(** Lines 13-16 and 18-23: [col.map(d).fillna(col)] on one cell. *)
Definition status_map : gmap string string :=
  {[ "AP" := "Approved"; "TA" := "Tentative Approval" ]}.

Definition submission_type_map : gmap string string :=
  {[ "ORIG" := "Original"; "SUPPL" := "Supplemental";
     "AP" := "Abbreviated NDA"; "TP" := "Therapeutic" ]}.

Definition remap (d : gmap string string) (c : cell) : cell :=
  fillna c (map_dict d c).

(** Lines 13-26 on one row. *)
Definition normalise {D} (r : row D unit) : row D unit :=
  Row (Application_No r) (remap submission_type_map (Submission_Type r))
    (Submission_No r) (remap status_map (Status r)) (Submission_Date r)
    (ReviewPriority r) (fillna (Str "Unknown") (Sponsor r)) (Form r)
    (Strength r) (fillna (Str "Unknown") (DrugName r)) ().

(** Line 12: [dropna(subset=["Submission_Date"])] on a column of dates. *)
Definition dropna_date (rows : list (row (option Timestamp) unit))
    : list (row (option Timestamp) unit) :=
  List.filter (λ r, bool_decide (is_Some (Submission_Date r))) rows.

(** Line 27: the year of the date of a row; every date is present by then. *)
Definition with_year (r : row (option Timestamp) unit)
    : option (row Timestamp Z) :=
  match Submission_Date r with
  | Some t =>
      Some (Row (Application_No r) (Submission_Type r) (Submission_No r)
              (Status r) t (ReviewPriority r) (Sponsor r) (Form r)
              (Strength r) (DrugName r) (year t))
  | None => None
  end.

(** Lines 10-28. On a column that was not converted, line 12 drops the rows
    with a missing cell, lines 13-26 run, and [.dt] at line 27 raises
    AttributeError. *)
Definition load_data (file : excel) : result (list (row Timestamp Z)) :=
  match file with
  | Dates rows => mret (omap with_year (normalise <$> dropna_date rows))
  | Unconverted rows => inl AttributeError
  end.

Section Page.

(** [Series.str.contains(pat, case=False)] on one cell; the matching of the
    pattern, a regular expression, is left open. *)
Variable str_contains : string → cell → bool.

Abbreviation table := (list (row Timestamp Z)).

(** The values of the sidebar widgets, lines 35-41. *)
Record sidebar := Sidebar {
  search : string;
  years : Z * Z;
  selected_status : list cell;
  selected_sponsors : list cell;
  selected_drugs : list cell
}.

(** The options lines 39-41 offer and the selections they start with. *)
Definition status_options (df : table) : list cell := unique (Status <$> df).
Definition sponsor_options (df : table) : list cell :=
  take 30 (unique (Sponsor <$> df)).
Definition sponsor_default (df : table) : list cell :=
  take 10 (unique (Sponsor <$> df)).
Definition drug_options (df : table) : list cell :=
  take 50 (unique (DrugName <$> df)).
Definition drug_default (df : table) : list cell :=
  take 5 (unique (DrugName <$> df)).

(** [int(df["Submission_Year"].min())] and [.max()], lines 36-37: the
    conversion of the NaN of an empty column raises ValueError. *)
Definition year_min (df : table) : result Z :=
  match Submission_Year <$> df with
  | [] => inl ValueError
  | y :: ys => mret (foldr Z.min y ys)
  end.

Definition year_max (df : table) : result Z :=
  match Submission_Year <$> df with
  | [] => inl ValueError
  | y :: ys => mret (foldr Z.max y ys)
  end.

(** The sidebar as the page first shows it: nothing typed in the search box
    and every widget at its default. The slider is one that accepts equal
    bounds; a Streamlit whose slider refuses them raises at line 36 when all
    rows have the same year, which this definition does not cover. *)
Definition default_sidebar (df : table) : result sidebar :=
  lo ← year_min df;
  hi ← year_max df;
  mret (Sidebar EmptyString (lo, hi) (status_options df) (sponsor_default df)
          (drug_default df)).

(** Lines 44-49. *)
Definition passes (w : sidebar) (r : row Timestamp Z) : bool :=
  bool_decide ((years w).1 ≤ Submission_Year r ≤ (years w).2)%Z
  && bool_decide (Status r ∈ selected_status w)
  && bool_decide (Sponsor r ∈ selected_sponsors w)
  && bool_decide (DrugName r ∈ selected_drugs w).

(** Lines 51-55; an empty search string is falsy. *)
Definition found (w : sidebar) (r : row Timestamp Z) : bool :=
  str_contains (search w) (Str (astype_str (Application_No r)))
  || str_contains (search w) (DrugName r).

Definition filtered (df : table) (w : sidebar) : table :=
  let filtered := List.filter (passes w) df in
  if decide (search w = EmptyString) then filtered
  else List.filter (found w) filtered.

(** Lines 57-105: what the page shows. The four metrics are computed; each
    chart is given by the column of [filtered] it is drawn from; the table
    and the CSV export are [filtered] itself. *)
Record page := Page {
  total_submissions : nat;
  unique_sponsors : nat;
  approved : nat;
  unique_drugs : nat;
  top_sponsors_of : list cell;
  monthly_trend_of : list Timestamp;
  status_distribution_of : list cell;
  type_breakdown_of : list cell;
  dataframe : table;
  csv : table
}.

Definition render (filtered : table) : page :=
  Page (length filtered)
    (nunique (dropna (Sponsor <$> filtered)))
    (length (List.filter (λ c, bool_decide (c = Str "Approved"))
               (Status <$> filtered)))
    (nunique (dropna (DrugName <$> filtered)))
    (Sponsor <$> filtered)
    (Submission_Date <$> filtered)
    (Status <$> filtered)
    (Submission_Type <$> filtered)
    filtered
    filtered.

Definition show (df : table) (w : sidebar) : page := render (filtered df w).

End Page.

End Dashboard.

(** ** Vocabulary of the specification *)

(** The [str] values of a column, in order: its non-missing values when the
    column holds text. *)
Definition present_texts (x : list cell) : list string :=
  omap (λ c, match c with Str s => Some s | _ => None end) x.

(** A cell of a text column: missing or a [str]. *)
Definition text_cell (c : cell) : Prop :=
  match c with Num _ => False | _ => True end.

#[global] Instance text_cell_dec c : Decision (text_cell c).
Proof. destruct c; simpl; apply _. Defined.

Definition text_fields {K} (p : Prods.row K) : Prop :=
  text_cell (Prods.Form p) ∧ text_cell (Prods.Strength p)
  ∧ text_cell (Prods.DrugName p).

(** A cell that holds a [str], and a Products row whose three fields do. *)
Definition str_cell (c : cell) : Prop :=
  match c with Str _ => True | _ => False end.

Definition str_fields {K} (p : Prods.row K) : Prop :=
  str_cell (Prods.Form p) ∧ str_cell (Prods.Strength p)
  ∧ str_cell (Prods.DrugName p).

(** The aggregate the specification describes for one column of one group:
    the distinct non-missing values, first seen first, joined by ", ". *)
Definition distinct_join (x : list cell) : string :=
  String.concat ", " (unique (present_texts x)).

(** The aggregate of one column of one group as a closed form: every
    non-missing value, in table order, joined by ", ". *)
Definition plain_join (x : list cell) : string :=
  String.concat ", " (present_texts x).

Definition aggregated_row (prods : list (Prods.row string)) (k : string)
    : Prods.row string :=
  Prods.Row k
    (Str (plain_join (Prods.Form <$> Merger.group k prods)))
    (Str (plain_join (Prods.Strength <$> Merger.group k prods)))
    (Str (plain_join (Prods.DrugName <$> Merger.group k prods))).

(** The label the specification gives for a Submission_Type cell. *)
Definition submission_type_label (c : cell) : cell :=
  match c with
  | Str s =>
      if decide (s = "AP") then Str "Abbreviated NDA"
      else if decide (s = "TP") then Str "Therapeutic"
      else if decide (s = "ORIG") then Str "Original"
      else if decide (s = "SUPPL") then Str "Supplemental"
      else c
  | _ => c
  end.

(** The label the specification gives for a Status cell in the Dashboard. *)
Definition status_label (c : cell) : cell :=
  match c with
  | Str s =>
      if decide (s = "AP") then Str "Approved"
      else if decide (s = "TA") then Str "Tentative Approval"
      else c
  | _ => c
  end.

(** An output row that carries the fields of submission row [s]. *)
Definition from_submission (s : Sub.row cell) (r : Df.row) : Prop :=
  Df.Application_No r = astype_str (Sub.Application_No s)
  ∧ Df.Submission_Type r = submission_type_label (Sub.Submission_Type s)
  ∧ Df.Submission_No r = Sub.Submission_No s
  ∧ Df.Status r = Sub.Status s
  ∧ Df.Submission_Date r = Sub.Submission_Date s
  ∧ Df.ReviewPriority r = Sub.ReviewPriority s.

(** A key that [astype(str)] of pandas before 3.0 turns into the text
    "nan": a missing value, or a value whose text is "nan" already. *)
Definition nan_key (c : cell) : Prop :=
  c = NaN ∨ c = Str "nan" ∨ c = Num "nan".

(** Under pandas 3, an output row that carries the fields of submission row
    [s]. *)
Definition from_submission_pandas3 (s : Sub.row cell) (r : Pandas3.row)
    : Prop :=
  Pandas3.Application_No r = Pandas3.astype_str (Sub.Application_No s)
  ∧ Pandas3.Submission_Type r = submission_type_label (Sub.Submission_Type s)
  ∧ Pandas3.Submission_No r = Sub.Submission_No s
  ∧ Pandas3.Status r = Sub.Status s
  ∧ Pandas3.Submission_Date r = Sub.Submission_Date s
  ∧ Pandas3.ReviewPriority r = Sub.ReviewPriority s.

(** A merged row without product fields: what the left join of line 71 and
    lines 83-84 leave in the frame when no aggregated Products row has the
    row's key, and the empty cells the sheet gets for them. *)
Definition no_product_fields (form strength drug : cell) : Prop :=
  form = Str EmptyString ∧ strength = NaN ∧ drug = NaN
  ∧ Merger.excel_cell form = Xlsx.Blank
  ∧ Merger.excel_cell strength = Xlsx.Blank
  ∧ Merger.excel_cell drug = Xlsx.Blank.

(** What the left join of line 69 attaches to submission row [s]: the
    Sponsor of an Applications row with its key, or a missing value when
    there is none. *)
Definition joined_sponsor (apps : list (Apps.row cell)) (s : Sub.row cell)
    (sponsor : cell) : Prop :=
  (∃ a, a ∈ apps
        ∧ astype_str (Apps.Application_No a)
          = astype_str (Sub.Application_No s)
        ∧ sponsor = Apps.Sponsor a)
  ∨ ((∀ a, a ∈ apps →
           astype_str (Apps.Application_No a)
           ≠ astype_str (Sub.Application_No s))
     ∧ sponsor = NaN).

(** What the left join of line 71 attaches to submission row [s]: the
    aggregate of the Products rows with its key, or three missing values
    when there is none. *)
Definition joined_products (prods : list (Prods.row cell)) (s : Sub.row cell)
    (form strength drug : cell) : Prop :=
  let k := astype_str (Sub.Application_No s) in
  let coerced := Merger.prods_astype <$> prods in
  (k ∈ (Prods.Application_No <$> coerced)
   ∧ form = Str (plain_join (Prods.Form <$> Merger.group k coerced))
   ∧ strength = Str (plain_join (Prods.Strength <$> Merger.group k coerced))
   ∧ drug = Str (plain_join (Prods.DrugName <$> Merger.group k coerced)))
  ∨ ((k ∉ Prods.Application_No <$> coerced)
     ∧ form = NaN ∧ strength = NaN ∧ drug = NaN).

(** [s.split(sep)] for a non-empty [sep]: the text is cut at each occurrence
    of [sep], taken from the left, an occurrence starting only after the
    previous one has ended. [skip] counts the characters of a separator
    still to pass. *)
Fixpoint split_go (sep : string) (skip : nat) (s : string) : list string :=
  match s with
  | EmptyString => [EmptyString]
  | String c s' =>
      match skip with
      | S n => split_go sep n s'
      | O =>
          if String.prefix sep s
          then EmptyString :: split_go sep (String.length sep - 1) s'
          else match split_go sep 0 s' with
               | part :: parts => String c part :: parts
               | [] => [String c EmptyString]
               end
      end
  end.

Definition split (sep : string) (s : string) : list string :=
  split_go sep 0 s.

(** [sub in s] *)
Fixpoint contains (sub : string) (s : string) : bool :=
  String.prefix sub s ||
  match s with
  | EmptyString => false
  | String _ s' => contains sub s'
  end.

(** The line the handlers of lines 92-99 print for an exception. *)
Definition failure_message (e : exn) : line :=
  [Txt match e with
       | FileNotFoundError _ => "Error: File not found - "
       | ParserError _ => "Error: Parsing issue - "
       | KeyError _ => "Error: Column not found - "
       | _ => "Unexpected error: "
       end;
   Exc e].

(** The sentinel of lines 25-26 in place of a missing value. *)
Definition or_unknown (c : cell) : cell :=
  match c with NaN => Str "Unknown" | _ => c end.

(** What the load step of the Dashboard makes of a row it keeps. *)
Definition loaded (r : Dashboard.row (option Dashboard.Timestamp) unit)
    (r' : Dashboard.row Dashboard.Timestamp Z) : Prop :=
  Dashboard.Submission_Date r = Some (Dashboard.Submission_Date r')
  ∧ Dashboard.Submission_Year r'
    = Dashboard.year (Dashboard.Submission_Date r')
  ∧ Dashboard.Status r' = status_label (Dashboard.Status r)
  ∧ Dashboard.Submission_Type r'
    = submission_type_label (Dashboard.Submission_Type r)
  ∧ Dashboard.Sponsor r' = or_unknown (Dashboard.Sponsor r)
  ∧ Dashboard.DrugName r' = or_unknown (Dashboard.DrugName r)
  ∧ Dashboard.Application_No r' = Dashboard.Application_No r
  ∧ Dashboard.Submission_No r' = Dashboard.Submission_No r
  ∧ Dashboard.ReviewPriority r' = Dashboard.ReviewPriority r
  ∧ Dashboard.Form r' = Dashboard.Form r
  ∧ Dashboard.Strength r' = Dashboard.Strength r.

Definition has_date {Y} (r : Dashboard.row (option Dashboard.Timestamp) Y)
    : Prop :=
  Dashboard.Submission_Date r ≠ None.

#[global] Instance has_date_dec {Y}
    (r : Dashboard.row (option Dashboard.Timestamp) Y) :
  Decision (has_date r).
Proof. unfold has_date. apply _. Defined.

(** *** Sample inputs *)

(** The example of the specification: one supplement to application 12345,
    its sponsor and its product. *)
Definition example_submissions : frame :=
  Frame ["ApplNo"; "SubmissionClassCodeID"; "SubmissionType"; "SubmissionNo";
         "SubmissionStatus"; "SubmissionStatusDate"; "ReviewPriority"]
    [ {[ "ApplNo" := Num "12345"; "SubmissionClassCodeID" := Num "7";
         "SubmissionType" := Str "SUPPL"; "SubmissionNo" := Num "1";
         "SubmissionStatus" := Str "AP";
         "SubmissionStatusDate" := Str "1984-05-31 00:00:00";
         "ReviewPriority" := Str "STANDARD" ]} ].

Definition example_applications : frame :=
  Frame ["ApplNo"; "ApplType"; "SponsorName"]
    [ {[ "ApplNo" := Num "12345"; "ApplType" := Str "NDA";
         "SponsorName" := Str "Acme" ]} ].

Definition example_products : frame :=
  Frame ["ApplNo"; "ProductNo"; "Form"; "Strength"; "DrugName"]
    [ {[ "ApplNo" := Num "12345"; "ProductNo" := Num "1";
         "Form" := Str "TABLET;ORAL"; "Strength" := Str "250MG";
         "DrugName" := Str "DrugX" ]} ].

Definition example_sub : list (Sub.row cell) :=
  [Sub.Row (Num "12345") (Str "SUPPL") (Num "1") (Str "AP")
     (Str "1984-05-31 00:00:00") (Str "STANDARD")].

Definition example_apps : list (Apps.row cell) :=
  [Apps.Row (Num "12345") (Str "Acme")].

Definition example_prods : list (Prods.row cell) :=
  [Prods.Row (Num "12345") (Str "TABLET;ORAL") (Str "250MG") (Str "DrugX")].

(** One drug in two strengths: two Products rows of one application. *)
Definition two_strengths : list (Prods.row string) :=
  [Prods.Row "12345" (Str "TABLET;ORAL") (Str "250MG") (Str "DrugX");
   Prods.Row "12345" (Str "TABLET;ORAL") (Str "500MG") (Str "DrugX")].

(** One row per application, the strength of the product not recorded. *)
Definition strength_missing : list (Prods.row string) :=
  [Prods.Row "12345" (Str "TABLET;ORAL") NaN (Str "DrugX")].

(** One row per application, fields present, keys in increasing order. *)
Definition two_applications : list (Prods.row string) :=
  [Prods.Row "12345" (Str "TABLET;ORAL") (Str "250MG") (Str "DrugX");
   Prods.Row "20001" (Str "INJECTABLE;INJECTION") (Str "10MG/ML")
     (Str "DrugY")].

(** Applications and Products that know only another application. *)
Definition other_apps : list (Apps.row cell) :=
  [Apps.Row (Num "20001") (Str "Other Labs")].

Definition other_prods : list (Prods.row cell) :=
  [Prods.Row (Num "20001") (Str "INJECTABLE;INJECTION") (Str "10MG/ML")
     (Str "DrugY")].

(** Rows whose Application_No is missing in all three tables. *)
Definition keyless_sub : list (Sub.row cell) :=
  [Sub.Row NaN (Str "ORIG") (Num "1") (Str "AP")
     (Str "1999-01-04 00:00:00") (Str "PRIORITY")].

Definition keyless_apps : list (Apps.row cell) :=
  [Apps.Row NaN (Str "Stray Pharma")].

Definition keyless_prods : list (Prods.row cell) :=
  [Prods.Row NaN (Str "CREAM;TOPICAL") (Str "1%") (Str "DrugZ");
   Prods.Row (Num "20001.0") (Str "INJECTABLE;INJECTION") (Str "10MG/ML")
     (Str "DrugY");
   Prods.Row NaN (Str "GEL;TOPICAL") (Str "2%") (Str "DrugW")].

(** A sheet in which one Submission_Date is not a date: the column comes
    back from [read_excel] as it is in the sheet. *)
Definition undated_sheet : Dashboard.excel :=
  Dashboard.Unconverted
    [Dashboard.Row (Num "12345") (Str "Supplemental") (Num "1") (Str "AP")
       (Str "1984-05-31 00:00:00") (Str "STANDARD") (Str "Acme")
       (Str "TABLET / ORAL") (Str "250MG") (Str "DrugX") ();
     Dashboard.Row (Num "12345") (Str "Supplemental") (Num "2") (Str "AP")
       (Str "not recorded") (Str "STANDARD") (Str "Acme")
       (Str "TABLET / ORAL") (Str "250MG") (Str "DrugX") ()].

(** A sheet whose dates all convert; the second row has none. *)
Definition dated_sheet : Dashboard.excel :=
  Dashboard.Dates
    [Dashboard.Row (Num "12345") (Str "Supplemental") (Num "1") (Str "AP")
       (Some (Dashboard.Stamp 1984 5 31 0)) (Str "STANDARD") NaN
       (Str "TABLET / ORAL") (Str "250MG") (Str "DrugX") ();
     Dashboard.Row (Num "12345") (Str "Supplemental") (Num "2") (Str "TA")
       None (Str "STANDARD") (Str "Acme") NaN NaN NaN ();
     Dashboard.Row (Num "20001") (Str "Original") (Num "1") (Str "RL")
       (Some (Dashboard.Stamp 1999 1 4 0)) (Str "PRIORITY") (Str "Other Labs")
       NaN NaN NaN ()].

(** A loaded table of six submissions by one sponsor, each for another
    drug. *)
Definition six_drug_row (no drug : string) : Dashboard.row Dashboard.Timestamp Z :=
  Dashboard.Row (Num no) (Str "Original") (Num "1") (Str "Approved")
    (Dashboard.Stamp 2001 2 3 0) (Str "STANDARD") (Str "Acme") NaN NaN
    (Str drug) 2001%Z.

Definition six_drugs : list (Dashboard.row Dashboard.Timestamp Z) :=
  [six_drug_row "10001" "DrugA"; six_drug_row "10002" "DrugB";
   six_drug_row "10003" "DrugC"; six_drug_row "10004" "DrugD";
   six_drug_row "10005" "DrugE"; six_drug_row "10006" "DrugF"].

Definition six_drugs_sidebar : Dashboard.sidebar :=
  Dashboard.Sidebar EmptyString (2001, 2001)%Z [Str "Approved"] [Str "Acme"]
    [Str "DrugA"; Str "DrugB"; Str "DrugC"; Str "DrugD"; Str "DrugE"].

(** The files of those Applications and Products tables, beside the
    Submissions file of the example. *)
Definition other_applications : frame :=
  Frame ["ApplNo"; "ApplType"; "SponsorName"]
    [ {[ "ApplNo" := Num "20001"; "ApplType" := Str "NDA";
         "SponsorName" := Str "Other Labs" ]} ].

Definition other_products : frame :=
  Frame ["ApplNo"; "ProductNo"; "Form"; "Strength"; "DrugName"]
    [ {[ "ApplNo" := Num "20001"; "ProductNo" := Num "1";
         "Form" := Str "INJECTABLE;INJECTION"; "Strength" := Str "10MG/ML";
         "DrugName" := Str "DrugY" ]} ].

Definition unmatched_world : Merger.world :=
  Merger.World true "/srv/data" (inr example_submissions)
    (inr other_applications) (inr other_products) None None.

Definition example_world : Merger.world :=
  Merger.World true "/srv/data" (inr example_submissions)
    (inr example_applications) (inr example_products) None None.

(** The same directory without Submissions.txt, and with a sheet left by an
    earlier run. *)
Definition earlier_sheet : Merger.content :=
  Merger.Sheet
    [Xlsx.Row (Xlsx.Text "12345") (Xlsx.Text "Supplemental")
       (Xlsx.Number "1") (Xlsx.Text "AP") (Xlsx.Text "1984-05-31 00:00:00")
       (Xlsx.Text "STANDARD") (Xlsx.Text "Acme") (Xlsx.Text "TABLET / ORAL")
       (Xlsx.Text "250MG") (Xlsx.Text "DrugX")].

Definition missing_file_world : Merger.world :=
  Merger.World true "/srv/data"
    (inl (FileNotFoundError "No such file or directory: '/srv/data/Submissions.txt'"))
    (inr example_applications) (inr example_products) None
    (Some earlier_sheet).

(** *** Vocabulary for the further properties *)

(** The number of Applications rows whose key, as text, is that of
    submission row [s]. *)
Definition sponsor_matches (apps : list (Apps.row cell)) (s : Sub.row cell)
    : nat :=
  length (List.filter
            (λ a, bool_decide (astype_str (Apps.Application_No a)
                               = astype_str (Sub.Application_No s))) apps).

(** An application listed twice in Applications, under two sponsors. *)
Definition twice_listed_apps : list (Apps.row cell) :=
  [Apps.Row (Num "12345") (Str "Acme");
   Apps.Row (Num "12345") (Str "Acme Holdings")].

(** The merged table of the example with that Applications table. *)
Definition twice_listed_df : list Df.row :=
  [Df.Row "12345" (Str "Supplemental") (Num "1") (Str "AP")
     (Str "1984-05-31 00:00:00") (Str "STANDARD") (Str "Acme")
     (Str "TABLET / ORAL") (Str "250MG") (Str "DrugX");
   Df.Row "12345" (Str "Supplemental") (Num "1") (Str "AP")
     (Str "1984-05-31 00:00:00") (Str "STANDARD") (Str "Acme Holdings")
     (Str "TABLET / ORAL") (Str "250MG") (Str "DrugX")].


(** The four Submission_Type codes of line 75. *)
Definition submission_type_codes : list cell :=
  [Str "AP"; Str "TP"; Str "ORIG"; Str "SUPPL"].



(** The exception of the first of the three [read_csv] calls that raises,
    in the order of lines 17-19. *)
Definition first_read_error (w : Merger.world) : option exn :=
  match Merger.read_submissions w with
  | inl e => Some e
  | inr _ =>
      match Merger.read_applications w with
      | inl e => Some e
      | inr _ =>
          match Merger.read_products w with
          | inl e => Some e
          | inr _ => None
          end
      end
  end.

(** The labels among [labels] that are not columns of [df]. *)
Definition missing_labels (labels : list string) (df : frame) : list string :=
  List.filter (λ c, bool_decide (c ∉ columns df)) labels.

(** The missing labels of the first of the three selections of lines 27-29
    that lacks a column. *)
Definition first_missing_labels (submissions applications products : frame)
    : list string :=
  match missing_labels ["ApplNo"; "SubmissionType"; "SubmissionNo";
                        "SubmissionStatus"; "SubmissionStatusDate";
                        "ReviewPriority"] submissions with
  | [] =>
      match missing_labels ["ApplNo"; "SponsorName"] applications with
      | [] => missing_labels ["ApplNo"; "Form"; "Strength"; "DrugName"] products
      | missing => missing
      end
  | missing => missing
  end.

(** Products.txt is absent and Submissions.txt has lost two of its columns:
    the absent file is what the run reports. *)
Definition headless_submissions : frame :=
  Frame ["ApplNo"; "SubmissionType"; "SubmissionNo"; "SubmissionStatus"]
    [ {[ "ApplNo" := Num "12345"; "SubmissionType" := Str "SUPPL";
         "SubmissionNo" := Num "1"; "SubmissionStatus" := Str "AP" ]} ].

Definition no_products_world : Merger.world :=
  Merger.World true "/srv/data" (inr headless_submissions)
    (inr example_applications)
    (inl (FileNotFoundError "No such file or directory: '/srv/data/Products.txt'"))
    None (Some earlier_sheet).

(** The three files are there, Submissions.txt without two columns. *)
Definition headless_world : Merger.world :=
  Merger.World true "/srv/data" (inr headless_submissions)
    (inr example_applications) (inr example_products) None
    (Some earlier_sheet).

(** The line a run prints after the file is written (line 90). *)
Definition saved_line (w : Merger.world) : line :=
  [Txt "Cleaned and saved to "; Txt (Merger.output_path w)].

(** A printed line that is not the line of line 90 and does not report a
    duplicate Application_No in the aggregated Products. *)
Definition quiet_line (l : line) : Prop :=
  (∀ path, l ≠ [Txt "Cleaned and saved to "; Txt path])
  ∧ (∀ n, l = [Txt "Duplicate Application_No in Products:"; Int n] →
          n = 0%nat).

(** A loaded table small enough for the default selections to hold every
    sponsor and drug, and its sidebar as first shown. *)
Definition two_drugs : list (Dashboard.row Dashboard.Timestamp Z) :=
  [six_drug_row "10001" "DrugA"; six_drug_row "10002" "DrugB"].

Definition two_drugs_sidebar : Dashboard.sidebar :=
  Dashboard.Sidebar EmptyString (2001, 2001)%Z [Str "Approved"] [Str "Acme"]
    [Str "DrugA"; Str "DrugB"].

(** The rows the default Sponsor and Drug Name selections let through. *)
Definition default_selection
    (df : list (Dashboard.row Dashboard.Timestamp Z))
    (r : Dashboard.row Dashboard.Timestamp Z) : bool :=
  bool_decide (Dashboard.Sponsor r ∈ Dashboard.sponsor_default df)
  && bool_decide (Dashboard.DrugName r ∈ Dashboard.drug_default df).

(** A sidebar with the search box emptied. *)
Definition without_search (w : Dashboard.sidebar) : Dashboard.sidebar :=
  Dashboard.Sidebar EmptyString (Dashboard.years w)
    (Dashboard.selected_status w) (Dashboard.selected_sponsors w)
    (Dashboard.selected_drugs w).

(** A sheet row that the Dashboard will count as approved: dated, with
    Status AP or Approved. *)
Definition counts_as_approved
    (r : Dashboard.row (option Dashboard.Timestamp) unit) : Prop :=
  has_date r
  ∧ (Dashboard.Status r = Str "AP" ∨ Dashboard.Status r = Str "Approved").

#[global] Instance counts_as_approved_dec r : Decision (counts_as_approved r).
Proof. unfold counts_as_approved. apply _. Defined.

(** The rows of [dated_sheet]. *)
Definition dated_rows : list (Dashboard.row (option Dashboard.Timestamp) unit) :=
  match dated_sheet with
  | Dashboard.Dates rows => rows
  | Dashboard.Unconverted _ => []
  end.

(** ** Facts about the pandas primitives *)

Section Primitives.
Context {A : Type} `{EqDecision A}.

Lemma elem_of_List_filter (f : A → bool) (l : list A) (x : A) :
  x ∈ List.filter f l ↔ x ∈ l ∧ f x = true.
Proof. rewrite !list_elem_of_In. apply filter_In. Qed.

Lemma NoDup_List_filter (f : A → bool) (l : list A) :
  NoDup l → NoDup (List.filter f l).
Proof.
  induction 1 as [|x l Hx Hl IH]; simpl; [constructor|].
  destruct (f x); [|done].
  constructor; [|done]. rewrite elem_of_List_filter. tauto.
Qed.

Lemma List_filter_all (f : A → bool) (l : list A) :
  (∀ x, x ∈ l → f x = true) → List.filter f l = l.
Proof.
  induction l as [|x l IH]; intros Hall; simpl; [done|].
  rewrite (Hall x) by left.
  f_equal. apply IH. intros y Hy. apply Hall. by right.
Qed.

Lemma elem_of_unique (l : list A) (x : A) : x ∈ unique l ↔ x ∈ l.
Proof.
  induction l as [|y l IH]; simpl; [done|].
  rewrite !elem_of_cons, elem_of_List_filter, IH, bool_decide_eq_true.
  destruct (decide (x = y)); intuition congruence.
Qed.

Lemma NoDup_unique (l : list A) : NoDup (unique l).
Proof.
  induction l as [|y l IH]; simpl; constructor.
  - rewrite elem_of_List_filter, bool_decide_eq_true. tauto.
  - by apply NoDup_List_filter.
Qed.

Lemma unique_NoDup (l : list A) : NoDup l → unique l = l.
Proof.
  induction 1 as [|x l Hx Hl IH]; simpl; [done|].
  rewrite IH. f_equal. apply List_filter_all.
  intros y Hy. apply bool_decide_eq_true. congruence.
Qed.

End Primitives.

Lemma mapE_inr {A B} (f : A → result B) (l : list A) (l' : list B) :
  mapE f l = inr l' ↔ Forall2 (λ x y, f x = inr y) l l'.
Proof.
  revert l'. induction l as [|x l IH]; intros l'; simpl.
  - split.
    + intros [= <-]. constructor.
    + by inversion 1.
  - split.
    + destruct (f x) as [e|y] eqn:Hx; simpl; [done|].
      destruct (mapE f l) as [e|ys] eqn:Hl; simpl; [done|].
      intros [= <-]. constructor; [done|]. by apply IH.
    + inversion 1 as [|? y ? ys Hx Hl]; subst.
      rewrite Hx. simpl. apply IH in Hl. rewrite Hl. done.
Qed.

Lemma mapE_total {A B} (f : A → result B) (g : A → B) (l : list A) :
  (∀ x, x ∈ l → f x = inr (g x)) → mapE f l = inr (g <$> l).
Proof.
  intros Hall. apply mapE_inr.
  induction l as [|x l IH]; simpl; constructor.
  - apply Hall. by left.
  - apply IH. intros y Hy. apply Hall. by right.
Qed.

(** A left merge against a table without repeated keys gives one row for
    each left row. *)
Lemma matches_at_most_one {K R} `{EqDecision K} (rkey : R → K) (k : K)
    (right : list R) :
  NoDup (rkey <$> right) →
  (length (List.filter (λ r, bool_decide (rkey r = k)) right) ≤ 1)%nat.
Proof.
  induction right as [|r right IH]; simpl; [lia|].
  rewrite NoDup_cons. intros [Hr Hright].
  case_bool_decide as Hk; simpl; [|by apply IH].
  assert (List.filter (λ r0, bool_decide (rkey r0 = k)) right = []) as ->;
    [|simpl; lia].
  destruct (List.filter _ right) as [|r' rest] eqn:Hf; [done|].
  assert (r' ∈ List.filter (λ r0, bool_decide (rkey r0 = k)) right) as Hin
    by (rewrite Hf; left).
  apply list_elem_of_In, filter_In in Hin as [Hin Hk'].
  apply bool_decide_eq_true in Hk'.
  exfalso. apply Hr. rewrite Hk, <- Hk'.
  apply list_elem_of_fmap. exists r'. split; [done|].
  by apply list_elem_of_In.
Qed.

Lemma merge_left_length {K L R O} `{EqDecision K} (lkey : L → K) (rkey : R → K)
    (matched : L → R → O) (unmatched : L → O) (left : list L)
    (right : list R) :
  NoDup (rkey <$> right) →
  length (merge_left lkey rkey matched unmatched left right) = length left.
Proof.
  intros Hright. unfold merge_left.
  induction left as [|l left IH]; [done|].
  cbn [flat_map]. rewrite length_app, IH.
  pose proof (matches_at_most_one rkey (lkey l) right Hright) as Hle.
  destruct (List.filter _ right) as [|r [|r' rest]]; simpl in *; lia.
Qed.

Example split_example :
  split ";" "TABLET;ORAL" = ["TABLET"; "ORAL"]
  ∧ split " / " "a / b / c" = ["a"; "b"; "c"]
  ∧ split " / " " / / / " = [EmptyString; "/"; EmptyString]
  ∧ split ";" EmptyString = [EmptyString]
  ∧ replace_char ";" " / " "TABLET;ORAL" = "TABLET / ORAL".
Proof. repeat split; reflexivity. Qed.

(** ** The aggregation of Products (lines 55-59) *)

Lemma texts_dropna_inr (x : list cell) (ss : list string) :
  texts (dropna x) = inr ss → ss = present_texts x ∧ Forall text_cell x.
Proof.
  revert ss. induction x as [|c x IH]; intros ss; simpl.
  - intros [= <-]. by split.
  - destruct c as [|s|n]; simpl.
    + intros Hx. destruct (IH _ Hx) as [-> Hall]. split; [done|].
      by constructor.
    + destruct (texts (dropna x)) as [e|ss'] eqn:Hx; simpl; [done|].
      intros [= <-]. destruct (IH _ eq_refl) as [-> Hall].
      split; [done|]. by constructor.
    + done.
Qed.

Lemma texts_dropna_text (x : list cell) :
  Forall text_cell x → texts (dropna x) = inr (present_texts x).
Proof.
  induction 1 as [|c x Hc Hx IH]; simpl; [done|].
  destruct c as [|s|n]; simpl in *; [done| |done].
  by rewrite IH.
Qed.

Lemma agg_join_inr (x : list cell) (s : string) :
  Merger.agg_join x = inr s → s = plain_join x ∧ Forall text_cell x.
Proof.
  unfold Merger.agg_join, str_join.
  destruct (texts (dropna x)) as [e|ss] eqn:Hx; simpl; [done|].
  intros [= <-]. apply texts_dropna_inr in Hx as [-> Hall]. by split.
Qed.

Lemma agg_join_text (x : list cell) :
  Forall text_cell x → Merger.agg_join x = inr (plain_join x).
Proof.
  intros Hx. unfold Merger.agg_join, str_join.
  by rewrite texts_dropna_text.
Qed.

Lemma agg_group_inr (prods : list (Prods.row string)) (k : string)
    (r : Prods.row string) :
  Merger.agg_group prods k = inr r → r = aggregated_row prods k.
Proof.
  unfold Merger.agg_group, aggregated_row.
  destruct (Merger.agg_join (Prods.Form <$> _)) as [e|f] eqn:Hf;
    simpl; [done|].
  destruct (Merger.agg_join (Prods.Strength <$> _)) as [e|s] eqn:Hs;
    simpl; [done|].
  destruct (Merger.agg_join (Prods.DrugName <$> _)) as [e|d] eqn:Hd;
    simpl; [done|].
  apply agg_join_inr in Hf as [-> _].
  apply agg_join_inr in Hs as [-> _].
  apply agg_join_inr in Hd as [-> _].
  by intros [= <-].
Qed.

Lemma group_text_fields (prods : list (Prods.row string)) (k : string) :
  Forall text_fields prods →
  Forall text_cell (Prods.Form <$> Merger.group k prods)
  ∧ Forall text_cell (Prods.Strength <$> Merger.group k prods)
  ∧ Forall text_cell (Prods.DrugName <$> Merger.group k prods).
Proof.
  intros Hall. unfold Merger.group.
  induction Hall as [|p prods (Hf & Hs & Hd) _ (IHf & IHs & IHd)]; simpl.
  - by repeat split.
  - case_bool_decide; simpl; [|done].
    repeat split; by constructor.
Qed.

Lemma agg_group_text (prods : list (Prods.row string)) (k : string) :
  Forall text_fields prods →
  Merger.agg_group prods k = inr (aggregated_row prods k).
Proof.
  intros Hall.
  destruct (group_text_fields prods k Hall) as (Hf & Hs & Hd).
  unfold Merger.agg_group, aggregated_row.
  rewrite (agg_join_text _ Hf), (agg_join_text _ Hs), (agg_join_text _ Hd).
  done.
Qed.

Lemma groupby_agg_inr (prods agg : list (Prods.row string)) :
  Merger.groupby_agg prods = inr agg →
  agg = aggregated_row prods <$> Merger.group_keys prods.
Proof.
  unfold Merger.groupby_agg. intros Hagg. apply mapE_inr in Hagg.
  induction Hagg as [|k r ks rs Hk _ IH]; simpl; [done|].
  apply agg_group_inr in Hk. by rewrite Hk, IH.
Qed.

Lemma groupby_agg_text (prods : list (Prods.row string)) :
  Forall text_fields prods →
  Merger.groupby_agg prods
  = inr (aggregated_row prods <$> Merger.group_keys prods).
Proof.
  intros Hall. apply mapE_total. intros k _. by apply agg_group_text.
Qed.

Lemma aggregated_keys (prods : list (Prods.row string)) (ks : list string) :
  Prods.Application_No <$> (aggregated_row prods <$> ks) = ks.
Proof. rewrite <- list_fmap_compose. simpl. apply list_fmap_id. Qed.

Lemma elem_of_group_keys (prods : list (Prods.row string)) (k : string) :
  k ∈ Merger.group_keys prods ↔ k ∈ Prods.Application_No <$> prods.
Proof.
  unfold Merger.group_keys.
  rewrite (merge_sort_Permutation String.le). apply elem_of_unique.
Qed.

Lemma NoDup_group_keys (prods : list (Prods.row string)) :
  NoDup (Merger.group_keys prods).
Proof.
  unfold Merger.group_keys.
  rewrite (merge_sort_Permutation String.le). apply NoDup_unique.
Qed.

Lemma prods_astype_text_fields (prods : list (Prods.row cell)) :
  Forall text_fields prods → Forall text_fields (Merger.prods_astype <$> prods).
Proof. intros Hall. apply Forall_fmap. by eapply Forall_impl. Qed.

(** ** The two left joins (lines 69-71) *)

Lemma elem_of_merge_left {K L R O} `{EqDecision K} (lkey : L → K) (rkey : R → K)
    (matched : L → R → O) (unmatched : L → O) (left : list L)
    (right : list R) (o : O) :
  o ∈ merge_left lkey rkey matched unmatched left right ↔
  ∃ l, l ∈ left ∧
    ((∃ r, r ∈ right ∧ rkey r = lkey l ∧ o = matched l r)
     ∨ ((∀ r, r ∈ right → rkey r ≠ lkey l) ∧ o = unmatched l)).
Proof.
  unfold merge_left. rewrite list_elem_of_In, in_flat_map.
  split; intros (l & Hl & Ho); exists l.
  - apply list_elem_of_In in Hl. split; [done|].
    destruct (List.filter _ right) as [|m ms] eqn:Hf.
    + right. apply list_elem_of_In, list_elem_of_singleton in Ho.
      split; [|done]. intros r Hr Hk.
      assert (r ∈ List.filter (λ r, bool_decide (rkey r = lkey l)) right)
        as Hin by (apply elem_of_List_filter; by rewrite bool_decide_eq_true).
      rewrite Hf in Hin. by apply not_elem_of_nil in Hin.
    + left. rewrite <- Hf in Ho.
      apply list_elem_of_In, list_elem_of_fmap in Ho as (r & -> & Hr).
      apply elem_of_List_filter in Hr as [Hr Hk].
      apply bool_decide_eq_true in Hk. by exists r.
  - split; [by apply list_elem_of_In|]. apply list_elem_of_In.
    destruct Ho as [(r & Hr & Hk & ->)|[Hnone ->]].
    + assert (r ∈ List.filter (λ r, bool_decide (rkey r = lkey l)) right)
        as Hin by (apply elem_of_List_filter; by rewrite bool_decide_eq_true).
      destruct (List.filter _ right) as [|m ms] eqn:Hf.
      * by apply not_elem_of_nil in Hin.
      * apply list_elem_of_fmap. by exists r.
    + destruct (List.filter _ right) as [|m ms] eqn:Hf; [left|].
      assert (m ∈ List.filter (λ r, bool_decide (rkey r = lkey l)) right)
        as Hin by (rewrite Hf; left).
      apply elem_of_List_filter in Hin as [Hm Hk].
      apply bool_decide_eq_true in Hk. by destruct (Hnone m).
Qed.

Lemma merge_tables_inr (sub : list (Sub.row cell))
    (apps : list (Apps.row cell)) (prods : list (Prods.row cell))
    (df : list Df.row) :
  Merger.merge_tables sub apps prods = inr df →
  let agg := aggregated_row (Merger.prods_astype <$> prods)
             <$> Merger.group_keys (Merger.prods_astype <$> prods) in
  df = Merger.clean_form <$> (Merger.replace_submission_type <$>
         Merger.merge_prods
           (Merger.merge_apps (Merger.sub_astype <$> sub)
              (Merger.apps_astype <$> apps)) agg).
Proof.
  unfold Merger.merge_tables.
  destruct (Merger.groupby_agg _) as [e|agg] eqn:Hagg; simpl; [done|].
  apply groupby_agg_inr in Hagg as ->. by intros [= <-].
Qed.

Lemma merge_tables_text (sub : list (Sub.row cell))
    (apps : list (Apps.row cell)) (prods : list (Prods.row cell)) :
  Forall text_fields prods →
  ∃ df, Merger.merge_tables sub apps prods = inr df.
Proof.
  intros Hall. unfold Merger.merge_tables.
  rewrite groupby_agg_text by by apply prods_astype_text_fields.
  simpl. eauto.
Qed.

Lemma merge_tables_length (sub : list (Sub.row cell))
    (apps : list (Apps.row cell)) (prods : list (Prods.row cell))
    (df : list Df.row) :
  NoDup (astype_str <$> (Apps.Application_No <$> apps)) →
  Merger.merge_tables sub apps prods = inr df →
  length df = length sub.
Proof.
  intros Happs Hdf. apply merge_tables_inr in Hdf as ->.
  rewrite !length_fmap. unfold Merger.merge_prods, Merger.merge_apps.
  rewrite merge_left_length.
  - rewrite merge_left_length; [by rewrite length_fmap|].
    rewrite <- list_fmap_compose. rewrite <- list_fmap_compose in Happs.
    exact Happs.
  - rewrite aggregated_keys. apply NoDup_group_keys.
Qed.

(** ** The script as a whole *)

Lemma bind_lift {A B} (r : result A) (f : A → Merger.script B)
    (st : Merger.process) :
  (Merger.lift r ≫= f) st
  = match r with inl e => (st, inl e) | inr x => f x st end.
Proof. by destruct r. Qed.

Lemma bind_print {B} (l : line) (f : unit → Merger.script B)
    (st : Merger.process) :
  (Merger.print l ≫= f) st
  = f () (Merger.Process (Merger.stdout st ++ [l]) (Merger.output_file st)).
Proof. done. Qed.

Lemma bind_script {A B} (m : Merger.script A) (f : A → Merger.script B)
    (st : Merger.process) :
  (m ≫= f) st
  = match m st with
    | (st', inl e) => (st', inl e)
    | (st', inr x) => f x st'
    end.
Proof. done. Qed.

Ltac step_script :=
  repeat rewrite bind_print;
  rewrite bind_lift;
  match goal with
  | |- context [match ?r with inl _ => _ | inr _ => _ end] =>
      let e := fresh "e" in
      let H := fresh "H" in
      destruct r as [e|?] eqn:H
  end.

Lemma prepare_inr (w : Merger.world) (st st' : Merger.process)
    (df : list Df.row) :
  Merger.prepare w st = (st', inr df) →
  ∃ submissions applications products sub apps prods,
    Merger.read_submissions w = inr submissions
    ∧ Merger.read_applications w = inr applications
    ∧ Merger.read_products w = inr products
    ∧ Merger.select_sub submissions = inr sub
    ∧ Merger.select_apps applications = inr apps
    ∧ Merger.select_prods products = inr prods
    ∧ Merger.merge_tables sub apps prods = inr df
    ∧ Merger.output_file st' = Merger.output_file st.
Proof.
  unfold Merger.prepare.
  repeat (step_script; [done|]).
  repeat rewrite bind_print.
  intros [= <- <-].
  eexists _, _, _, _, _, _. repeat (split; [done|]).
  split; [|done]. unfold Merger.merge_tables.
  match goal with H : Merger.groupby_agg _ = _ |- _ => rewrite H end.
  done.
Qed.

Lemma prepare_inl (w : Merger.world) (st st' : Merger.process) (e : exn) :
  Merger.prepare w st = (st', inl e) →
  Merger.output_file st' = Merger.output_file st.
Proof.
  unfold Merger.prepare.
  repeat (step_script; [by intros [= <- <-]|]).
  repeat rewrite bind_print. done.
Qed.

Lemma prepare_success (w : Merger.world) (st : Merger.process)
    (submissions applications products : frame) (sub : list (Sub.row cell))
    (apps : list (Apps.row cell)) (prods : list (Prods.row cell))
    (df : list Df.row) :
  Merger.read_submissions w = inr submissions →
  Merger.read_applications w = inr applications →
  Merger.read_products w = inr products →
  Merger.select_sub submissions = inr sub →
  Merger.select_apps applications = inr apps →
  Merger.select_prods products = inr prods →
  Merger.merge_tables sub apps prods = inr df →
  ∃ st', Merger.prepare w st = (st', inr df)
         ∧ Merger.output_file st' = Merger.output_file st.
Proof.
  intros Hs Ha Hp Hsub Happs Hprods Hdf. unfold Merger.prepare.
  unfold Merger.merge_tables in Hdf.
  destruct (Merger.groupby_agg _) as [e|agg] eqn:Hagg; [done|].
  injection Hdf as <-.
  rewrite bind_lift, Hs, bind_lift, Ha, bind_lift, Hp.
  repeat rewrite bind_print.
  rewrite bind_lift, Hsub, bind_lift, Happs, bind_lift, Hprods.
  rewrite bind_lift, Hagg. repeat rewrite bind_print.
  eexists. split; [reflexivity|done].
Qed.

Lemma run_caught (w : Merger.world) (e : exn) :
  Merger.openpyxl_installed w = true →
  Merger.raised w = Some e →
  ∃ st, Merger.try_body w (Merger.at_try w) = (st, inl e)
        ∧ Merger.run w
          = Merger.Outcome (Merger.stdout st ++ [failure_message e])
              (Merger.output_file st) 0.
Proof.
  intros Hpy. unfold Merger.raised, Merger.run. rewrite Hpy.
  change (Merger.main w (Merger.Process [] (Merger.output_before w)))
    with (Merger.try_except (Merger.try_body w) Merger.except_handlers
            (Merger.at_try w)).
  unfold Merger.try_except.
  destruct (Merger.try_body w (Merger.at_try w)) as [st [e'|[]]]; [|done].
  intros [= ->]. exists st. split; [done|].
  by destruct e.
Qed.

Lemma try_body_before_write (w : Merger.world) (e : exn) :
  Merger.raised_before_write w = Some e →
  ∃ st, Merger.try_body w (Merger.at_try w) = (st, inl e)
        ∧ Merger.output_file st = Merger.output_before w.
Proof.
  unfold Merger.raised_before_write, Merger.try_body.
  destruct (Merger.prepare w (Merger.at_try w)) as [st [e'|df]] eqn:Hprep;
    [|done].
  intros [= ->]. exists st. rewrite bind_script, Hprep. split; [done|].
  by apply prepare_inl in Hprep.
Qed.

Lemma run_without_openpyxl (w : Merger.world) :
  Merger.openpyxl_installed w = false →
  Merger.output_after (Merger.run w) = Merger.output_before w
  ∧ Merger.exit_code (Merger.run w) = 1%Z.
Proof. intros Hpy. unfold Merger.run. by rewrite Hpy. Qed.

Lemma run_success (w : Merger.world)
    (submissions applications products : frame) (sub : list (Sub.row cell))
    (apps : list (Apps.row cell)) (prods : list (Prods.row cell))
    (df : list Df.row) :
  Merger.openpyxl_installed w = true →
  Merger.read_submissions w = inr submissions →
  Merger.read_applications w = inr applications →
  Merger.read_products w = inr products →
  Merger.select_sub submissions = inr sub →
  Merger.select_apps applications = inr apps →
  Merger.select_prods products = inr prods →
  Merger.merge_tables sub apps prods = inr df →
  Merger.to_excel_raises w = None →
  Merger.output_after (Merger.run w)
  = Some (Merger.Sheet (Merger.to_sheet df))
  ∧ Merger.exit_code (Merger.run w) = 0%Z
  ∧ Merger.raised w = None.
Proof.
  intros Hpy Hs Ha Hp Hsub Happs Hprods Hdf Hw.
  destruct (prepare_success w (Merger.at_try w) _ _ _ _ _ _ _
              Hs Ha Hp Hsub Happs Hprods Hdf) as (st & Hprep & _).
  assert (Merger.try_body w (Merger.at_try w)
          = (Merger.Process
               (Merger.stdout st
                ++ [[Txt "Cleaned and saved to "; Txt (Merger.output_path w)]])
               (Some (Merger.Sheet (Merger.to_sheet df))), inr ())) as Hbody.
  { unfold Merger.try_body. rewrite bind_script, Hprep.
    rewrite bind_script. unfold Merger.to_excel. by rewrite Hw. }
  unfold Merger.raised, Merger.run. rewrite Hpy.
  change (Merger.main w (Merger.Process [] (Merger.output_before w)))
    with (Merger.try_except (Merger.try_body w) Merger.except_handlers
            (Merger.at_try w)).
  unfold Merger.try_except. by rewrite Hbody.
Qed.

(** ** Labels of coded values (lines 75-79) *)

Lemma replace_submission_type_label (c : cell) :
  replace_dict Merger.submission_type_map c = submission_type_label c.
Proof.
  destruct c as [|s|n]; try done.
  unfold replace_dict, submission_type_label, Merger.submission_type_map.
  repeat (case_decide; [by subst|]).
  rewrite !lookup_insert_ne by done. by rewrite lookup_singleton_ne.
Qed.

(** ** One output row for each submission *)

Lemma merge_left_unique {K L R O} `{EqDecision K} (lkey : L → K) (rkey : R → K)
    (matched : L → R → O) (unmatched : L → O) (left : list L)
    (right : list R) :
  NoDup (rkey <$> right) →
  merge_left lkey rkey matched unmatched left right
  = (λ l, match List.filter (λ r, bool_decide (rkey r = lkey l)) right with
          | [] => unmatched l
          | r :: _ => matched l r
          end) <$> left.
Proof.
  intros Hright. unfold merge_left.
  induction left as [|l left IH]; [done|].
  cbn [flat_map]. rewrite IH, fmap_cons.
  pose proof (matches_at_most_one rkey (lkey l) right Hright) as Hle.
  destruct (List.filter _ right) as [|r [|r' rest]]; simpl in *;
    [done|done|lia].
Qed.

Lemma merge_tables_rows (sub : list (Sub.row cell))
    (apps : list (Apps.row cell)) (prods : list (Prods.row cell))
    (df : list Df.row) :
  NoDup (astype_str <$> (Apps.Application_No <$> apps)) →
  Merger.merge_tables sub apps prods = inr df →
  Forall2 from_submission sub df.
Proof.
  intros Happs Hdf. apply merge_tables_inr in Hdf as ->.
  unfold Merger.merge_prods, Merger.merge_apps.
  rewrite (merge_left_unique _ Prods.Application_No)
    by (rewrite aggregated_keys; apply NoDup_group_keys).
  rewrite (merge_left_unique _ Apps.Application_No)
    by (rewrite <- list_fmap_compose; rewrite <- list_fmap_compose in Happs;
        exact Happs).
  rewrite <- !list_fmap_compose. apply Forall2_fmap_r, Forall_Forall2_diag.
  apply Forall_forall. intros s _. unfold from_submission. simpl.
  destruct (List.filter _ (Merger.apps_astype <$> apps)) as [|a ?];
    destruct (List.filter _ (aggregated_row _ <$> _)) as [|p ?]; simpl;
    by rewrite replace_submission_type_label.
Qed.

Lemma select_sub_length (submissions : frame) (sub : list (Sub.row cell)) :
  Merger.select_sub submissions = inr sub →
  length sub = length (records submissions).
Proof.
  unfold Merger.select_sub.
  destruct (check_columns _ _) as [e|[]]; simpl; [done|].
  intros [= <-]. by rewrite length_fmap.
Qed.

(** C1: a run whose three files load with the columns the script selects,
    whose Products text fields are text, whose output can be written, and in
    which Application_No is unique in Applications, writes a table with
    exactly one row for each Submissions row, in the same order and carrying
    its fields: neither join drops or duplicates a submission. The sheet
    holds the rows of the merged frame as [to_excel] stores them. *)
Theorem merger_one_row_per_submission (w : Merger.world)
    (submissions applications products : frame) (sub : list (Sub.row cell))
    (apps : list (Apps.row cell)) (prods : list (Prods.row cell)) :
  Merger.openpyxl_installed w = true →
  Merger.read_submissions w = inr submissions →
  Merger.read_applications w = inr applications →
  Merger.read_products w = inr products →
  Merger.select_sub submissions = inr sub →
  Merger.select_apps applications = inr apps →
  Merger.select_prods products = inr prods →
  Forall text_fields prods →
  Merger.to_excel_raises w = None →
  NoDup (astype_str <$> (Apps.Application_No <$> apps)) →
  ∃ df, Merger.merge_tables sub apps prods = inr df
        ∧ Merger.output_after (Merger.run w)
          = Some (Merger.Sheet (Merger.to_sheet df))
        ∧ length (Merger.to_sheet df) = length (records submissions)
        ∧ length df = length (records submissions)
        ∧ Forall2 from_submission sub df
        ∧ Forall2 (λ s x, ∃ r, from_submission s r ∧ x = Merger.excel_row r)
            sub (Merger.to_sheet df).
Proof.
  intros Hpy Hs Ha Hp Hsub Happs Hprods Htext Hw Hkeys.
  destruct (merge_tables_text sub apps prods Htext) as [df Hdf].
  exists df. split; [done|].
  destruct (run_success w _ _ _ _ _ _ _ Hpy Hs Ha Hp Hsub Happs Hprods Hdf Hw)
    as (Hout & _ & _).
  split; [done|].
  assert (length df = length (records submissions)) as Hlen.
  { rewrite <- (select_sub_length _ _ Hsub).
    by apply (merge_tables_length sub apps prods). }
  assert (Forall2 from_submission sub df) as Hrows
    by by apply (merge_tables_rows sub apps prods).
  split; [unfold Merger.to_sheet; by rewrite length_fmap|].
  split; [done|]. split; [done|].
  unfold Merger.to_sheet. apply Forall2_fmap_r.
  eapply Forall2_impl; [exact Hrows|]. intros s r Hfrom. by exists r.
Qed.

Lemma merger_one_row_per_submission_witness :
  ∃ df, Merger.merge_tables example_sub example_apps example_prods = inr df
        ∧ Merger.output_after (Merger.run example_world)
          = Some (Merger.Sheet (Merger.to_sheet df))
        ∧ length (Merger.to_sheet df) = length (records example_submissions)
        ∧ length df = length (records example_submissions)
        ∧ Forall2 from_submission example_sub df
        ∧ Forall2 (λ s x, ∃ r, from_submission s r ∧ x = Merger.excel_row r)
            example_sub (Merger.to_sheet df).
Proof.
  apply (merger_one_row_per_submission example_world example_submissions
           example_applications example_products example_sub example_apps
           example_prods); try (vm_compute; reflexivity).
  - repeat constructor.
  - apply NoDup_singleton.
Defined.

(** ** Failures of a run (lines 15 and 92-99) *)

(** C3, amended: an exception raised in the [try] block is caught by the
    handlers of lines 92-99; the last line printed is the message of its
    class followed by its text; the script then reaches its end, so the
    exit status is 0; and when the exception was raised before the output
    is written (lines 16-88), the output file is as it was before the
    run. *)
Theorem merger_failure_is_caught (w : Merger.world) (e : exn) :
  Merger.openpyxl_installed w = true →
  Merger.raised w = Some e →
  last (Merger.printed (Merger.run w)) = Some (failure_message e)
  ∧ Merger.exit_code (Merger.run w) = 0%Z
  ∧ (Merger.raised_before_write w = Some e →
     Merger.output_after (Merger.run w) = Merger.output_before w).
Proof.
  intros Hpy He.
  destruct (run_caught w e Hpy He) as (st & Hbody & ->). simpl.
  split; [apply last_snoc|]. split; [done|].
  intros Hbefore.
  destruct (try_body_before_write w e Hbefore) as (st' & Hbody' & Hout).
  rewrite Hbody in Hbody'. by injection Hbody' as ->.
Qed.

Lemma merger_failure_is_caught_witness :
  last (Merger.printed (Merger.run missing_file_world))
  = Some [Txt "Error: File not found - ";
          Exc (FileNotFoundError
                 "No such file or directory: '/srv/data/Submissions.txt'")]
  ∧ Merger.exit_code (Merger.run missing_file_world) = 0%Z
  ∧ Merger.output_after (Merger.run missing_file_world) = Some earlier_sheet.
Proof.
  destruct (merger_failure_is_caught missing_file_world
              (FileNotFoundError
                 "No such file or directory: '/srv/data/Submissions.txt'")
              eq_refl eq_refl) as (Hlast & Hexit & Hfile).
  split; [exact Hlast|]. split; [exact Hexit|]. apply Hfile. reflexivity.
Defined.

(** C3 as stated fails: a run that cannot find Submissions.txt ends with the
    exit status of a run that succeeds, 0, not with the status an uncaught
    exception gives. *)
Lemma merger_failure_exit_code_counterexample :
  Merger.raised missing_file_world
  = Some (FileNotFoundError
            "No such file or directory: '/srv/data/Submissions.txt'")
  ∧ Merger.exit_code (Merger.run missing_file_world) = 0%Z
  ∧ Merger.raised example_world = None
  ∧ Merger.exit_code (Merger.run example_world) = 0%Z.
Proof. repeat split; vm_compute; reflexivity. Qed.

(** ** What the aggregation computes *)

(** C2, amended: when the three text columns of Products hold text, the
    aggregation returns one row for each distinct Application_No, and in
    that row each of Form, Strength and DrugName is the ", "-joined
    concatenation of every non-missing value of the rows of that key, in
    table order, repeated values included. *)
Theorem products_aggregation_joins_all_values
    (prods : list (Prods.row string)) :
  Forall text_fields prods →
  ∃ agg, Merger.groupby_agg prods = inr agg
    ∧ NoDup (Prods.Application_No <$> agg)
    ∧ (∀ k, k ∈ Prods.Application_No <$> agg
            ↔ k ∈ Prods.Application_No <$> prods)
    ∧ (∀ r, r ∈ agg →
         let rows := Merger.group (Prods.Application_No r) prods in
         Prods.Form r
         = Str (String.concat ", " (present_texts (Prods.Form <$> rows)))
         ∧ Prods.Strength r
           = Str (String.concat ", "
                    (present_texts (Prods.Strength <$> rows)))
         ∧ Prods.DrugName r
           = Str (String.concat ", "
                    (present_texts (Prods.DrugName <$> rows)))).
Proof.
  intros Htext. eexists. split; [by apply groupby_agg_text|].
  rewrite aggregated_keys. split; [apply NoDup_group_keys|].
  split; [apply elem_of_group_keys|].
  intros r Hr. apply list_elem_of_fmap in Hr as (k & -> & _). done.
Qed.

Lemma products_aggregation_joins_all_values_witness :
  ∃ agg, Merger.groupby_agg two_strengths = inr agg
    ∧ NoDup (Prods.Application_No <$> agg)
    ∧ (∀ k, k ∈ Prods.Application_No <$> agg
            ↔ k ∈ Prods.Application_No <$> two_strengths)
    ∧ (∀ r, r ∈ agg →
         let rows := Merger.group (Prods.Application_No r) two_strengths in
         Prods.Form r
         = Str (String.concat ", " (present_texts (Prods.Form <$> rows)))
         ∧ Prods.Strength r
           = Str (String.concat ", "
                    (present_texts (Prods.Strength <$> rows)))
         ∧ Prods.DrugName r
           = Str (String.concat ", "
                    (present_texts (Prods.DrugName <$> rows)))).
Proof.
  apply (products_aggregation_joins_all_values two_strengths).
  repeat constructor.
Defined.

(** C2 as stated fails: for a drug listed in two strengths the aggregated
    Form and DrugName repeat their value, where the distinct values joined
    would give it once. *)
Lemma products_aggregation_repeats_counterexample :
  Merger.groupby_agg two_strengths
  = inr [Prods.Row "12345" (Str "TABLET;ORAL, TABLET;ORAL")
           (Str "250MG, 500MG") (Str "DrugX, DrugX")]
  ∧ distinct_join (Prods.Form <$> Merger.group "12345" two_strengths)
    = "TABLET;ORAL"
  ∧ distinct_join (Prods.DrugName <$> Merger.group "12345" two_strengths)
    = "DrugX".
Proof. repeat split; vm_compute; reflexivity. Qed.

(** ** Aggregating a table that has one row per key *)

Lemma group_absent (k : string) (prods : list (Prods.row string)) :
  k ∉ Prods.Application_No <$> prods → Merger.group k prods = [].
Proof.
  unfold Merger.group. induction prods as [|p prods IH]; simpl; [done|].
  rewrite not_elem_of_cons. intros [Hp Hk].
  rewrite bool_decide_eq_false_2 by done. by apply IH.
Qed.

Lemma group_single (r : Prods.row string) (prods : list (Prods.row string)) :
  NoDup (Prods.Application_No <$> prods) →
  r ∈ prods →
  Merger.group (Prods.Application_No r) prods = [r].
Proof.
  induction prods as [|p prods IH]; simpl.
  - intros _ Hr. by apply not_elem_of_nil in Hr.
  - rewrite NoDup_cons, elem_of_cons. intros [Hp Hnd] [->|Hr].
    + unfold Merger.group. simpl. rewrite bool_decide_eq_true_2 by done.
      f_equal. by apply group_absent.
    + unfold Merger.group. simpl. rewrite bool_decide_eq_false_2.
      * by apply IH.
      * intros Heq. apply Hp. rewrite Heq.
        apply list_elem_of_fmap. by exists r.
Qed.

Lemma agg_group_single (r : Prods.row string)
    (prods : list (Prods.row string)) :
  NoDup (Prods.Application_No <$> prods) →
  r ∈ prods →
  str_fields r →
  Merger.agg_group prods (Prods.Application_No r) = inr r.
Proof.
  intros Hnd Hr (Hf & Hs & Hd). unfold Merger.agg_group.
  rewrite (group_single r prods Hnd Hr).
  destruct r as [k [|f|?] [|s|?] [|d|?]]; try done.
Qed.

Lemma group_keys_sorted (prods : list (Prods.row string)) :
  NoDup (Prods.Application_No <$> prods) →
  Sorted String.le (Prods.Application_No <$> prods) →
  Merger.group_keys prods = Prods.Application_No <$> prods.
Proof.
  intros Hnd Hsorted. unfold Merger.group_keys.
  rewrite (unique_NoDup _ Hnd).
  apply (Sorted_unique String.le); [|done|].
  - apply (Sorted_merge_sort String.le).
  - apply (merge_sort_Permutation String.le).
Qed.

Lemma groupby_agg_fixed (prods : list (Prods.row string)) :
  NoDup (Prods.Application_No <$> prods) →
  Sorted String.le (Prods.Application_No <$> prods) →
  Forall str_fields prods →
  Merger.groupby_agg prods = inr prods.
Proof.
  intros Hnd Hsorted Hstr. unfold Merger.groupby_agg.
  rewrite (group_keys_sorted _ Hnd Hsorted).
  apply mapE_inr, Forall2_fmap_l, Forall_Forall2_diag, Forall_forall.
  intros r Hr. apply agg_group_single; [done|done|].
  by apply (proj1 (Forall_forall _ _) Hstr).
Qed.

Lemma groupby_agg_idempotent (prods agg : list (Prods.row string)) :
  Merger.groupby_agg prods = inr agg → Merger.groupby_agg agg = inr agg.
Proof.
  intros Hagg. apply groupby_agg_inr in Hagg as ->.
  apply groupby_agg_fixed.
  - rewrite aggregated_keys. apply NoDup_group_keys.
  - rewrite aggregated_keys. apply (Sorted_merge_sort String.le).
  - apply Forall_fmap, Forall_forall. intros k _. by repeat split.
Qed.

Lemma aggregated_table_shape (prods agg : list (Prods.row string)) :
  Merger.groupby_agg prods = inr agg →
  NoDup (Prods.Application_No <$> agg)
  ∧ Sorted String.le (Prods.Application_No <$> agg)
  ∧ Forall str_fields agg.
Proof.
  intros Hagg. apply groupby_agg_inr in Hagg as ->.
  rewrite aggregated_keys. split; [|split].
  - apply NoDup_group_keys.
  - apply (Sorted_merge_sort String.le).
  - apply Forall_fmap, Forall_forall. intros k _. by repeat split.
Qed.

(** C7, amended: a Products table that has one row per Application_No, its
    rows in increasing order of the key and a text in each of Form, Strength
    and DrugName, is returned unchanged by the aggregation. Whatever table
    is aggregated, if its fields are texts or missing the aggregation
    returns a table, and the table it returns has one row per
    Application_No, its rows in increasing order of the key and a text in
    each of the three fields: aggregating that table again returns it
    unchanged. *)
Theorem products_aggregation_fixes_aggregated
    (prods : list (Prods.row string)) :
  (NoDup (Prods.Application_No <$> prods) →
   Sorted String.le (Prods.Application_No <$> prods) →
   Forall str_fields prods →
   Merger.groupby_agg prods = inr prods)
  ∧ (Forall text_fields prods →
     ∃ agg, Merger.groupby_agg prods = inr agg)
  ∧ (∀ agg, Merger.groupby_agg prods = inr agg →
       NoDup (Prods.Application_No <$> agg)
       ∧ Sorted String.le (Prods.Application_No <$> agg)
       ∧ Forall str_fields agg
       ∧ Merger.groupby_agg agg = inr agg).
Proof.
  split; [apply groupby_agg_fixed|]. split.
  - intros Htext. eexists. by apply groupby_agg_text.
  - intros agg Hagg.
    destruct (aggregated_table_shape _ _ Hagg) as (Hnd & Hsorted & Hstr).
    repeat split; try done. by apply (groupby_agg_idempotent prods).
Qed.

Lemma products_aggregation_fixes_aggregated_witness :
  Merger.groupby_agg two_applications = inr two_applications
  ∧ (∃ agg, Merger.groupby_agg two_strengths = inr agg)
  ∧ (NoDup (Prods.Application_No
            <$> [Prods.Row "12345" (Str "TABLET;ORAL") (Str EmptyString)
                   (Str "DrugX")])
     ∧ Sorted String.le
         (Prods.Application_No
          <$> [Prods.Row "12345" (Str "TABLET;ORAL") (Str EmptyString)
                 (Str "DrugX")])
     ∧ Forall str_fields
         [Prods.Row "12345" (Str "TABLET;ORAL") (Str EmptyString)
            (Str "DrugX")]
     ∧ Merger.groupby_agg
         [Prods.Row "12345" (Str "TABLET;ORAL") (Str EmptyString)
            (Str "DrugX")]
       = inr [Prods.Row "12345" (Str "TABLET;ORAL") (Str EmptyString)
                (Str "DrugX")]).
Proof.
  destruct (products_aggregation_fixes_aggregated two_applications)
    as (Hfixed & _ & _).
  destruct (products_aggregation_fixes_aggregated two_strengths)
    as (_ & Hreturns & _).
  destruct (products_aggregation_fixes_aggregated strength_missing)
    as (_ & _ & Hshape).
  split; [|split].
  - apply Hfixed.
    + apply (bool_decide_unpack _). by vm_compute.
    + vm_compute. repeat constructor.
    + repeat constructor.
  - apply Hreturns. repeat constructor.
  - apply Hshape. vm_compute. reflexivity.
Defined.

(** C7 as stated fails: a table with one row per Application_No whose
    Strength is missing comes back with the empty text in its place. *)
Lemma products_aggregation_changes_counterexample :
  NoDup (Prods.Application_No <$> strength_missing)
  ∧ Merger.groupby_agg strength_missing
    = inr [Prods.Row "12345" (Str "TABLET;ORAL") (Str EmptyString)
             (Str "DrugX")]
  ∧ Merger.groupby_agg strength_missing ≠ inr strength_missing.
Proof.
  split; [apply NoDup_singleton|]. split; [vm_compute; reflexivity|].
  vm_compute. discriminate.
Qed.

(** ** The rows of the merged table *)

Lemma elem_of_merge_tables (sub : list (Sub.row cell))
    (apps : list (Apps.row cell)) (prods : list (Prods.row cell))
    (df : list Df.row) (r : Df.row) :
  Merger.merge_tables sub apps prods = inr df →
  r ∈ df ↔
  ∃ s sponsor form strength drug,
    s ∈ sub
    ∧ joined_sponsor apps s sponsor
    ∧ joined_products prods s form strength drug
    ∧ r = Df.Row (astype_str (Sub.Application_No s))
            (submission_type_label (Sub.Submission_Type s))
            (Sub.Submission_No s) (Sub.Status s) (Sub.Submission_Date s)
            (Sub.ReviewPriority s) sponsor (Merger.clean_form_cell form)
            strength drug.
Proof.
  intros Hdf. apply merge_tables_inr in Hdf as ->.
  rewrite <- list_fmap_compose, list_elem_of_fmap.
  unfold Merger.merge_prods, Merger.merge_apps.
  split.
  - intros (y & -> & Hy).
    apply elem_of_merge_left in Hy as (l & Hl & Hy).
    apply elem_of_merge_left in Hl as (s' & Hs' & Hl).
    apply list_elem_of_fmap in Hs' as (s & -> & Hs).
    exists s.
    assert (∃ sponsor, l = (Merger.sub_astype s, sponsor)
              ∧ joined_sponsor apps s sponsor) as (sponsor & -> & Hsp).
    { destruct Hl as [(a' & Ha' & Hk & ->)|[Hnone ->]].
      - apply list_elem_of_fmap in Ha' as (a & -> & Ha).
        eexists. split; [done|]. left. by exists a.
      - eexists. split; [done|]. right. split; [|done].
        intros a Ha Hk. apply (Hnone (Merger.apps_astype a)); [|done].
        apply list_elem_of_fmap. by exists a. }
    exists sponsor.
    destruct Hy as [(p' & Hp' & Hkey & ->)|[Hnone ->]].
    + apply list_elem_of_fmap in Hp' as (k & -> & Hk).
      simpl in Hkey. subst k. apply elem_of_group_keys in Hk.
      eexists _, _, _. split; [done|].
      split; [done|]. split; [left; by repeat split|].
      by rewrite <- replace_submission_type_label.
    + exists NaN, NaN, NaN. split; [done|]. split; [done|]. split.
      * right. split; [|done]. intros Hk.
        apply (Hnone (aggregated_row (Merger.prods_astype <$> prods)
                        (astype_str (Sub.Application_No s)))); [|done].
        apply list_elem_of_fmap. eexists. split; [done|].
        by apply elem_of_group_keys.
      * by rewrite <- replace_submission_type_label.
  - intros (s & sponsor & form & strength & drug & Hs & Hsp & Hp & ->).
    exists (Merger.with_products (Merger.sub_astype s, sponsor)
              form strength drug).
    split; [by rewrite <- replace_submission_type_label|].
    apply elem_of_merge_left.
    exists (Merger.sub_astype s, sponsor). split.
    + apply elem_of_merge_left.
      exists (Merger.sub_astype s).
      split; [apply list_elem_of_fmap; by exists s|].
      destruct Hsp as [(a & Ha & Hk & ->)|[Hnone ->]].
      * left. exists (Merger.apps_astype a).
        split; [apply list_elem_of_fmap; by exists a|]. done.
      * right. split; [|done]. intros a' Ha'.
        apply list_elem_of_fmap in Ha' as (a & -> & Ha). by apply Hnone.
    + destruct Hp as [(Hk & -> & -> & ->)|(Hk & -> & -> & ->)].
      * left.
        exists (aggregated_row (Merger.prods_astype <$> prods)
                  (astype_str (Sub.Application_No s))).
        split; [|done].
        apply list_elem_of_fmap. eexists. split; [done|].
        by apply elem_of_group_keys.
      * right. split; [|done]. intros p' Hp'.
        apply list_elem_of_fmap in Hp' as (k & -> & Hk'). simpl.
        intros ->. by apply elem_of_group_keys in Hk'.
Qed.

Lemma joined_sponsor_total (apps : list (Apps.row cell)) (s : Sub.row cell) :
  ∃ sponsor, joined_sponsor apps s sponsor.
Proof.
  destruct (decide (Exists (λ a, astype_str (Apps.Application_No a)
                                 = astype_str (Sub.Application_No s)) apps))
    as [Hex|Hnone].
  - apply Exists_exists in Hex as (a & Ha & Hk).
    exists (Apps.Sponsor a). left. by exists a.
  - exists NaN. right. split; [|done]. intros a Ha Hk.
    apply Hnone, Exists_exists. by exists a.
Qed.

Lemma joined_products_total (prods : list (Prods.row cell))
    (s : Sub.row cell) :
  ∃ form strength drug, joined_products prods s form strength drug.
Proof.
  unfold joined_products.
  destruct (decide (astype_str (Sub.Application_No s)
                    ∈ Prods.Application_No <$> (Merger.prods_astype <$> prods)))
    as [Hk|Hk].
  - eexists _, _, _. left. by repeat split.
  - exists NaN, NaN, NaN. by right.
Qed.

Lemma submission_has_row (sub : list (Sub.row cell))
    (apps : list (Apps.row cell)) (prods : list (Prods.row cell))
    (df : list Df.row) (s : Sub.row cell) :
  Merger.merge_tables sub apps prods = inr df →
  s ∈ sub →
  ∃ r, r ∈ df ∧ from_submission s r.
Proof.
  intros Hdf Hs.
  destruct (joined_sponsor_total apps s) as (sponsor & Hsp).
  destruct (joined_products_total prods s) as (form & strength & drug & Hp).
  eexists. split.
  - apply (elem_of_merge_tables _ _ _ _ _ Hdf).
    by exists s, sponsor, form, strength, drug.
  - by repeat split.
Qed.

Lemma row_has_submission (sub : list (Sub.row cell))
    (apps : list (Apps.row cell)) (prods : list (Prods.row cell))
    (df : list Df.row) (r : Df.row) :
  Merger.merge_tables sub apps prods = inr df →
  r ∈ df →
  ∃ s, s ∈ sub ∧ from_submission s r.
Proof.
  intros Hdf Hr.
  apply (elem_of_merge_tables _ _ _ _ _ Hdf) in Hr
    as (s & sponsor & form & strength & drug & Hs & _ & _ & ->).
  exists s. split; [done|]. by repeat split.
Qed.

Lemma prods_keys_astype (prods : list (Prods.row cell)) :
  Prods.Application_No <$> (Merger.prods_astype <$> prods)
  = astype_str <$> (Prods.Application_No <$> prods).
Proof. by rewrite <- !list_fmap_compose. Qed.

(** ** Submissions without products (lines 71, 83-84 and 89) *)

Lemma excel_row_in_sheet (df : list Df.row) (r : Df.row) :
  r ∈ df → Merger.excel_row r ∈ Merger.to_sheet df.
Proof. intros Hr. apply list_elem_of_fmap. by exists r. Qed.

(** C4, amended: a submission row whose Application_No has no row in
    Products still has its row in the sheet the run writes. In every sheet
    row of that Application_No the Form, Strength and DrugName cells are
    empty cells, and so is Sponsor when Applications has no row of that
    Application_No either. An empty cell is what [to_excel] writes for a
    missing value and for an empty text alike, and [read_excel] returns it
    as a missing value. In the frame handed to [to_excel], Form is the empty
    text and Strength, DrugName and that Sponsor are missing values. *)
Theorem submission_without_products (w : Merger.world)
    (submissions applications products : frame) (sub : list (Sub.row cell))
    (apps : list (Apps.row cell)) (prods : list (Prods.row cell))
    (s : Sub.row cell) :
  Merger.openpyxl_installed w = true →
  Merger.read_submissions w = inr submissions →
  Merger.read_applications w = inr applications →
  Merger.read_products w = inr products →
  Merger.select_sub submissions = inr sub →
  Merger.select_apps applications = inr apps →
  Merger.select_prods products = inr prods →
  Forall text_fields prods →
  Merger.to_excel_raises w = None →
  s ∈ sub →
  astype_str (Sub.Application_No s)
    ∉ astype_str <$> (Prods.Application_No <$> prods) →
  Merger.excel_cell NaN = Xlsx.Blank
  ∧ Merger.excel_cell (Str EmptyString) = Xlsx.Blank
  ∧ Dashboard.read_cell Xlsx.Blank = NaN
  ∧ ∃ df, Merger.merge_tables sub apps prods = inr df
    ∧ Merger.output_after (Merger.run w)
      = Some (Merger.Sheet (Merger.to_sheet df))
    ∧ (∃ r, r ∈ df ∧ from_submission s r
            ∧ Merger.excel_row r ∈ Merger.to_sheet df)
    ∧ ∀ r, r ∈ df →
        Df.Application_No r = astype_str (Sub.Application_No s) →
        (Xlsx.Form (Merger.excel_row r) = Xlsx.Blank
         ∧ Xlsx.Strength (Merger.excel_row r) = Xlsx.Blank
         ∧ Xlsx.DrugName (Merger.excel_row r) = Xlsx.Blank
         ∧ (astype_str (Sub.Application_No s)
              ∉ astype_str <$> (Apps.Application_No <$> apps) →
            Xlsx.Sponsor (Merger.excel_row r) = Xlsx.Blank))
        ∧ (Df.Form r = Str EmptyString
           ∧ Df.Strength r = NaN
           ∧ Df.DrugName r = NaN
           ∧ (astype_str (Sub.Application_No s)
                ∉ astype_str <$> (Apps.Application_No <$> apps) →
              Df.Sponsor r = NaN)).
Proof.
  intros Hpy Hrs Hra Hrp Hsub Happs Hprods Htext Hw Hs Hnone.
  do 3 (split; [done|]).
  destruct (merge_tables_text sub apps prods Htext) as [df Hdf].
  exists df. split; [done|].
  destruct (run_success w _ _ _ _ _ _ _ Hpy Hrs Hra Hrp Hsub Happs Hprods
              Hdf Hw) as (Hout & _ & _).
  split; [done|]. split.
  { destruct (submission_has_row _ _ _ _ _ Hdf Hs) as (r & Hr & Hfrom).
    exists r. split; [done|]. split; [done|]. by apply excel_row_in_sheet. }
  intros r Hr Hkey.
  apply (elem_of_merge_tables _ _ _ _ _ Hdf) in Hr
    as (s' & sponsor & form & strength & drug & Hs' & Hsp & Hp & ->).
  simpl in Hkey. unfold joined_products in Hp. rewrite Hkey in Hp.
  rewrite prods_keys_astype in Hp.
  destruct Hp as [(Hk & _)|(_ & -> & -> & ->)]; [done|].
  assert (astype_str (Sub.Application_No s)
            ∉ astype_str <$> (Apps.Application_No <$> apps) →
          sponsor = NaN) as Hsponsor.
  { intros Hno. destruct Hsp as [(a & Ha & Hk & _)|[_ ->]]; [|done].
    exfalso. apply Hno. rewrite <- Hkey, <- Hk.
    apply list_elem_of_fmap. exists (Apps.Application_No a).
    split; [done|]. apply list_elem_of_fmap. by exists a. }
  simpl. split.
  - repeat split. intros Hno. by rewrite (Hsponsor Hno).
  - repeat split. exact Hsponsor.
Qed.

Lemma submission_without_products_witness :
  Merger.excel_cell NaN = Xlsx.Blank
  ∧ Merger.excel_cell (Str EmptyString) = Xlsx.Blank
  ∧ Dashboard.read_cell Xlsx.Blank = NaN
  ∧ ∃ df, Merger.merge_tables example_sub other_apps other_prods = inr df
    ∧ Merger.output_after (Merger.run unmatched_world)
      = Some (Merger.Sheet (Merger.to_sheet df))
    ∧ (∃ r, r ∈ df
            ∧ from_submission
                (Sub.Row (Num "12345") (Str "SUPPL") (Num "1") (Str "AP")
                   (Str "1984-05-31 00:00:00") (Str "STANDARD")) r
            ∧ Merger.excel_row r ∈ Merger.to_sheet df)
    ∧ ∀ r, r ∈ df →
        Df.Application_No r = "12345" →
        (Xlsx.Form (Merger.excel_row r) = Xlsx.Blank
         ∧ Xlsx.Strength (Merger.excel_row r) = Xlsx.Blank
         ∧ Xlsx.DrugName (Merger.excel_row r) = Xlsx.Blank
         ∧ ("12345" ∉ astype_str <$> (Apps.Application_No <$> other_apps) →
            Xlsx.Sponsor (Merger.excel_row r) = Xlsx.Blank))
        ∧ (Df.Form r = Str EmptyString
           ∧ Df.Strength r = NaN
           ∧ Df.DrugName r = NaN
           ∧ ("12345" ∉ astype_str <$> (Apps.Application_No <$> other_apps) →
              Df.Sponsor r = NaN)).
Proof.
  apply (submission_without_products unmatched_world example_submissions
           other_applications other_products example_sub other_apps
           other_prods
           (Sub.Row (Num "12345") (Str "SUPPL") (Num "1") (Str "AP")
              (Str "1984-05-31 00:00:00") (Str "STANDARD")));
    try (vm_compute; reflexivity).
  - repeat constructor.
  - left.
  - apply (bool_decide_unpack _). by vm_compute.
Defined.

(** C4 as stated fails. In the sheet the run writes for a submission
    without products or application, Form, Strength, DrugName and Sponsor
    are empty cells: none holds a text, the empty text included, and each is
    the cell of a missing value. The Dashboard reads them back as missing
    values and shows Sponsor and DrugName as "Unknown". In the frame before
    it is written, only Form is the empty text; Strength, DrugName and
    Sponsor are missing values. *)
Lemma submission_without_products_counterexample :
  let written :=
    Xlsx.Row (Xlsx.Text "12345") (Xlsx.Text "Supplemental")
      (Xlsx.Number "1") (Xlsx.Text "AP") (Xlsx.Text "1984-05-31 00:00:00")
      (Xlsx.Text "STANDARD") Xlsx.Blank Xlsx.Blank Xlsx.Blank Xlsx.Blank in
  Merger.output_after (Merger.run unmatched_world)
  = Some (Merger.Sheet [written])
  ∧ Xlsx.Blank ≠ Xlsx.Text EmptyString
  ∧ Merger.excel_cell NaN = Xlsx.Blank
  ∧ isna (Dashboard.read_cell Xlsx.Blank) = true
  ∧ Dashboard.load_data
      (Dashboard.Dates
         [Dashboard.read_row (Some (Dashboard.Stamp 1984 5 31 0)) written])
    = inr [Dashboard.Row (Str "12345") (Str "Supplemental") (Num "1")
             (Str "Approved") (Dashboard.Stamp 1984 5 31 0) (Str "STANDARD")
             (Str "Unknown") NaN NaN (Str "Unknown") 1984%Z]
  ∧ Merger.merge_tables example_sub other_apps other_prods
    = inr [Df.Row "12345" (Str "Supplemental") (Num "1") (Str "AP")
             (Str "1984-05-31 00:00:00") (Str "STANDARD") NaN
             (Str EmptyString) NaN NaN]
  ∧ (NaN : cell) ≠ Str EmptyString.
Proof.
  split; [vm_compute; reflexivity|]. split; [discriminate|].
  split; [reflexivity|]. split; [reflexivity|].
  split; [vm_compute; reflexivity|].
  split; [vm_compute; reflexivity|discriminate].
Qed.

(** ** Coded values (lines 75-79 of the Merger, 13-16 of the Dashboard) *)

Lemma remap_status_label (c : cell) :
  Dashboard.remap Dashboard.status_map c = status_label c.
Proof.
  destruct c as [|s|n]; try done.
  unfold Dashboard.remap, Dashboard.map_dict, status_label,
    Dashboard.status_map.
  repeat (case_decide; [by subst|]).
  rewrite !lookup_insert_ne by done. by rewrite lookup_singleton_ne.
Qed.

Lemma remap_submission_type_label (c : cell) :
  Dashboard.remap Dashboard.submission_type_map c = submission_type_label c.
Proof.
  destruct c as [|s|n]; try done.
  unfold Dashboard.remap, Dashboard.map_dict, submission_type_label,
    Dashboard.submission_type_map.
  repeat (case_decide; [by subst|]).
  rewrite !lookup_insert_ne by done. by rewrite lookup_singleton_ne.
Qed.



(** ** Missing join keys (lines 50-52 and 69-71) *)

Lemma group_elem_of (k : string) (prods : list (Prods.row string))
    (p : Prods.row string) :
  p ∈ Merger.group k prods ↔ p ∈ prods ∧ Prods.Application_No p = k.
Proof.
  unfold Merger.group.
  by rewrite elem_of_List_filter, bool_decide_eq_true.
Qed.

Lemma astype_str_nan (c : cell) : astype_str c = "nan" ↔ nan_key c.
Proof.
  unfold nan_key. destruct c as [|t|n]; simpl; split; intuition congruence.
Qed.

Lemma pandas3_astype_str_missing (c : cell) :
  Pandas3.astype_str c = None ↔ c = NaN.
Proof. by destruct c. Qed.

Lemma group_astype (k : string) (prods : list (Prods.row cell)) :
  Merger.group k (Merger.prods_astype <$> prods)
  = Merger.prods_astype
    <$> List.filter
          (λ p, bool_decide (astype_str (Prods.Application_No p) = k)) prods.
Proof.
  unfold Merger.group. induction prods as [|p prods IH]; [done|].
  rewrite fmap_cons. cbn [List.filter]. rewrite IH.
  cbn [Merger.prods_astype Prods.Application_No].
  by destruct (bool_decide (astype_str (Prods.Application_No p) = k)).
Qed.

Lemma group_of_key (k : string) (prods : list (Prods.row string)) :
  k ∈ Prods.Application_No <$> prods → Merger.group k prods ≠ [].
Proof.
  intros Hk Hnil. apply list_elem_of_fmap in Hk as (p & -> & Hp).
  assert (p ∈ Merger.group (Prods.Application_No p) prods) as Hin
    by by apply group_elem_of.
  rewrite Hnil in Hin. by apply not_elem_of_nil in Hin.
Qed.

Lemma merge_left_total {K L R O} `{EqDecision K} (lkey : L → K)
    (rkey : R → K) (matched : L → R → O) (unmatched : L → O)
    (left : list L) (right : list R) (l : L) :
  l ∈ left →
  ∃ o, o ∈ merge_left lkey rkey matched unmatched left right
       ∧ ((∃ r, r ∈ right ∧ rkey r = lkey l ∧ o = matched l r)
          ∨ o = unmatched l).
Proof.
  intros Hl.
  destruct (decide (Exists (λ r, rkey r = lkey l) right)) as [Hex|Hnone].
  - apply Exists_exists in Hex as (r & Hr & Hk).
    exists (matched l r). split; [|left; by exists r].
    apply elem_of_merge_left. exists l. split; [done|]. left. by exists r.
  - exists (unmatched l). split; [|by right].
    apply elem_of_merge_left. exists l. split; [done|]. right.
    split; [|done]. intros r Hr Hk. apply Hnone, Exists_exists. by exists r.
Qed.

(** *** Under pandas 3 *)

Lemma grouped_text_fields (prods : list (Prods.row cell)) :
  Forall text_fields prods →
  Forall text_fields (Pandas3.grouped (Pandas3.prods_astype <$> prods)).
Proof.
  unfold Pandas3.grouped.
  induction 1 as [|p prods Hp _ IH]; [by apply Forall_nil|].
  rewrite fmap_cons. cbn [omap list_omap].
  cbn [Pandas3.prods_astype Prods.Application_No].
  destruct (Pandas3.astype_str (Prods.Application_No p)); simpl; [|done].
  by constructor.
Qed.

Lemma pandas3_merge_tables_text (sub : list (Sub.row cell))
    (apps : list (Apps.row cell)) (prods : list (Prods.row cell)) :
  Forall text_fields prods →
  let grouped := Pandas3.grouped (Pandas3.prods_astype <$> prods) in
  Pandas3.merge_tables sub apps prods
  = inr (Pandas3.clean_form <$> (Pandas3.replace_submission_type <$>
           Pandas3.merge_prods
             (Pandas3.merge_apps (Pandas3.sub_astype <$> sub)
                (Pandas3.apps_astype <$> apps))
             (aggregated_row grouped <$> Merger.group_keys grouped))).
Proof.
  intros Hall grouped. unfold Pandas3.merge_tables, Pandas3.groupby_agg.
  by rewrite groupby_agg_text by by apply grouped_text_fields.
Qed.

(** A row of the first join whose key is missing gets no product field from
    the second. *)
Lemma pandas3_keyless_products (df : list (Sub.row (option string) * cell))
    (agg : list (Prods.row string)) (r : Pandas3.row) :
  r ∈ Pandas3.clean_form <$> (Pandas3.replace_submission_type
                               <$> Pandas3.merge_prods df agg) →
  Pandas3.Application_No r = None →
  ∃ l, l ∈ df ∧ Sub.Application_No l.1 = None
       ∧ r = Pandas3.clean_form (Pandas3.replace_submission_type
               (Pandas3.with_products l NaN NaN NaN)).
Proof.
  rewrite <- list_fmap_compose, list_elem_of_fmap.
  intros (y & -> & Hy) Hkey. unfold Pandas3.merge_prods in Hy.
  apply elem_of_merge_left in Hy as (l & Hl & Hy). exists l.
  destruct Hy as [(p & _ & Hk & ->)|[_ ->]]; simpl in *.
  - by rewrite Hkey in Hk.
  - done.
Qed.

Lemma pandas3_keyless_row (df : list (Sub.row (option string) * cell))
    (agg : list (Prods.row string)) (l : Sub.row (option string) * cell) :
  l ∈ df →
  Sub.Application_No l.1 = None →
  Pandas3.clean_form (Pandas3.replace_submission_type
    (Pandas3.with_products l NaN NaN NaN))
  ∈ Pandas3.clean_form <$> (Pandas3.replace_submission_type
                             <$> Pandas3.merge_prods df agg).
Proof.
  intros Hl Hkey. rewrite <- list_fmap_compose. apply list_elem_of_fmap.
  eexists. split; [done|]. unfold Pandas3.merge_prods.
  apply elem_of_merge_left. exists l. split; [done|]. right.
  split; [|done]. intros p _. by rewrite Hkey.
Qed.

(** The rows of the first join under pandas 3. *)
Lemma pandas3_elem_of_merge_apps (sub : list (Sub.row cell))
    (apps : list (Apps.row cell)) (l : Sub.row (option string) * cell) :
  l ∈ Pandas3.merge_apps (Pandas3.sub_astype <$> sub)
        (Pandas3.apps_astype <$> apps) ↔
  ∃ s, s ∈ sub ∧ l.1 = Pandas3.sub_astype s
    ∧ ((∃ a, a ∈ apps
             ∧ Pandas3.astype_str (Apps.Application_No a)
               = Pandas3.astype_str (Sub.Application_No s)
             ∧ l.2 = Apps.Sponsor a)
       ∨ ((∀ a, a ∈ apps →
              Pandas3.astype_str (Apps.Application_No a)
              ≠ Pandas3.astype_str (Sub.Application_No s))
          ∧ l.2 = NaN)).
Proof.
  unfold Pandas3.merge_apps. rewrite elem_of_merge_left. split.
  - intros (s' & Hs' & Hl).
    apply list_elem_of_fmap in Hs' as (s & -> & Hs). exists s.
    split; [done|].
    destruct Hl as [(a' & Ha' & Hk & ->)|[Hnone ->]]; simpl.
    + apply list_elem_of_fmap in Ha' as (a & -> & Ha).
      split; [done|]. left. by exists a.
    + split; [done|]. right. split; [|done]. intros a Ha Hk.
      apply (Hnone (Pandas3.apps_astype a)); [|done].
      apply list_elem_of_fmap. by exists a.
  - intros (s & Hs & Hl1 & Hl2). exists (Pandas3.sub_astype s).
    split; [apply list_elem_of_fmap; by exists s|].
    destruct l as [l1 l2]. simpl in *. subst l1.
    destruct Hl2 as [(a & Ha & Hk & ->)|[Hnone ->]].
    + left. exists (Pandas3.apps_astype a).
      split; [apply list_elem_of_fmap; by exists a|]. done.
    + right. split; [|done]. intros a' Ha'.
      apply list_elem_of_fmap in Ha' as (a & -> & Ha). by apply Hnone.
Qed.

Lemma pandas3_from_submission (s : Sub.row cell) (sponsor : cell)
    (form strength drug : cell) :
  from_submission_pandas3 s
    (Pandas3.clean_form (Pandas3.replace_submission_type
       (Pandas3.with_products (Pandas3.sub_astype s, sponsor)
          form strength drug))).
Proof.
  repeat split. simpl. apply replace_submission_type_label.
Qed.

(** C10, amended: what becomes of a missing Application_No depends on the
    pandas that runs the Merger.

    Before pandas 3.0, [astype(str)] gives a missing key the text "nan", and
    gives that text to no key but a missing one and one that reads "nan"
    already. The output rows of a submission row with a missing key carry
    the key "nan"; each Applications row with a missing key gives it an
    output row with that row's Sponsor; the Products rows whose key becomes
    "nan" are exactly the group of key "nan", and when there is such a
    Products row every output row of key "nan" carries the aggregate of
    that group. An output row of key "nan" comes from a submission row and
    takes its Sponsor from an Applications row whose key is missing or reads
    "nan", and has no product field when the group is empty.

    From pandas 3.0 on, [astype(str)] leaves a missing key missing. The
    output rows of a submission row with a missing key have a missing key;
    the join still gives them the Sponsor of each Applications row with a
    missing key, and of no other row; the aggregation leaves the Products
    rows with a missing key out, so these output rows have no product
    field. *)
Theorem missing_key_joins_as_nan (sub : list (Sub.row cell))
    (apps : list (Apps.row cell)) (prods : list (Prods.row cell))
    (s : Sub.row cell) :
  Forall text_fields prods →
  s ∈ sub →
  Sub.Application_No s = NaN →
  let nan_group := Merger.group "nan" (Merger.prods_astype <$> prods) in
  (astype_str NaN = "nan"
   ∧ (∀ c, astype_str c = "nan" ↔ nan_key c)
   ∧ nan_group
     = Merger.prods_astype
       <$> List.filter
             (λ p, bool_decide (astype_str (Prods.Application_No p) = "nan"))
             prods
   ∧ ∃ df, Merger.merge_tables sub apps prods = inr df
     ∧ (∃ r, r ∈ df ∧ from_submission s r ∧ Df.Application_No r = "nan")
     ∧ (∀ a, a ∈ apps → Apps.Application_No a = NaN →
          ∃ r, r ∈ df ∧ from_submission s r
               ∧ Df.Sponsor r = Apps.Sponsor a)
     ∧ (∀ p, p ∈ prods → Prods.Application_No p = NaN →
          Merger.prods_astype p ∈ nan_group)
     ∧ ((∃ p, p ∈ prods ∧ Prods.Application_No p = NaN) →
        ∀ r, r ∈ df → Df.Application_No r = "nan" →
          Df.Form r
          = Merger.clean_form_cell
              (Str (plain_join (Prods.Form <$> nan_group)))
          ∧ Df.Strength r = Str (plain_join (Prods.Strength <$> nan_group))
          ∧ Df.DrugName r = Str (plain_join (Prods.DrugName <$> nan_group)))
     ∧ (∀ r, r ∈ df → Df.Application_No r = "nan" →
          (∃ s', s' ∈ sub ∧ nan_key (Sub.Application_No s')
                 ∧ from_submission s' r)
          ∧ ((∃ a, a ∈ apps ∧ nan_key (Apps.Application_No a)
                   ∧ Df.Sponsor r = Apps.Sponsor a)
             ∨ ((∀ a, a ∈ apps → ¬ nan_key (Apps.Application_No a))
                ∧ Df.Sponsor r = NaN))
          ∧ (nan_group = [] →
             no_product_fields (Df.Form r) (Df.Strength r) (Df.DrugName r))))
  ∧ (Pandas3.astype_str NaN = None
     ∧ (∀ c, Pandas3.astype_str c = None ↔ c = NaN)
     ∧ ∃ df, Pandas3.merge_tables sub apps prods = inr df
       ∧ (∃ r, r ∈ df ∧ from_submission_pandas3 s r
               ∧ Pandas3.Application_No r = None)
       ∧ (∀ a, a ∈ apps → Apps.Application_No a = NaN →
            ∃ r, r ∈ df ∧ from_submission_pandas3 s r
                 ∧ Pandas3.Sponsor r = Apps.Sponsor a)
       ∧ (∀ r, r ∈ df → Pandas3.Application_No r = None →
            (∃ s', s' ∈ sub ∧ Sub.Application_No s' = NaN
                   ∧ from_submission_pandas3 s' r)
            ∧ ((∃ a, a ∈ apps ∧ Apps.Application_No a = NaN
                     ∧ Pandas3.Sponsor r = Apps.Sponsor a)
               ∨ ((∀ a, a ∈ apps → Apps.Application_No a ≠ NaN)
                  ∧ Pandas3.Sponsor r = NaN))
            ∧ no_product_fields (Pandas3.Form r) (Pandas3.Strength r)
                (Pandas3.DrugName r))).
Proof.
  intros Htext Hs Hkey nan_group. split.
  { split; [done|]. split; [apply astype_str_nan|].
    split; [apply group_astype|].
    destruct (merge_tables_text sub apps prods Htext) as [df Hdf].
    exists df. split; [done|]. split.
    { destruct (submission_has_row _ _ _ _ _ Hdf Hs) as (r & Hr & Hfrom).
      exists r. split; [done|]. split; [done|].
      destruct Hfrom as (-> & _). by rewrite Hkey. }
    split.
    { intros a Ha Hka.
      destruct (joined_products_total prods s)
        as (form & strength & drug & Hp).
      eexists. split.
      - apply (elem_of_merge_tables _ _ _ _ _ Hdf).
        exists s, (Apps.Sponsor a), form, strength, drug.
        split; [done|]. split; [|done].
        left. exists a. by rewrite Hka, Hkey.
      - split; [by repeat split|done]. }
    split.
    { intros p Hp Hkp. apply group_elem_of. split.
      - apply list_elem_of_fmap. by exists p.
      - simpl. by rewrite Hkp. }
    split.
    { intros (p & Hp & Hkp) r Hr Hkr.
      apply (elem_of_merge_tables _ _ _ _ _ Hdf) in Hr
        as (s' & sponsor & form & strength & drug & Hs' & _ & Hprods & ->).
      simpl in Hkr. unfold joined_products in Hprods. rewrite Hkr in Hprods.
      destruct Hprods as [(_ & -> & -> & ->)|(Hnone & _)]; [done|].
      exfalso. apply Hnone. apply list_elem_of_fmap.
      exists (Merger.prods_astype p). split; [simpl; by rewrite Hkp|].
      apply list_elem_of_fmap. by exists p. }
    intros r Hr Hkr.
    apply (elem_of_merge_tables _ _ _ _ _ Hdf) in Hr
      as (s' & sponsor & form & strength & drug & Hs' & Hsp & Hprods & ->).
    simpl in Hkr. split; [|split].
    - exists s'. split; [done|]. split; [by apply astype_str_nan|].
      by repeat split.
    - simpl. destruct Hsp as [(a & Ha & Hk & ->)|[Hnone ->]].
      + left. exists a. split; [done|]. split; [|done].
        apply astype_str_nan. by rewrite Hk.
      + right. split; [|done]. intros a Ha Hnan.
        apply (Hnone a Ha). rewrite Hkr. by apply astype_str_nan.
    - intros Hnil. simpl. unfold joined_products in Hprods.
      rewrite Hkr in Hprods.
      destruct Hprods as [(Hin & _)|(_ & -> & -> & ->)].
      + by destruct (group_of_key _ _ Hin).
      + by repeat split. }
  split; [done|]. split; [apply pandas3_astype_str_missing|].
  eexists. split; [by apply pandas3_merge_tables_text|].
  assert (Sub.Application_No (Pandas3.sub_astype s) = None) as Hnone
    by (simpl; by rewrite Hkey).
  split.
  { destruct (merge_left_total Sub.Application_No Apps.Application_No
                (λ s a, (s, Apps.Sponsor a)) (λ s, (s, NaN))
                (Pandas3.sub_astype <$> sub) (Pandas3.apps_astype <$> apps)
                (Pandas3.sub_astype s)) as (l & Hl & Hform).
    { apply list_elem_of_fmap. by exists s. }
    assert (∃ sponsor, l = (Pandas3.sub_astype s, sponsor)) as [sponsor ->].
    { destruct Hform as [(a & _ & _ & ->)| ->]; by eexists. }
    eexists. split; [|split].
    - by apply (pandas3_keyless_row _ _ _ Hl).
    - apply pandas3_from_submission.
    - simpl. by rewrite Hkey. }
  split.
  { intros a Ha Hka. eexists. split; [|split].
    - apply (pandas3_keyless_row _ _ (Pandas3.sub_astype s, Apps.Sponsor a));
        [|done].
      apply pandas3_elem_of_merge_apps. exists s. split; [done|].
      split; [done|]. left. exists a. by rewrite Hka, Hkey.
    - apply pandas3_from_submission.
    - done. }
  intros r Hr Hkr.
  apply pandas3_keyless_products in Hr as (l & Hl & Hkl & ->); [|done].
  apply pandas3_elem_of_merge_apps in Hl as (s' & Hs' & Hl1 & Hl2).
  destruct l as [l1 sponsor]. simpl in Hl1, Hl2, Hkl. subst l1.
  assert (Sub.Application_No s' = NaN) as Hks'
    by by apply pandas3_astype_str_missing.
  split; [|split].
  - exists s'. split; [done|]. split; [done|]. apply pandas3_from_submission.
  - simpl. rewrite Hks' in Hl2.
    destruct Hl2 as [(a & Ha & Hk & ->)|[Hno ->]].
    + left. exists a. split; [done|]. split; [|done].
      by apply pandas3_astype_str_missing.
    + right. split; [|done]. intros a Ha Hka. apply (Hno a Ha).
      by rewrite Hka.
  - by repeat split.
Qed.

Lemma missing_key_joins_as_nan_witness :
  let s := Sub.Row NaN (Str "ORIG") (Num "1") (Str "AP")
             (Str "1999-01-04 00:00:00") (Str "PRIORITY") in
  let nan_group :=
    Merger.group "nan" (Merger.prods_astype <$> keyless_prods) in
  (astype_str NaN = "nan"
   ∧ (∀ c, astype_str c = "nan" ↔ nan_key c)
   ∧ nan_group
     = Merger.prods_astype
       <$> List.filter
             (λ p, bool_decide (astype_str (Prods.Application_No p) = "nan"))
             keyless_prods
   ∧ ∃ df, Merger.merge_tables keyless_sub keyless_apps keyless_prods = inr df
     ∧ (∃ r, r ∈ df ∧ from_submission s r ∧ Df.Application_No r = "nan")
     ∧ (∀ a, a ∈ keyless_apps → Apps.Application_No a = NaN →
          ∃ r, r ∈ df ∧ from_submission s r
               ∧ Df.Sponsor r = Apps.Sponsor a)
     ∧ (∀ p, p ∈ keyless_prods → Prods.Application_No p = NaN →
          Merger.prods_astype p ∈ nan_group)
     ∧ ((∃ p, p ∈ keyless_prods ∧ Prods.Application_No p = NaN) →
        ∀ r, r ∈ df → Df.Application_No r = "nan" →
          Df.Form r
          = Merger.clean_form_cell
              (Str (plain_join (Prods.Form <$> nan_group)))
          ∧ Df.Strength r = Str (plain_join (Prods.Strength <$> nan_group))
          ∧ Df.DrugName r = Str (plain_join (Prods.DrugName <$> nan_group)))
     ∧ (∀ r, r ∈ df → Df.Application_No r = "nan" →
          (∃ s', s' ∈ keyless_sub ∧ nan_key (Sub.Application_No s')
                 ∧ from_submission s' r)
          ∧ ((∃ a, a ∈ keyless_apps ∧ nan_key (Apps.Application_No a)
                   ∧ Df.Sponsor r = Apps.Sponsor a)
             ∨ ((∀ a, a ∈ keyless_apps → ¬ nan_key (Apps.Application_No a))
                ∧ Df.Sponsor r = NaN))
          ∧ (nan_group = [] →
             no_product_fields (Df.Form r) (Df.Strength r) (Df.DrugName r))))
  ∧ (Pandas3.astype_str NaN = None
     ∧ (∀ c, Pandas3.astype_str c = None ↔ c = NaN)
     ∧ ∃ df, Pandas3.merge_tables keyless_sub keyless_apps keyless_prods
             = inr df
       ∧ (∃ r, r ∈ df ∧ from_submission_pandas3 s r
               ∧ Pandas3.Application_No r = None)
       ∧ (∀ a, a ∈ keyless_apps → Apps.Application_No a = NaN →
            ∃ r, r ∈ df ∧ from_submission_pandas3 s r
                 ∧ Pandas3.Sponsor r = Apps.Sponsor a)
       ∧ (∀ r, r ∈ df → Pandas3.Application_No r = None →
            (∃ s', s' ∈ keyless_sub ∧ Sub.Application_No s' = NaN
                   ∧ from_submission_pandas3 s' r)
            ∧ ((∃ a, a ∈ keyless_apps ∧ Apps.Application_No a = NaN
                     ∧ Pandas3.Sponsor r = Apps.Sponsor a)
               ∨ ((∀ a, a ∈ keyless_apps → Apps.Application_No a ≠ NaN)
                  ∧ Pandas3.Sponsor r = NaN))
            ∧ no_product_fields (Pandas3.Form r) (Pandas3.Strength r)
                (Pandas3.DrugName r))).
Proof.
  apply (missing_key_joins_as_nan keyless_sub keyless_apps keyless_prods
           (Sub.Row NaN (Str "ORIG") (Num "1") (Str "AP")
              (Str "1999-01-04 00:00:00") (Str "PRIORITY"))).
  - repeat constructor.
  - left.
  - reflexivity.
Defined.

(** C10 as stated fails under pandas 3: the key of a submission row without
    Application_No stays missing, it is not the text "nan", and the row gets
    no field of the Products rows whose key is missing too; it still gets the
    Sponsor of the Applications row whose key is missing. Before pandas 3.0
    the same three tables give the key "nan" and the joined product
    fields. *)
Lemma missing_key_joins_as_nan_counterexample :
  Pandas3.astype_str NaN = None
  ∧ Pandas3.merge_tables keyless_sub keyless_apps keyless_prods
    = inr [Pandas3.Row None (Str "Original") (Num "1") (Str "AP")
             (Str "1999-01-04 00:00:00") (Str "PRIORITY")
             (Str "Stray Pharma") (Str EmptyString) NaN NaN]
  ∧ Pandas3.groupby_agg (Pandas3.prods_astype <$> keyless_prods)
    = inr [Prods.Row "20001.0" (Str "INJECTABLE;INJECTION") (Str "10MG/ML")
             (Str "DrugY")]
  ∧ Merger.merge_tables keyless_sub keyless_apps keyless_prods
    = inr [Df.Row "nan" (Str "Original") (Num "1") (Str "AP")
             (Str "1999-01-04 00:00:00") (Str "PRIORITY")
             (Str "Stray Pharma") (Str "CREAM / TOPICAL, GEL / TOPICAL")
             (Str "1%, 2%") (Str "DrugZ, DrugW")].
Proof. repeat split; vm_compute; reflexivity. Qed.

Example missing_key_joins_as_nan_run :
  Merger.merge_tables keyless_sub keyless_apps keyless_prods
  = inr [Df.Row "nan" (Str "Original") (Num "1") (Str "AP")
           (Str "1999-01-04 00:00:00") (Str "PRIORITY") (Str "Stray Pharma")
           (Str "CREAM / TOPICAL, GEL / TOPICAL") (Str "1%, 2%")
           (Str "DrugZ, DrugW")].
Proof. vm_compute. reflexivity. Qed.

(** ** The Form separator (lines 83-84) *)

Lemma split_go_length_pos (sep : string) (skip : nat) (s : string) :
  (0 < length (split_go sep skip s))%nat.
Proof.
  revert skip. induction s as [|c s IH]; intros skip; cbn [split_go].
  - simpl. lia.
  - destruct skip as [|n]; [|apply IH].
    destruct (String.prefix sep (String c s)); [simpl; lia|].
    pose proof (IH 0%nat) as Hpos.
    destruct (split_go sep 0 s); simpl in *; lia.
Qed.

Lemma split_go_cut (sep : string) (c : ascii) (s : string) :
  String.prefix sep (String c s) = true →
  length (split_go sep 0 (String c s))
  = S (length (split_go sep (String.length sep - 1) s)).
Proof. intros Hp. cbn [split_go]. by rewrite Hp. Qed.

Lemma split_go_keep (sep : string) (c : ascii) (s : string) :
  String.prefix sep (String c s) = false →
  length (split_go sep 0 (String c s)) = length (split_go sep 0 s).
Proof.
  intros Hp. cbn [split_go]. rewrite Hp.
  pose proof (split_go_length_pos sep 0 s) as Hpos.
  destruct (split_go sep 0 s); simpl in *; [lia|done].
Qed.

Lemma prefix_cons (a b : ascii) (s1 s2 : string) :
  String.prefix (String a s1) (String b s2)
  = if ascii_dec a b then String.prefix s1 s2 else false.
Proof. done. Qed.

Lemma prefix_nil (s : string) : String.prefix EmptyString s = true.
Proof. by destruct s. Qed.

(** A character that is not ";" starts no " / " in the rewritten text,
    unless the text had " /" there. *)
Lemma no_separator_at_kept (c : ascii) (s : string) :
  c ≠ ";"%char →
  String.prefix " /" (String c s) = false →
  String.prefix " / " (String c (replace_char ";" " / " s)) = false.
Proof.
  intros Hc. rewrite !prefix_cons.
  destruct (ascii_dec " " c) as [_|_]; [|done].
  destruct s as [|d s]; [done|].
  cbn [replace_char]. destruct (decide (d = ";"%char)) as [->|Hd]; [done|].
  rewrite !prefix_cons. destruct (ascii_dec "/" d); [by destruct s|done].
Qed.

Lemma replaced_separators (s : string) :
  contains " /" s = false →
  length (split " / " (replace_char ";" " / " s)) = length (split ";" s).
Proof.
  unfold split. induction s as [|c s IH]; [done|].
  cbn [contains]. intros [Hhere Hrest]%orb_false_elim.
  specialize (IH Hrest). cbn [replace_char].
  destruct (decide (c = ";"%char)) as [->|Hc].
  - change (" / " +:+ replace_char ";" " / " s)
      with (String " " (String "/" (String " " (replace_char ";" " / " s)))).
    rewrite (split_go_cut " / ") by (by rewrite !prefix_cons, prefix_nil).
    rewrite (split_go_cut ";") by (by rewrite !prefix_cons, prefix_nil).
    cbn [String.length Nat.sub split_go]. by rewrite IH.
  - rewrite split_go_keep by by apply no_separator_at_kept.
    rewrite split_go_keep; [done|].
    rewrite prefix_cons. by destruct (ascii_dec ";" c).
Qed.

(** C6, amended: the rewrite turns a missing Form into the empty text and
    replaces each ";" of a Form by " / "; for a Form in which no "/" follows
    a space, splitting the result on " / " gives as many components as
    splitting the Form on ";". *)
Theorem form_rewrite_keeps_component_count (s : string) :
  contains " /" s = false →
  Merger.clean_form_cell NaN = Str EmptyString
  ∧ Merger.clean_form_cell (Str s) = Str (replace_char ";" " / " s)
  ∧ length (split " / " (replace_char ";" " / " s)) = length (split ";" s).
Proof.
  intros Hs. split; [done|]. split; [done|]. by apply replaced_separators.
Qed.

Lemma form_rewrite_keeps_component_count_witness :
  Merger.clean_form_cell NaN = Str EmptyString
  ∧ Merger.clean_form_cell (Str "SOLUTION/DROPS;OPHTHALMIC")
    = Str (replace_char ";" " / " "SOLUTION/DROPS;OPHTHALMIC")
  ∧ length (split " / " (replace_char ";" " / " "SOLUTION/DROPS;OPHTHALMIC"))
    = length (split ";" "SOLUTION/DROPS;OPHTHALMIC").
Proof.
  apply (form_rewrite_keeps_component_count "SOLUTION/DROPS;OPHTHALMIC").
  reflexivity.
Defined.

(** C6 as stated fails: a Form that already contains " / " gains a
    component. *)
Lemma form_rewrite_component_counterexample :
  Merger.clean_form_cell (Str "SOLUTION / DROPS;OPHTHALMIC")
  = Str "SOLUTION / DROPS / OPHTHALMIC"
  ∧ split ";" "SOLUTION / DROPS;OPHTHALMIC"
    = ["SOLUTION / DROPS"; "OPHTHALMIC"]
  ∧ split " / " "SOLUTION / DROPS / OPHTHALMIC"
    = ["SOLUTION"; "DROPS"; "OPHTHALMIC"].
Proof. repeat split; reflexivity. Qed.

(** ** The load step of the Dashboard (lines 10-28) *)

Lemma fillna_unknown (c : cell) : fillna (Str "Unknown") c = or_unknown c.
Proof. by destruct c. Qed.

Lemma normalise_with_year (r : Dashboard.row (option Dashboard.Timestamp) unit)
    (r' : Dashboard.row Dashboard.Timestamp Z) :
  Dashboard.with_year (Dashboard.normalise r) = Some r' → loaded r r'.
Proof.
  unfold Dashboard.with_year, Dashboard.normalise. simpl.
  destruct (Dashboard.Submission_Date r) as [t|] eqn:Ht; [|done].
  intros [= <-]. unfold loaded. simpl.
  rewrite Ht, remap_status_label, remap_submission_type_label,
    !fillna_unknown.
  by repeat split.
Qed.

Lemma load_dates (rows : list (Dashboard.row (option Dashboard.Timestamp) unit)) :
  ∃ df, Dashboard.load_data (Dashboard.Dates rows) = inr df
        ∧ Forall2 loaded (filter has_date rows) df.
Proof.
  eexists. split; [done|].
  unfold Dashboard.dropna_date.
  induction rows as [|r rows IH]; [constructor|].
  rewrite filter_cons. cbn [List.filter].
  destruct (decide (has_date r)) as [Hr|Hr].
  - rewrite bool_decide_eq_true_2
      by (unfold has_date in Hr; by destruct (Dashboard.Submission_Date r)).
    rewrite fmap_cons. cbn [omap list_omap].
    destruct (Dashboard.with_year (Dashboard.normalise r)) as [r'|] eqn:Hr'.
    + constructor; [by apply normalise_with_year|done].
    + exfalso. unfold Dashboard.with_year, Dashboard.normalise in Hr'.
      simpl in Hr'. unfold has_date in Hr.
      by destruct (Dashboard.Submission_Date r).
  - rewrite bool_decide_eq_false_2; [done|].
    unfold has_date in Hr. intros [t Ht]. apply Hr. by rewrite Ht.
Qed.

Lemma submission_type_label_idemp (c : cell) :
  submission_type_label (submission_type_label c) = submission_type_label c.
Proof.
  destruct c as [|s|n]; try done. unfold submission_type_label.
  repeat (case_decide; [done|]). simpl.
  repeat (case_decide; [done|]). done.
Qed.

(** C8, amended: of a merged table whose Submission_Date column
    [read_excel] converts to dates, the load step keeps, in order, exactly
    the rows whose Submission_Date is not missing; in each it maps Status by
    AP to "Approved" and TA to "Tentative Approval" and keeps any other
    Status, puts "Unknown" in place of a missing Sponsor or DrugName, sets
    Submission_Year to the year of Submission_Date, passes Submission_Type
    through the four-code labelling, which changes none of the labels the
    Merger writes, and keeps every other field. *)
Theorem dashboard_load_keeps_dated_rows
    (rows : list (Dashboard.row (option Dashboard.Timestamp) unit)) :
  (∃ df, Dashboard.load_data (Dashboard.Dates rows) = inr df
         ∧ Forall2 loaded (filter has_date rows) df)
  ∧ status_label (Str "AP") = Str "Approved"
  ∧ status_label (Str "TA") = Str "Tentative Approval"
  ∧ (∀ s, s ≠ "AP" → s ≠ "TA" → status_label (Str s) = Str s)
  ∧ (∀ c, submission_type_label (submission_type_label c)
          = submission_type_label c).
Proof.
  split; [apply load_dates|]. split; [done|]. split; [done|].
  split; [|apply submission_type_label_idemp].
  intros s Hap Hta. unfold status_label.
  by rewrite !decide_False.
Qed.

Example dashboard_load_example :
  Dashboard.load_data dated_sheet
  = inr [Dashboard.Row (Num "12345") (Str "Supplemental") (Num "1")
           (Str "Approved") (Dashboard.Stamp 1984 5 31 0) (Str "STANDARD")
           (Str "Unknown") (Str "TABLET / ORAL") (Str "250MG") (Str "DrugX")
           1984%Z;
         Dashboard.Row (Num "20001") (Str "Original") (Num "1") (Str "RL")
           (Dashboard.Stamp 1999 1 4 0) (Str "PRIORITY") (Str "Other Labs")
           NaN NaN (Str "Unknown") 1999%Z].
Proof. vm_compute. reflexivity. Qed.

(** C8 as stated fails: a sheet with a Submission_Date that is not a date
    is not loaded without that row; the load step raises. *)
Lemma dashboard_load_undated_counterexample :
  Dashboard.load_data undated_sheet = inl AttributeError
  ∧ ∀ df, Dashboard.load_data undated_sheet ≠ inr df.
Proof. split; [reflexivity|]. intros df. discriminate. Qed.

(** ** The sidebar filters of the Dashboard (lines 39-49) *)

Lemma elem_of_filtered (str_contains : string → cell → bool)
    (df : list (Dashboard.row Dashboard.Timestamp Z)) (w : Dashboard.sidebar)
    (r : Dashboard.row Dashboard.Timestamp Z) :
  r ∈ Dashboard.filtered str_contains df w →
  r ∈ df
  ∧ Dashboard.Sponsor r ∈ Dashboard.selected_sponsors w
  ∧ Dashboard.DrugName r ∈ Dashboard.selected_drugs w.
Proof.
  unfold Dashboard.filtered. intros Hr.
  assert (r ∈ List.filter (Dashboard.passes w) df) as Hpass.
  { destruct (decide (Dashboard.search w = EmptyString)); [done|].
    by apply elem_of_List_filter in Hr as [Hr _]. }
  apply elem_of_List_filter in Hpass as [Hdf Hpass].
  unfold Dashboard.passes in Hpass.
  apply andb_prop in Hpass as [Hpass Hdrug].
  apply andb_prop in Hpass as [_ Hsponsor].
  apply bool_decide_eq_true in Hdrug, Hsponsor. done.
Qed.

Lemma default_sidebar_selection
    (df : list (Dashboard.row Dashboard.Timestamp Z)) (w : Dashboard.sidebar) :
  Dashboard.default_sidebar df = inr w →
  Dashboard.search w = EmptyString
  ∧ Dashboard.selected_status w = Dashboard.status_options df
  ∧ Dashboard.selected_sponsors w = Dashboard.sponsor_default df
  ∧ Dashboard.selected_drugs w = Dashboard.drug_default df.
Proof.
  unfold Dashboard.default_sidebar.
  destruct (Dashboard.year_min df) as [e|lo]; simpl; [done|].
  destruct (Dashboard.year_max df) as [e|hi]; simpl; [done|].
  by intros [= <-].
Qed.

(** C9: the Sponsor multi-select offers the first 30 distinct sponsors and
    starts with the first 10 selected, the Drug Name multi-select offers the
    first 50 distinct drugs and starts with the first 5 selected; with those
    selections a row whose Sponsor is not among the first 10 distinct
    sponsors, or whose DrugName is not among the first 5 distinct drugs, is
    not in the filtered table, and the metrics, the charts, the table and the
    CSV export are all computed from the filtered table. *)
Theorem dashboard_default_filters_hide_rows
    (str_contains : string → cell → bool)
    (df : list (Dashboard.row Dashboard.Timestamp Z)) (w : Dashboard.sidebar) :
  Dashboard.selected_sponsors w = Dashboard.sponsor_default df →
  Dashboard.selected_drugs w = Dashboard.drug_default df →
  let shown := Dashboard.filtered str_contains df w in
  let page := Dashboard.show str_contains df w in
  (Dashboard.sponsor_options df = take 30 (unique (Dashboard.Sponsor <$> df))
   ∧ Dashboard.sponsor_default df
     = take 10 (unique (Dashboard.Sponsor <$> df))
   ∧ Dashboard.drug_options df
     = take 50 (unique (Dashboard.DrugName <$> df))
   ∧ Dashboard.drug_default df
     = take 5 (unique (Dashboard.DrugName <$> df)))
  ∧ (∀ w0, Dashboard.default_sidebar df = inr w0 →
       Dashboard.selected_sponsors w0 = Dashboard.sponsor_default df
       ∧ Dashboard.selected_drugs w0 = Dashboard.drug_default df)
  ∧ (∀ r, r ∈ df →
       Dashboard.Sponsor r ∉ take 10 (unique (Dashboard.Sponsor <$> df))
       ∨ Dashboard.DrugName r ∉ take 5 (unique (Dashboard.DrugName <$> df)) →
       r ∉ shown)
  ∧ Dashboard.total_submissions page = length shown
  ∧ Dashboard.unique_sponsors page
    = nunique (dropna (Dashboard.Sponsor <$> shown))
  ∧ Dashboard.approved page
    = length (List.filter (λ c, bool_decide (c = Str "Approved"))
                (Dashboard.Status <$> shown))
  ∧ Dashboard.unique_drugs page
    = nunique (dropna (Dashboard.DrugName <$> shown))
  ∧ Dashboard.top_sponsors_of page = Dashboard.Sponsor <$> shown
  ∧ Dashboard.monthly_trend_of page = Dashboard.Submission_Date <$> shown
  ∧ Dashboard.status_distribution_of page = Dashboard.Status <$> shown
  ∧ Dashboard.type_breakdown_of page = Dashboard.Submission_Type <$> shown
  ∧ Dashboard.dataframe page = shown
  ∧ Dashboard.csv page = shown.
Proof.
  intros Hsponsors Hdrugs shown page.
  split; [done|]. split.
  { intros w0 Hw0. by apply default_sidebar_selection in Hw0 as (_ & _ & ?). }
  split; [|by repeat split].
  intros r _ Hout Hshown.
  apply elem_of_filtered in Hshown as (_ & Hsp & Hdr).
  rewrite Hsponsors in Hsp. rewrite Hdrugs in Hdr.
  destruct Hout as [Hout|Hout]; by apply Hout.
Qed.

Lemma dashboard_default_filters_hide_rows_witness :
  Dashboard.default_sidebar six_drugs = inr six_drugs_sidebar
  ∧ ((six_drug_row "10006" "DrugF")
       ∉ Dashboard.filtered (λ _ _, true) six_drugs six_drugs_sidebar)
  ∧ Dashboard.total_submissions
      (Dashboard.show (λ _ _, true) six_drugs six_drugs_sidebar) = 5%nat.
Proof.
  destruct (dashboard_default_filters_hide_rows (λ _ _, true) six_drugs
              six_drugs_sidebar eq_refl eq_refl)
    as (_ & _ & Hhide & Htotal & _).
  split; [reflexivity|]. split.
  - apply Hhide.
    + apply (bool_decide_unpack _). by vm_compute.
    + right. apply (bool_decide_unpack _). by vm_compute.
  - rewrite Htotal. reflexivity.
Defined.

(** ** Further properties of the Merger *)

(** *** Row counts without unique keys *)

Lemma merge_left_length_sum {K L R O} `{EqDecision K} (lkey : L → K) (rkey : R → K)
    (matched : L → R → O) (unmatched : L → O) (left : list L)
    (right : list R) :
  length (merge_left lkey rkey matched unmatched left right)
  = sum_list ((λ l, 1 `max` length (List.filter
                                      (λ r, bool_decide (rkey r = lkey l))
                                      right)) <$> left).
Proof.
  unfold merge_left. induction left as [|l left IH]; [done|].
  cbn [flat_map]. rewrite length_app, IH, fmap_cons. cbn [sum_list_with].
  f_equal. destruct (List.filter _ right) as [|r rest]; [done|].
  rewrite length_fmap. cbn [length]. unfold id in *. lia.
Qed.

Lemma List_filter_fmap_length {A B} (f : A → B) (p : B → bool) (l : list A) :
  length (List.filter p (f <$> l)) = length (List.filter (λ x, p (f x)) l).
Proof.
  induction l as [|x l IH]; [done|]. rewrite fmap_cons. simpl.
  destruct (p (f x)); simpl; by rewrite IH.
Qed.

Lemma merge_tables_length_sum (sub : list (Sub.row cell))
    (apps : list (Apps.row cell)) (prods : list (Prods.row cell))
    (df : list Df.row) :
  Merger.merge_tables sub apps prods = inr df →
  length df = sum_list ((λ s, 1 `max` sponsor_matches apps s) <$> sub).
Proof.
  intros Hdf. apply merge_tables_inr in Hdf as ->.
  rewrite !length_fmap. unfold Merger.merge_prods, Merger.merge_apps.
  rewrite merge_left_length
    by (rewrite aggregated_keys; apply NoDup_group_keys).
  rewrite merge_left_length_sum, <- list_fmap_compose.
  f_equal. apply list_fmap_ext. intros i s _. simpl.
  unfold sponsor_matches.
  by rewrite (List_filter_fmap_length Merger.apps_astype).
Qed.

Lemma sum_list_max_ge {A} (f : A → nat) (l : list A) :
  (length l ≤ sum_list ((λ x, 1 `max` f x) <$> l))%nat.
Proof.
  induction l as [|x l IH]; [done|].
  rewrite fmap_cons. cbn [sum_list_with length]. unfold id in *. lia.
Qed.

Lemma sum_list_max_gt {A} (f : A → nat) (l : list A) (x : A) :
  x ∈ l → (2 ≤ f x)%nat →
  (length l < sum_list ((λ x, 1 `max` f x) <$> l))%nat.
Proof.
  intros Hx Hf. induction l as [|y l IH]; [by apply not_elem_of_nil in Hx|].
  rewrite fmap_cons. cbn [sum_list_with length].
  apply elem_of_cons in Hx as [<-|Hx].
  - pose proof (sum_list_max_ge f l). unfold id in *. lia.
  - specialize (IH Hx). unfold id in *. lia.
Qed.

(** X1: whatever Applications holds, the merged table has, for each
    submission row, one row if no Applications row has its key and as many
    rows as there are Applications rows with its key otherwise; so it never
    has fewer rows than Submissions. *)
Theorem merger_row_count_formula (sub : list (Sub.row cell))
    (apps : list (Apps.row cell)) (prods : list (Prods.row cell))
    (df : list Df.row) :
  Merger.merge_tables sub apps prods = inr df →
  length df = sum_list ((λ s, 1 `max` sponsor_matches apps s) <$> sub)
  ∧ (length sub ≤ length df)%nat.
Proof.
  intros Hdf. rewrite (merge_tables_length_sum _ _ _ _ Hdf).
  split; [done|]. apply sum_list_max_ge.
Qed.

Lemma merger_row_count_formula_witness :
  length twice_listed_df
  = sum_list ((λ s, 1 `max` sponsor_matches twice_listed_apps s)
              <$> example_sub)
  ∧ (length example_sub ≤ length twice_listed_df)%nat.
Proof.
  apply (merger_row_count_formula example_sub twice_listed_apps
           example_prods).
  vm_compute. reflexivity.
Defined.

(** X2: a submission row whose key two or more Applications rows carry is
    repeated in the merged table, which then has more rows than
    Submissions. *)
Theorem merger_duplicate_application_repeats_rows (sub : list (Sub.row cell))
    (apps : list (Apps.row cell)) (prods : list (Prods.row cell))
    (df : list Df.row) (s : Sub.row cell) :
  Merger.merge_tables sub apps prods = inr df →
  s ∈ sub →
  (2 ≤ sponsor_matches apps s)%nat →
  (length sub < length df)%nat.
Proof.
  intros Hdf Hs Hdup. rewrite (merge_tables_length_sum _ _ _ _ Hdf).
  by apply (sum_list_max_gt _ _ s).
Qed.

Lemma merger_duplicate_application_repeats_rows_witness :
  (length example_sub < length twice_listed_df)%nat.
Proof.
  apply (merger_duplicate_application_repeats_rows example_sub
           twice_listed_apps example_prods twice_listed_df
           (Sub.Row (Num "12345") (Str "SUPPL") (Num "1") (Str "AP")
              (Str "1984-05-31 00:00:00") (Str "STANDARD"))).
  - vm_compute. reflexivity.
  - left.
  - vm_compute. lia.
Defined.

(** *** The aggregated Products table *)

Lemma length_unique_merge_sort (l : list string) :
  length (merge_sort String.le (unique l)) = nunique l.
Proof. unfold nunique. by rewrite (merge_sort_Permutation String.le). Qed.

(** X3: the table the aggregation returns is in increasing order of
    Application_No, has as many rows as Products has distinct keys, and has
    a text, never a missing value, in each of Form, Strength and
    DrugName. *)
Theorem products_aggregation_sorted_and_filled
    (prods agg : list (Prods.row string)) :
  Merger.groupby_agg prods = inr agg →
  Sorted String.le (Prods.Application_No <$> agg)
  ∧ length agg = nunique (Prods.Application_No <$> prods)
  ∧ Forall str_fields agg.
Proof.
  intros Hagg. apply groupby_agg_inr in Hagg as ->.
  rewrite aggregated_keys, length_fmap. split; [|split].
  - apply (Sorted_merge_sort String.le).
  - apply length_unique_merge_sort.
  - apply Forall_fmap, Forall_forall. intros k _. by repeat split.
Qed.

Lemma products_aggregation_sorted_and_filled_witness :
  Sorted String.le
    (Prods.Application_No
     <$> [Prods.Row "12345" (Str "TABLET;ORAL") (Str EmptyString)
            (Str "DrugX")])
  ∧ length [Prods.Row "12345" (Str "TABLET;ORAL") (Str EmptyString)
              (Str "DrugX")]
    = nunique (Prods.Application_No <$> strength_missing)
  ∧ Forall str_fields
      [Prods.Row "12345" (Str "TABLET;ORAL") (Str EmptyString) (Str "DrugX")].
Proof.
  apply (products_aggregation_sorted_and_filled strength_missing).
  vm_compute. reflexivity.
Defined.

(** *** Which fields of a merged row are missing *)






(** A key with a Products row can still leave an empty Strength cell: the
    one Products row of the key has no Strength, the frame holds the empty
    text, and the sheet an empty cell. *)
Example matched_key_empty_strength_cell :
  Merger.merge_tables example_sub example_apps
    [Prods.Row (Num "12345") (Str "TABLET;ORAL") NaN (Str "DrugX")]
  = inr [Df.Row "12345" (Str "Supplemental") (Num "1") (Str "AP")
           (Str "1984-05-31 00:00:00") (Str "STANDARD") (Str "Acme")
           (Str "TABLET / ORAL") (Str EmptyString) (Str "DrugX")]
  ∧ Xlsx.Strength
      (Merger.excel_row
         (Df.Row "12345" (Str "Supplemental") (Num "1") (Str "AP")
            (Str "1984-05-31 00:00:00") (Str "STANDARD") (Str "Acme")
            (Str "TABLET / ORAL") (Str EmptyString) (Str "DrugX")))
    = Xlsx.Blank.
Proof. split; vm_compute; reflexivity. Qed.

(** *** The shape of Form and Submission_Type in the merged table *)

Lemma contains_cons (sub : string) (c : ascii) (s : string) :
  contains sub (String c s) = String.prefix sub (String c s) || contains sub s.
Proof. done. Qed.

Lemma replace_char_removes (s : string) :
  contains ";" (replace_char ";" " / " s) = false.
Proof.
  induction s as [|c s IH]; [done|]. cbn [replace_char].
  destruct (decide (c = ";"%char)) as [->|Hc].
  - change (" / " +:+ replace_char ";" " / " s)
      with (String " " (String "/" (String " " (replace_char ";" " / " s)))).
    by rewrite !contains_cons, !prefix_cons, IH.
  - rewrite contains_cons, prefix_cons, IH.
    by destruct (ascii_dec ";" c); [subst|].
Qed.

(** X5: in the frame that line 89 writes, Form is never missing: it is a
    text, and the text has no ";" left in it. In the written sheet the Form
    cell is that text when it is not empty, and an empty cell, which holds
    no text, when it is. *)
Theorem merger_form_is_text_without_semicolon (sub : list (Sub.row cell))
    (apps : list (Apps.row cell)) (prods : list (Prods.row cell))
    (df : list Df.row) (r : Df.row) :
  Merger.merge_tables sub apps prods = inr df →
  r ∈ df →
  ∃ form, Df.Form r = Str form ∧ contains ";" form = false
    ∧ (form ≠ EmptyString →
       Xlsx.Form (Merger.excel_row r) = Xlsx.Text form)
    ∧ (form = EmptyString → Xlsx.Form (Merger.excel_row r) = Xlsx.Blank).
Proof.
  intros Hdf Hr.
  apply (elem_of_merge_tables _ _ _ _ _ Hdf) in Hr
    as (s & sponsor & form & strength & drug & Hs & Hsp & Hp & ->).
  cbn [Merger.excel_row Df.Form Xlsx.Form].
  assert (∃ t, Merger.clean_form_cell form = Str t
               ∧ contains ";" t = false) as (t & -> & Ht).
  { destruct Hp as [(_ & -> & _)|(_ & -> & _)].
    - eexists. split; [done|]. apply replace_char_removes.
    - by exists EmptyString. }
  exists t. split; [done|]. split; [done|]. simpl.
  case_decide; by split.
Qed.

Lemma merger_form_is_text_without_semicolon_witness :
  let r := Df.Row "12345" (Str "Supplemental") (Num "1") (Str "AP")
             (Str "1984-05-31 00:00:00") (Str "STANDARD") (Str "Acme")
             (Str "TABLET / ORAL") (Str "250MG") (Str "DrugX") in
  ∃ form, Df.Form r = Str form ∧ contains ";" form = false
    ∧ (form ≠ EmptyString →
       Xlsx.Form (Merger.excel_row r) = Xlsx.Text form)
    ∧ (form = EmptyString → Xlsx.Form (Merger.excel_row r) = Xlsx.Blank).
Proof.
  apply (merger_form_is_text_without_semicolon example_sub example_apps
           example_prods
           [Df.Row "12345" (Str "Supplemental") (Num "1") (Str "AP")
              (Str "1984-05-31 00:00:00") (Str "STANDARD") (Str "Acme")
              (Str "TABLET / ORAL") (Str "250MG") (Str "DrugX")]).
  - vm_compute. reflexivity.
  - left.
Defined.

Lemma submission_type_label_not_code (c : cell) :
  submission_type_label c ∉ submission_type_codes.
Proof.
  unfold submission_type_codes. rewrite !not_elem_of_cons.
  destruct c as [|s|n]; simpl; try (repeat split; [done..|apply not_elem_of_nil]).
  repeat case_decide;
    (repeat split; [congruence..|apply not_elem_of_nil]).
Qed.

(** X6: no row of the merged table keeps one of the codes AP, TP, ORIG,
    SUPPL as Submission_Type, so the Submission_Type map of the Dashboard
    (lines 18-23) changes no Submission_Type the Merger has written. *)
Theorem merger_leaves_no_submission_type_code (sub : list (Sub.row cell))
    (apps : list (Apps.row cell)) (prods : list (Prods.row cell))
    (df : list Df.row) (r : Df.row) :
  Merger.merge_tables sub apps prods = inr df →
  r ∈ df →
  (Df.Submission_Type r ∉ submission_type_codes)
  ∧ Dashboard.remap Dashboard.submission_type_map (Df.Submission_Type r)
    = Df.Submission_Type r.
Proof.
  intros Hdf Hr.
  destruct (row_has_submission _ _ _ _ _ Hdf Hr) as (s & _ & _ & -> & _).
  split; [apply submission_type_label_not_code|].
  rewrite remap_submission_type_label. apply submission_type_label_idemp.
Qed.

Lemma merger_leaves_no_submission_type_code_witness :
  (Str "Supplemental" ∉ submission_type_codes)
  ∧ Dashboard.remap Dashboard.submission_type_map (Str "Supplemental")
    = Str "Supplemental".
Proof.
  apply (merger_leaves_no_submission_type_code example_sub example_apps
           example_prods
           [Df.Row "12345" (Str "Supplemental") (Num "1") (Str "AP")
              (Str "1984-05-31 00:00:00") (Str "STANDARD") (Str "Acme")
              (Str "TABLET / ORAL") (Str "250MG") (Str "DrugX")]
           (Df.Row "12345" (Str "Supplemental") (Num "1") (Str "AP")
              (Str "1984-05-31 00:00:00") (Str "STANDARD") (Str "Acme")
              (Str "TABLET / ORAL") (Str "250MG") (Str "DrugX"))).
  - vm_compute. reflexivity.
  - left.
Defined.

(** *** When the transformation fails *)











(** *** Which failure a run reports *)

(** X8: the three files are read before anything else is done with them:
    when a [read_csv] call raises, the exception of the first one that does
    is the one the run reports, whatever the other files hold; the run
    prints the data directory and the message of that exception and nothing
    else, and leaves the output file as it was. *)
Theorem merger_reports_first_read_failure (w : Merger.world) (e : exn) :
  Merger.openpyxl_installed w = true →
  first_read_error w = Some e →
  Merger.raised w = Some e
  ∧ Merger.printed (Merger.run w)
    = [[Txt "Data directory:"; Txt (Merger.data_dir w)]; failure_message e]
  ∧ Merger.output_after (Merger.run w) = Merger.output_before w.
Proof.
  intros Hpy Hfirst.
  assert (Merger.prepare w (Merger.at_try w) = (Merger.at_try w, inl e))
    as Hprep.
  { unfold first_read_error in Hfirst. unfold Merger.prepare.
    rewrite bind_lift.
    destruct (Merger.read_submissions w) as [e1|?];
      [by injection Hfirst as ->|].
    rewrite bind_lift.
    destruct (Merger.read_applications w) as [e2|?];
      [by injection Hfirst as ->|].
    rewrite bind_lift.
    destruct (Merger.read_products w) as [e3|?];
      [by injection Hfirst as ->|done]. }
  assert (Merger.try_body w (Merger.at_try w) = (Merger.at_try w, inl e))
    as Hbody.
  { unfold Merger.try_body. by rewrite bind_script, Hprep. }
  assert (Merger.raised w = Some e) as Hraised.
  { unfold Merger.raised. by rewrite Hbody. }
  split; [done|].
  destruct (run_caught w e Hpy Hraised) as (st & Hbody' & ->).
  rewrite Hbody in Hbody'. by injection Hbody' as <-.
Qed.

Lemma merger_reports_first_read_failure_witness :
  Merger.raised no_products_world
  = Some (FileNotFoundError
            "No such file or directory: '/srv/data/Products.txt'")
  ∧ Merger.printed (Merger.run no_products_world)
    = [[Txt "Data directory:"; Txt "/srv/data"];
       [Txt "Error: File not found - ";
        Exc (FileNotFoundError
               "No such file or directory: '/srv/data/Products.txt'")]]
  ∧ Merger.output_after (Merger.run no_products_world) = Some earlier_sheet.
Proof.
  apply (merger_reports_first_read_failure no_products_world
           (FileNotFoundError
              "No such file or directory: '/srv/data/Products.txt'"));
    reflexivity.
Defined.

Lemma check_columns_missing (labels : list string) (df : frame) :
  check_columns labels df
  = match missing_labels labels df with
    | [] => inr ()
    | missing => inl (KeyError missing)
    end.
Proof. done. Qed.

Lemma prepare_missing_labels (w : Merger.world) (st : Merger.process)
    (submissions applications products : frame) :
  Merger.read_submissions w = inr submissions →
  Merger.read_applications w = inr applications →
  Merger.read_products w = inr products →
  first_missing_labels submissions applications products ≠ [] →
  ∃ st',
    Merger.prepare w st
    = (st', inl (KeyError (first_missing_labels submissions applications
                             products))).
Proof.
  intros Hs Ha Hp. unfold first_missing_labels, Merger.prepare.
  rewrite bind_lift, Hs, bind_lift, Ha, bind_lift, Hp.
  repeat rewrite bind_print. rewrite bind_lift.
  unfold Merger.select_sub at 1. rewrite check_columns_missing.
  destruct (missing_labels _ submissions) as [|c1 m1];
    [|intros _; by eexists].
  cbn [mbind result_bind mret result_ret]. rewrite bind_lift.
  unfold Merger.select_apps at 1. rewrite check_columns_missing.
  destruct (missing_labels _ applications) as [|c2 m2];
    [|intros _; by eexists].
  cbn [mbind result_bind mret result_ret]. rewrite bind_lift.
  unfold Merger.select_prods at 1. rewrite check_columns_missing.
  destruct (missing_labels _ products) as [|c3 m3]; [done|].
  intros _. by eexists.
Qed.

(** X9: when the three files load but a selection of lines 27-29 asks for a
    column a file does not have, the run raises KeyError naming the labels
    that the first such file lacks, prints "Error: Column not found" with
    them as its last line, and leaves the output file as it was. *)
Theorem merger_reports_missing_columns (w : Merger.world)
    (submissions applications products : frame) :
  Merger.openpyxl_installed w = true →
  Merger.read_submissions w = inr submissions →
  Merger.read_applications w = inr applications →
  Merger.read_products w = inr products →
  first_missing_labels submissions applications products ≠ [] →
  let e := KeyError (first_missing_labels submissions applications products) in
  Merger.raised w = Some e
  ∧ last (Merger.printed (Merger.run w))
    = Some [Txt "Error: Column not found - "; Exc e]
  ∧ Merger.output_after (Merger.run w) = Merger.output_before w.
Proof.
  intros Hpy Hs Ha Hp Hmissing e.
  destruct (prepare_missing_labels w (Merger.at_try w) _ _ _ Hs Ha Hp Hmissing)
    as (st & Hprep).
  assert (Merger.raised_before_write w = Some e) as Hbefore.
  { unfold Merger.raised_before_write. by rewrite Hprep. }
  destruct (try_body_before_write w _ Hbefore) as (st' & Hbody & Hout).
  assert (Merger.raised w = Some e) as Hraised.
  { unfold Merger.raised. by rewrite Hbody. }
  split; [done|].
  destruct (run_caught w _ Hpy Hraised) as (st'' & Hbody' & ->). simpl.
  split; [apply last_snoc|].
  rewrite Hbody in Hbody'. by injection Hbody' as <-.
Qed.

Lemma merger_reports_missing_columns_witness :
  let e := KeyError ["SubmissionStatusDate"; "ReviewPriority"] in
  Merger.raised headless_world = Some e
  ∧ last (Merger.printed (Merger.run headless_world))
    = Some [Txt "Error: Column not found - "; Exc e]
  ∧ Merger.output_after (Merger.run headless_world) = Some earlier_sheet.
Proof.
  apply (merger_reports_missing_columns headless_world headless_submissions
           example_applications example_products);
    try reflexivity.
  vm_compute. discriminate.
Defined.

(** *** What a run prints *)

Lemma duplicated_sum_agg (prods agg : list (Prods.row string)) :
  Merger.groupby_agg prods = inr agg →
  duplicated_sum (Prods.Application_No <$> agg) = 0%nat.
Proof.
  intros Hagg. apply groupby_agg_inr in Hagg as ->.
  rewrite aggregated_keys. unfold duplicated_sum.
  rewrite (unique_NoDup _ (NoDup_group_keys _)). lia.
Qed.

Lemma merge_prods_length (df : list (Sub.row string * cell))
    (prods agg : list (Prods.row string)) :
  Merger.groupby_agg prods = inr agg →
  length (Merger.merge_prods df agg) = length df.
Proof.
  intros Hagg. apply groupby_agg_inr in Hagg as ->.
  apply merge_left_length. rewrite aggregated_keys. apply NoDup_group_keys.
Qed.

Ltac quiet_line_tac :=
  split;
  [ by intros ? [=]
  | first [ by intros ? [=]
          | intros ? [= <-]; by eapply duplicated_sum_agg ] ].

Ltac close_log :=
  cbn [Merger.stdout Merger.output_file];
  rewrite <- ?app_assoc; cbn [app];
  eexists; split; [try reflexivity; by rewrite app_nil_r|];
  split; [repeat (apply Forall_cons; split; [quiet_line_tac|]);
          by apply Forall_nil|].

Lemma prepare_log (w : Merger.world) (st st' : Merger.process)
    (r : result (list Df.row)) :
  Merger.prepare w st = (st', r) →
  ∃ ls, Merger.stdout st' = (Merger.stdout st ++ ls)%list
        ∧ Forall quiet_line ls
        ∧ ∀ df, r = inr df →
            [Txt "Rows after merging with Applications:"; Int (length df)]
              ∈ ls
            ∧ [Txt "Merged rows:"; Int (length df)] ∈ ls.
Proof.
  unfold Merger.prepare.
  repeat (step_script; [intros [= <- <-]; close_log; by intros df [=]|]).
  repeat rewrite bind_print. intros [= <- <-]. close_log.
  intros df [= <-]. rewrite !length_fmap.
  match goal with
  | H : Merger.groupby_agg _ = inr _ |- _ =>
      rewrite (merge_prods_length _ _ _ H)
  end.
  split; set_solver.
Qed.

Lemma run_log (w : Merger.world) :
  Merger.openpyxl_installed w = true →
  ∃ ls, Forall quiet_line ls ∧
    ((∃ df, Merger.raised w = None
            ∧ Merger.printed (Merger.run w) = (ls ++ [saved_line w])%list
            ∧ Merger.output_after (Merger.run w) = Some (Merger.Sheet df)
            ∧ [Txt "Rows after merging with Applications:";
               Int (length df)] ∈ ls
            ∧ [Txt "Merged rows:"; Int (length df)] ∈ ls)
     ∨ (∃ e, Merger.raised w = Some e
             ∧ Merger.printed (Merger.run w)
               = (ls ++ [failure_message e])%list)).
Proof.
  intros Hpy.
  destruct (Merger.prepare w (Merger.at_try w)) as [st r] eqn:Hprep.
  destruct (prepare_log _ _ _ _ Hprep) as (ls & Hst & Hquiet & Hrows).
  exists ([Txt "Data directory:"; Txt (Merger.data_dir w)] :: ls).
  split; [apply Forall_cons; split; [quiet_line_tac|done]|].
  assert (∀ e st', Merger.try_body w (Merger.at_try w) = (st', inl e) →
            Merger.stdout st' = Merger.stdout st →
            ∃ e, Merger.raised w = Some e
                 ∧ Merger.printed (Merger.run w)
                   = (([Txt "Data directory:"; Txt (Merger.data_dir w)] :: ls)
                      ++ [failure_message e])%list) as Hfail.
  { intros e st' Hbody Hout. exists e.
    assert (Merger.raised w = Some e) as Hraised
      by (unfold Merger.raised; by rewrite Hbody).
    split; [done|].
    destruct (run_caught w e Hpy Hraised) as (st'' & Hbody' & ->).
    rewrite Hbody in Hbody'. injection Hbody' as <-. simpl.
    by rewrite Hout, Hst. }
  destruct r as [e|df].
  - right. apply (Hfail e st); [|done].
    unfold Merger.try_body. by rewrite bind_script, Hprep.
  - destruct (Merger.to_excel_raises w) as [[e left_behind]|] eqn:Hw.
    + right. apply (Hfail e (Merger.Process (Merger.stdout st) left_behind));
        [|done].
      unfold Merger.try_body. rewrite bind_script, Hprep, bind_script.
      unfold Merger.to_excel. by rewrite Hw.
    + left. exists (Merger.to_sheet df).
      assert (Merger.try_body w (Merger.at_try w)
              = (Merger.Process (Merger.stdout st ++ [saved_line w])
                   (Some (Merger.Sheet (Merger.to_sheet df))), inr ()))
        as Hbody.
      { unfold Merger.try_body. rewrite bind_script, Hprep, bind_script.
        unfold Merger.to_excel. by rewrite Hw. }
      destruct (Hrows df eq_refl) as [Hrow1 Hrow2].
      unfold Merger.to_sheet. rewrite length_fmap.
      split; [unfold Merger.raised; by rewrite Hbody|].
      unfold Merger.run. rewrite Hpy.
      change (Merger.main w (Merger.Process [] (Merger.output_before w)))
        with (Merger.try_except (Merger.try_body w) Merger.except_handlers
                (Merger.at_try w)).
      unfold Merger.try_except. rewrite Hbody. simpl.
      split; [by rewrite Hst|]. split; [done|].
      split; by right.
Qed.





(** X11: the count a run prints as "Duplicate Application_No in Products"
    is always 0: it is taken after the aggregation, which leaves one row
    for each key. *)
Theorem merger_products_duplicate_count_is_zero (w : Merger.world) (n : nat) :
  [Txt "Duplicate Application_No in Products:"; Int n]
    ∈ Merger.printed (Merger.run w) →
  n = 0%nat.
Proof.
  destruct (Merger.openpyxl_installed w) eqn:Hpy.
  - destruct (run_log w Hpy)
      as (ls & Hquiet & [(df & _ & -> & _)|(e & _ & ->)]);
      rewrite Forall_forall in Hquiet;
      (intros [Hin|Hin]%elem_of_app;
       [by apply (Hquiet _ Hin)|by apply list_elem_of_singleton in Hin]).
  - unfold Merger.run. rewrite Hpy. simpl.
    intros Hin. by apply list_elem_of_singleton in Hin.
Qed.

Lemma merger_products_duplicate_count_is_zero_witness :
  [Txt "Duplicate Application_No in Products:"; Int 0]
    ∈ Merger.printed (Merger.run example_world)
  ∧ 0%nat = 0%nat.
Proof.
  assert ([Txt "Duplicate Application_No in Products:"; Int 0]
            ∈ Merger.printed (Merger.run example_world)) as Hin
    by (vm_compute; set_solver).
  split; [exact Hin|].
  exact (merger_products_duplicate_count_is_zero example_world 0 Hin).
Defined.

(** X12: in a run that raises nothing, the counts printed as "Rows after
    merging with Applications" and as "Merged rows" are both the number of
    rows of the sheet the run writes: the join with Products never changes
    the number of rows. *)
Theorem merger_printed_row_counts (w : Merger.world) :
  Merger.openpyxl_installed w = true →
  Merger.raised w = None →
  ∃ df, Merger.output_after (Merger.run w) = Some (Merger.Sheet df)
        ∧ [Txt "Rows after merging with Applications:"; Int (length df)]
            ∈ Merger.printed (Merger.run w)
        ∧ [Txt "Merged rows:"; Int (length df)]
            ∈ Merger.printed (Merger.run w).
Proof.
  intros Hpy Hok.
  destruct (run_log w Hpy)
    as (ls & Hquiet & [(df & _ & -> & Hout & Hrow1 & Hrow2)|(e & He & _)]);
    [|by rewrite He in Hok].
  exists df. split; [done|]. split; apply elem_of_app; by left.
Qed.

Lemma merger_printed_row_counts_witness :
  ∃ df, Merger.output_after (Merger.run example_world)
        = Some (Merger.Sheet df)
        ∧ [Txt "Rows after merging with Applications:"; Int (length df)]
            ∈ Merger.printed (Merger.run example_world)
        ∧ [Txt "Merged rows:"; Int (length df)]
            ∈ Merger.printed (Merger.run example_world).
Proof. by apply (merger_printed_row_counts example_world). Defined.

(** *** The Sponsor a row receives *)

Lemma NoDup_fmap_elem_inj {A B} (f : A → B) (l : list A) (x y : A) :
  NoDup (f <$> l) → x ∈ l → y ∈ l → f x = f y → x = y.
Proof.
  induction l as [|z l IH]; [by intros _ Hx; apply not_elem_of_nil in Hx|].
  rewrite fmap_cons, NoDup_cons, !elem_of_cons.
  intros [Hz Hnd] [->|Hx] [->|Hy] Hf; [done| | |by apply IH].
  - exfalso. apply Hz. rewrite Hf. apply list_elem_of_fmap. by exists y.
  - exfalso. apply Hz. rewrite <- Hf. apply list_elem_of_fmap. by exists x.
Qed.

(** X13: when Application_No is unique in Applications, the output row of
    each submission row carries the Sponsor of the Applications row that has
    its Application_No. *)
Theorem merger_attaches_sponsor (sub : list (Sub.row cell))
    (apps : list (Apps.row cell)) (prods : list (Prods.row cell))
    (df : list Df.row) :
  NoDup (astype_str <$> (Apps.Application_No <$> apps)) →
  Merger.merge_tables sub apps prods = inr df →
  Forall2 (λ s r, ∀ a, a ∈ apps →
                    astype_str (Apps.Application_No a)
                    = astype_str (Sub.Application_No s) →
                    Df.Sponsor r = Apps.Sponsor a) sub df.
Proof.
  intros Happs Hdf. apply merge_tables_inr in Hdf as ->.
  assert (NoDup (Apps.Application_No <$> (Merger.apps_astype <$> apps)))
    as Hkeys.
  { rewrite <- list_fmap_compose. rewrite <- list_fmap_compose in Happs.
    exact Happs. }
  unfold Merger.merge_prods, Merger.merge_apps.
  rewrite (merge_left_unique _ Prods.Application_No)
    by (rewrite aggregated_keys; apply NoDup_group_keys).
  rewrite (merge_left_unique _ Apps.Application_No) by done.
  rewrite <- !list_fmap_compose. apply Forall2_fmap_r, Forall_Forall2_diag.
  apply Forall_forall. intros s _ a Ha Hk.
  assert (Merger.apps_astype a
          ∈ List.filter (λ r, bool_decide (Apps.Application_No r
                                           = astype_str (Sub.Application_No s)))
              (Merger.apps_astype <$> apps)) as Hin.
  { apply elem_of_List_filter. split.
    - apply list_elem_of_fmap. by exists a.
    - by apply bool_decide_eq_true. }
  simpl.
  destruct (List.filter _ (Merger.apps_astype <$> apps)) as [|a0 rest] eqn:Hf;
    [by apply not_elem_of_nil in Hin|].
  assert (a0 ∈ List.filter (λ r, bool_decide (Apps.Application_No r
                                              = astype_str (Sub.Application_No s)))
                 (Merger.apps_astype <$> apps)) as Hin0
    by (rewrite Hf; left).
  apply elem_of_List_filter in Hin0 as [Hin0 Hk0].
  apply bool_decide_eq_true in Hk0.
  assert (a0 = Merger.apps_astype a) as ->.
  { apply (NoDup_fmap_elem_inj Apps.Application_No
             (Merger.apps_astype <$> apps)); [done|done| |by rewrite Hk0].
    apply list_elem_of_fmap. by exists a. }
  by destruct (List.filter _ (aggregated_row _ <$> _)).
Qed.

Lemma merger_attaches_sponsor_witness :
  Forall2 (λ s r, ∀ a, a ∈ example_apps →
                    astype_str (Apps.Application_No a)
                    = astype_str (Sub.Application_No s) →
                    Df.Sponsor r = Apps.Sponsor a)
    example_sub
    [Df.Row "12345" (Str "Supplemental") (Num "1") (Str "AP")
       (Str "1984-05-31 00:00:00") (Str "STANDARD") (Str "Acme")
       (Str "TABLET / ORAL") (Str "250MG") (Str "DrugX")].
Proof.
  apply (merger_attaches_sponsor example_sub example_apps example_prods).
  - apply NoDup_singleton.
  - vm_compute. reflexivity.
Defined.

(** ** Further properties of the Dashboard *)

(** *** The multi-selects *)

Lemma take_prefix_take {A} (l : list A) (n m : nat) :
  (n ≤ m)%nat → take n l `prefix_of` take m l.
Proof.
  intros Hnm. replace n with (n `min` m)%nat by lia.
  rewrite <- take_take. apply prefix_take.
Qed.

Lemma NoDup_take_unique `{EqDecision A} (l : list A) (n : nat) :
  NoDup (take n (unique l)).
Proof. eapply sublist_NoDup; [apply NoDup_unique|apply sublist_take]. Qed.

Lemma elem_of_take_unique `{EqDecision A} (l : list A) (n : nat) (x : A) :
  x ∈ take n (unique l) → x ∈ l.
Proof. intros Hx. by apply elem_of_unique, (subseteq_take n). Qed.

(** X14: the selections the Sponsor and Drug Name multi-selects start with
    are the beginning of the options they offer, so every default is an
    option; the options hold no value twice, hold only values of the table,
    and number at most 30 and 50. *)
Theorem dashboard_defaults_are_options
    (df : list (Dashboard.row Dashboard.Timestamp Z)) :
  Dashboard.sponsor_default df `prefix_of` Dashboard.sponsor_options df
  ∧ Dashboard.drug_default df `prefix_of` Dashboard.drug_options df
  ∧ NoDup (Dashboard.sponsor_options df)
  ∧ NoDup (Dashboard.drug_options df)
  ∧ (∀ c, c ∈ Dashboard.sponsor_options df → c ∈ Dashboard.Sponsor <$> df)
  ∧ (∀ c, c ∈ Dashboard.drug_options df → c ∈ Dashboard.DrugName <$> df)
  ∧ (length (Dashboard.sponsor_options df) ≤ 30)%nat
  ∧ (length (Dashboard.drug_options df) ≤ 50)%nat.
Proof.
  unfold Dashboard.sponsor_default, Dashboard.sponsor_options,
    Dashboard.drug_default, Dashboard.drug_options.
  split; [apply take_prefix_take; lia|].
  split; [apply take_prefix_take; lia|].
  split; [apply NoDup_take_unique|]. split; [apply NoDup_take_unique|].
  split; [intros c; apply elem_of_take_unique|].
  split; [intros c; apply elem_of_take_unique|].
  rewrite !length_take. lia.
Qed.

(** *** The page as first shown *)

Lemma foldr_min_le (y : Z) (ys : list Z) (z : Z) :
  z ∈ y :: ys → (foldr Z.min y ys ≤ z)%Z.
Proof.
  induction ys as [|x ys IH]; simpl.
  - intros ->%list_elem_of_singleton. lia.
  - rewrite !elem_of_cons. intros [->|[->|Hz]].
    + assert (foldr Z.min y ys ≤ y)%Z by (apply IH; left). lia.
    + lia.
    + assert (foldr Z.min y ys ≤ z)%Z by (apply IH; by right). lia.
Qed.

Lemma foldr_max_ge (y : Z) (ys : list Z) (z : Z) :
  z ∈ y :: ys → (z ≤ foldr Z.max y ys)%Z.
Proof.
  induction ys as [|x ys IH]; simpl.
  - intros ->%list_elem_of_singleton. lia.
  - rewrite !elem_of_cons. intros [->|[->|Hz]].
    + assert (y ≤ foldr Z.max y ys)%Z by (apply IH; left). lia.
    + lia.
    + assert (z ≤ foldr Z.max y ys)%Z by (apply IH; by right). lia.
Qed.

Lemma List_filter_ext_elem {A} (f g : A → bool) (l : list A) :
  (∀ x, x ∈ l → f x = g x) → List.filter f l = List.filter g l.
Proof.
  intros Hfg. apply filter_ext_in. intros x Hx.
  by apply Hfg, list_elem_of_In.
Qed.

Lemma filtered_default (str_contains : string → cell → bool)
    (df : list (Dashboard.row Dashboard.Timestamp Z)) (w : Dashboard.sidebar) :
  Dashboard.default_sidebar df = inr w →
  Dashboard.filtered str_contains df w
  = List.filter (default_selection df) df.
Proof.
  unfold Dashboard.default_sidebar, Dashboard.year_min, Dashboard.year_max.
  destruct (Dashboard.Submission_Year <$> df) as [|y ys] eqn:Hyears;
    [done|].
  simpl. intros [= <-]. unfold Dashboard.filtered. simpl.
  apply List_filter_ext_elem. intros r Hr.
  unfold Dashboard.passes, default_selection. simpl.
  assert (Dashboard.Submission_Year r ∈ y :: ys) as Hy.
  { rewrite <- Hyears. apply list_elem_of_fmap. by exists r. }
  rewrite bool_decide_eq_true_2
    by (split; [by apply foldr_min_le|by apply foldr_max_ge]).
  rewrite bool_decide_eq_true_2; [done|].
  apply elem_of_unique, list_elem_of_fmap. by exists r.
Qed.

(** X15: on the page as first shown, the year range and the Status
    selection exclude nothing: the filtered table holds exactly the rows
    whose Sponsor is among the first 10 distinct sponsors and whose DrugName
    is among the first 5 distinct drugs, in the order of the table. *)
Theorem dashboard_first_page_rows (str_contains : string → cell → bool)
    (df : list (Dashboard.row Dashboard.Timestamp Z)) (w : Dashboard.sidebar) :
  Dashboard.default_sidebar df = inr w →
  Dashboard.filtered str_contains df w
  = List.filter
      (λ r, bool_decide (Dashboard.Sponsor r
                         ∈ take 10 (unique (Dashboard.Sponsor <$> df)))
            && bool_decide (Dashboard.DrugName r
                            ∈ take 5 (unique (Dashboard.DrugName <$> df))))
      df.
Proof. apply filtered_default. Qed.

Lemma dashboard_first_page_rows_witness :
  Dashboard.filtered (λ _ _, true) six_drugs six_drugs_sidebar
  = List.filter
      (λ r, bool_decide (Dashboard.Sponsor r
                         ∈ take 10 (unique (Dashboard.Sponsor <$> six_drugs)))
            && bool_decide (Dashboard.DrugName r
                            ∈ take 5 (unique (Dashboard.DrugName
                                              <$> six_drugs))))
      six_drugs.
Proof.
  apply (dashboard_first_page_rows (λ _ _, true) six_drugs six_drugs_sidebar).
  reflexivity.
Defined.

(** X16: when the table has at most 10 distinct sponsors and at most 5
    distinct drugs, the page as first shown filters nothing out. *)
Theorem dashboard_first_page_shows_small_table
    (str_contains : string → cell → bool)
    (df : list (Dashboard.row Dashboard.Timestamp Z)) (w : Dashboard.sidebar) :
  Dashboard.default_sidebar df = inr w →
  (nunique (Dashboard.Sponsor <$> df) ≤ 10)%nat →
  (nunique (Dashboard.DrugName <$> df) ≤ 5)%nat →
  Dashboard.filtered str_contains df w = df.
Proof.
  intros Hw Hsponsors Hdrugs. rewrite (filtered_default _ _ _ Hw).
  apply List_filter_all. intros r Hr. unfold default_selection.
  unfold Dashboard.sponsor_default, Dashboard.drug_default.
  rewrite !take_ge by done.
  rewrite !bool_decide_eq_true_2; [done| |];
    apply elem_of_unique, list_elem_of_fmap; by exists r.
Qed.

Lemma dashboard_first_page_shows_small_table_witness :
  Dashboard.filtered (λ _ _, true) two_drugs two_drugs_sidebar = two_drugs.
Proof.
  apply (dashboard_first_page_shows_small_table (λ _ _, true) two_drugs
           two_drugs_sidebar).
  - reflexivity.
  - vm_compute. lia.
  - vm_compute. lia.
Defined.

(** *** A sheet without dates *)

Lemma default_sidebar_nil :
  Dashboard.default_sidebar [] = inl ValueError.
Proof. done. Qed.

Lemma year_bounds (r : Dashboard.row Dashboard.Timestamp Z)
    (df : list (Dashboard.row Dashboard.Timestamp Z)) :
  ∃ lo hi, Dashboard.year_min (r :: df) = inr lo
    ∧ Dashboard.year_max (r :: df) = inr hi
    ∧ Forall (λ x, (lo ≤ Dashboard.Submission_Year x ≤ hi)%Z) (r :: df).
Proof.
  unfold Dashboard.year_min, Dashboard.year_max. rewrite fmap_cons.
  eexists _, _. split; [done|]. split; [done|].
  apply Forall_forall. intros x Hx.
  assert (Dashboard.Submission_Year x
            ∈ Dashboard.Submission_Year r
              :: (Dashboard.Submission_Year <$> df)) as Hy.
  { rewrite <- fmap_cons. apply list_elem_of_fmap. by exists x. }
  split; [by apply foldr_min_le|by apply foldr_max_ge].
Qed.

Lemma filter_has_date_nil
    (rows : list (Dashboard.row (option Dashboard.Timestamp) unit)) :
  Forall (λ r, Dashboard.Submission_Date r = None) rows →
  filter has_date rows = [].
Proof.
  induction 1 as [|r rows Hr _ IH]; [done|].
  rewrite filter_cons_False; [done|]. unfold has_date. rewrite Hr.
  intros Hd. by destruct Hd.
Qed.

(** X17: a sheet whose rows all lack a Submission_Date loads as an empty
    table, and the year bounds of lines 36-37 then fail with ValueError, so
    no sidebar is built; a sheet with at least one dated row loads as a
    table that is not empty, for which lines 36-37 compute a least and a
    greatest year, with the year of every row between them. *)
Theorem dashboard_needs_a_dated_row
    (rows : list (Dashboard.row (option Dashboard.Timestamp) unit)) :
  ∃ df, Dashboard.load_data (Dashboard.Dates rows) = inr df
    ∧ (Forall (λ r, Dashboard.Submission_Date r = None) rows →
       df = []
       ∧ Dashboard.year_min df = inl ValueError
       ∧ Dashboard.default_sidebar df = inl ValueError)
    ∧ (Exists has_date rows →
       df ≠ []
       ∧ ∃ lo hi, Dashboard.year_min df = inr lo
           ∧ Dashboard.year_max df = inr hi
           ∧ Forall (λ r, (lo ≤ Dashboard.Submission_Year r ≤ hi)%Z) df).
Proof.
  destruct (load_dates rows) as (df & Hload & Hrows).
  exists df. split; [done|]. split.
  - intros Hnone. rewrite (filter_has_date_nil _ Hnone) in Hrows.
    apply Forall2_nil_inv_l in Hrows as ->. done.
  - intros Hsome. apply Exists_exists in Hsome as (r & Hr & Hdate).
    assert (r ∈ filter has_date rows) as Hin
      by (apply list_elem_of_filter; by split).
    destruct df as [|r' df].
    + apply Forall2_nil_inv_r in Hrows. rewrite Hrows in Hin.
      by apply not_elem_of_nil in Hin.
    + split; [done|]. apply year_bounds.
Qed.

(** *** Filtering only removes rows *)

Lemma List_filter_sublist {A} (f : A → bool) (l : list A) :
  List.filter f l `sublist_of` l.
Proof.
  induction l as [|x l IH]; simpl; [constructor|].
  destruct (f x); by constructor.
Qed.

(** X18: the filtered table is the table with rows left out, the others in
    their order; typing a search only leaves out more rows of what the other
    widgets let through. *)
Theorem dashboard_filter_only_removes (str_contains : string → cell → bool)
    (df : list (Dashboard.row Dashboard.Timestamp Z)) (w : Dashboard.sidebar) :
  Dashboard.filtered str_contains df w `sublist_of` df
  ∧ Dashboard.filtered str_contains df w
      `sublist_of` Dashboard.filtered str_contains df (without_search w)
  ∧ (length (Dashboard.filtered str_contains df w) ≤ length df)%nat.
Proof.
  assert (Dashboard.filtered str_contains df (without_search w)
          = List.filter (Dashboard.passes w) df) as Hplain by done.
  assert (Dashboard.filtered str_contains df w
            `sublist_of` List.filter (Dashboard.passes w) df) as Hsub.
  { unfold Dashboard.filtered.
    destruct (decide (Dashboard.search w = EmptyString)); [done|].
    apply List_filter_sublist. }
  assert (Dashboard.filtered str_contains df w `sublist_of` df) as Hdf.
  { etrans; [exact Hsub|apply List_filter_sublist]. }
  split; [done|]. split; [by rewrite Hplain|].
  by apply sublist_length.
Qed.

(** *** The Approved metric *)

Lemma status_label_approved (c : cell) :
  status_label c = Str "Approved" ↔ c = Str "AP" ∨ c = Str "Approved".
Proof.
  destruct c as [|s|n]; simpl; [intuition congruence| |intuition congruence].
  repeat case_decide; subst; intuition congruence.
Qed.

Lemma approved_after_load
    (rows : list (Dashboard.row (option Dashboard.Timestamp) unit)) :
  length (List.filter (λ c, bool_decide (c = Str "Approved"))
            (Dashboard.Status
             <$> omap Dashboard.with_year
                   (Dashboard.normalise <$> Dashboard.dropna_date rows)))
  = length (filter counts_as_approved rows).
Proof.
  unfold Dashboard.dropna_date.
  induction rows as [|r rows IH]; [done|].
  rewrite filter_cons. cbn [List.filter].
  destruct (Dashboard.Submission_Date r) as [t|] eqn:Hdate.
  - rewrite bool_decide_eq_true_2 by by eexists.
    rewrite fmap_cons. cbn [omap list_omap].
    destruct (Dashboard.with_year (Dashboard.normalise r)) as [r'|] eqn:Hr';
      [|unfold Dashboard.with_year, Dashboard.normalise in Hr';
        simpl in Hr'; by rewrite Hdate in Hr'].
    apply normalise_with_year in Hr' as (_ & _ & Hstatus & _).
    rewrite fmap_cons. cbn [List.filter]. rewrite Hstatus.
    destruct (decide (counts_as_approved r)) as [[_ Hap]|Hnot].
    + rewrite bool_decide_eq_true_2 by by apply status_label_approved.
      simpl. by rewrite IH.
    + rewrite bool_decide_eq_false_2; [done|].
      intros Hap%status_label_approved. apply Hnot. split; [|done].
      unfold has_date. by rewrite Hdate.
  - rewrite bool_decide_eq_false_2 by by intros [? [=]].
    rewrite decide_False; [done|].
    intros [Hd _]. unfold has_date in Hd. by rewrite Hdate in Hd.
Qed.

(** X19: over a loaded table, the Approved metric counts exactly the rows
    of the sheet that have a Submission_Date and whose Status is the code AP
    or already the label Approved. *)
Theorem dashboard_approved_counts_ap
    (rows : list (Dashboard.row (option Dashboard.Timestamp) unit))
    (df : list (Dashboard.row Dashboard.Timestamp Z)) :
  Dashboard.load_data (Dashboard.Dates rows) = inr df →
  Dashboard.approved (Dashboard.render df)
  = length (filter counts_as_approved rows).
Proof. intros [= <-]. apply approved_after_load. Qed.

Lemma dashboard_approved_counts_ap_witness :
  Dashboard.approved
    (Dashboard.render
       [Dashboard.Row (Num "12345") (Str "Supplemental") (Num "1")
          (Str "Approved") (Dashboard.Stamp 1984 5 31 0) (Str "STANDARD")
          (Str "Unknown") (Str "TABLET / ORAL") (Str "250MG") (Str "DrugX")
          1984%Z;
        Dashboard.Row (Num "20001") (Str "Original") (Num "1") (Str "RL")
          (Dashboard.Stamp 1999 1 4 0) (Str "PRIORITY") (Str "Other Labs")
          NaN NaN (Str "Unknown") 1999%Z])
  = length (filter counts_as_approved dated_rows).
Proof.
  apply (dashboard_approved_counts_ap dated_rows).
  vm_compute. reflexivity.
Defined.

(** *** What a loaded table never holds *)

Lemma loaded_invariant (r : Dashboard.row (option Dashboard.Timestamp) unit)
    (r' : Dashboard.row Dashboard.Timestamp Z) :
  loaded r r' →
  Dashboard.Sponsor r' ≠ NaN
  ∧ Dashboard.DrugName r' ≠ NaN
  ∧ Dashboard.Status r' ≠ Str "AP"
  ∧ Dashboard.Status r' ≠ Str "TA"
  ∧ Dashboard.Submission_Year r'
    = Dashboard.year (Dashboard.Submission_Date r').
Proof.
  intros (_ & Hyear & Hstatus & _ & Hsponsor & Hdrug & _).
  rewrite Hsponsor, Hdrug, Hstatus.
  split; [by destruct (Dashboard.Sponsor r)|].
  split; [by destruct (Dashboard.DrugName r)|].
  split; [|split; [|done]];
    (destruct (Dashboard.Status r) as [|s|n]; simpl; [done| |done];
     repeat case_decide; congruence).
Qed.

(** X20: a loaded table has no more rows than the sheet, and no row of it
    has a missing Sponsor or DrugName, a Status still equal to the code AP
    or TA, or a Submission_Year other than the year of its
    Submission_Date. *)
Theorem dashboard_loaded_table_is_normalised
    (rows : list (Dashboard.row (option Dashboard.Timestamp) unit))
    (df : list (Dashboard.row Dashboard.Timestamp Z)) :
  Dashboard.load_data (Dashboard.Dates rows) = inr df →
  (length df ≤ length rows)%nat
  ∧ Forall (λ r, Dashboard.Sponsor r ≠ NaN
                 ∧ Dashboard.DrugName r ≠ NaN
                 ∧ Dashboard.Status r ≠ Str "AP"
                 ∧ Dashboard.Status r ≠ Str "TA"
                 ∧ Dashboard.Submission_Year r
                   = Dashboard.year (Dashboard.Submission_Date r)) df.
Proof.
  intros Hload. destruct (load_dates rows) as (df' & Hload' & Hrows).
  rewrite Hload in Hload'. injection Hload' as <-. split.
  - rewrite <- (Forall2_length _ _ _ Hrows). apply length_filter.
  - clear Hload. induction Hrows as [|r r' rs rs' Hr _ IH]; constructor;
      [by eapply loaded_invariant|done].
Qed.

Lemma dashboard_loaded_table_is_normalised_witness :
  let df :=
    [Dashboard.Row (Num "12345") (Str "Supplemental") (Num "1")
       (Str "Approved") (Dashboard.Stamp 1984 5 31 0) (Str "STANDARD")
       (Str "Unknown") (Str "TABLET / ORAL") (Str "250MG") (Str "DrugX")
       1984%Z;
     Dashboard.Row (Num "20001") (Str "Original") (Num "1") (Str "RL")
       (Dashboard.Stamp 1999 1 4 0) (Str "PRIORITY") (Str "Other Labs")
       NaN NaN (Str "Unknown") 1999%Z] in
  (length df ≤ length dated_rows)%nat
  ∧ Forall (λ r, Dashboard.Sponsor r ≠ NaN
                 ∧ Dashboard.DrugName r ≠ NaN
                 ∧ Dashboard.Status r ≠ Str "AP"
                 ∧ Dashboard.Status r ≠ Str "TA"
                 ∧ Dashboard.Submission_Year r
                   = Dashboard.year (Dashboard.Submission_Date r)) df.
Proof.
  apply (dashboard_loaded_table_is_normalised dated_rows).
  vm_compute. reflexivity.
Defined.

(** ** The exit status of the Merger *)

Lemma run_exit_installed (w : Merger.world) :
  Merger.openpyxl_installed w = true →
  Merger.exit_code (Merger.run w) = 0%Z.
Proof.
  intros Hpy. unfold Merger.run. rewrite Hpy.
  change (Merger.main w (Merger.Process [] (Merger.output_before w)))
    with (Merger.try_except (Merger.try_body w) Merger.except_handlers
            (Merger.at_try w)).
  unfold Merger.try_except.
  destruct (Merger.try_body w (Merger.at_try w)) as [st [e|[]]]; [|done].
  by destruct e.
Qed.

(** X21: the exit status of a run is 1 when openpyxl cannot be imported and
    0 in every other run, whether or not it failed; without openpyxl the run
    prints the install hint only and leaves the output file as it was. *)
Theorem merger_exit_status (w : Merger.world) :
  Merger.exit_code (Merger.run w)
  = (if Merger.openpyxl_installed w then 0 else 1)%Z
  ∧ (Merger.openpyxl_installed w = false →
     Merger.printed (Merger.run w)
     = [[Txt "Error: 'openpyxl' is not installed. Install it using 'pip install openpyxl'."]]
     ∧ Merger.output_after (Merger.run w) = Merger.output_before w).
Proof.
  destruct (Merger.openpyxl_installed w) eqn:Hpy.
  - split; [by apply run_exit_installed|done].
  - unfold Merger.run. rewrite Hpy. by repeat split.
Qed.
